(** * releasetool: tagging a Ruby release

    A shallow embedding of [releasetool/commands/tag/ruby.py] and the
    properties of its pipeline: picking the release pull request, deriving
    the release tag, extracting the release notes, creating the release and
    waiting for the CircleCI build.

    Python [str] values are modelled as [string]; a character stands for a
    code point below 256, and the character tests below are Python's on
    that range. *)

From Stdlib Require Import String Ascii List ZArith NArith Bool Arith Lia.
From Stdlib Require Import Numbers.DecimalString.
Import ListNotations.

Set Implicit Arguments.
Open Scope string_scope.

(* ===================================================================== *)
(** ** Python strings *)
(* ===================================================================== *)

Module Py.

Definition ord (c : ascii) : N := N_of_ascii c.

(** The line feed, ["\n"]. *)
Definition LF : ascii := ascii_of_N 10.

Definition is_lf (c : ascii) : bool := (ord c =? 10)%N.

(** [str.isdigit] on one character (the decimal digits of the range). *)
Definition isdigit (c : ascii) : bool :=
  ((48 <=? ord c) && (ord c <=? 57))%N.

(** [str.isspace] on one character: TAB..CR, FS..US, space, NEL, NBSP. *)
Definition isspace (c : ascii) : bool :=
  let n := ord c in
  (((9 <=? n) && (n <=? 13)) || ((28 <=? n) && (n <=? 32))
   || (n =? 133) || (n =? 160))%N.

Definition lower_char (c : ascii) : ascii :=
  let n := ord c in
  if (((65 <=? n) && (n <=? 90))
      || ((192 <=? n) && (n <=? 222) && negb (n =? 215)))%N
  then ascii_of_N (n + 32) else c.

(** [s.lower()] *)
Fixpoint lower (s : string) : string :=
  match s with
  | EmptyString => EmptyString
  | String c s' => String (lower_char c) (lower s')
  end.

(** [sub in s] *)
Fixpoint contains (sub s : string) : bool :=
  prefix sub s ||
  match s with
  | EmptyString => false
  | String _ s' => contains sub s'
  end.

Fixpoint lstrip (s : string) : string :=
  match s with
  | EmptyString => EmptyString
  | String c s' => if isspace c then lstrip s' else s
  end.

Fixpoint rstrip (s : string) : string :=
  match s with
  | EmptyString => EmptyString
  | String c s' =>
      match rstrip s' with
      | EmptyString => if isspace c then EmptyString else String c EmptyString
      | r => String c r
      end
  end.

(** [s.strip()] *)
Definition strip (s : string) : string := rstrip (lstrip s).

(** [str(x)] of an optional string, as an f-string renders it. *)
Definition fmt (o : option string) : string :=
  match o with
  | Some s => s
  | None => "None"
  end.

(** [str(n)] of a non-negative integer. *)
Definition str_of_N (n : N) : string :=
  NilZero.string_of_uint (N.to_uint n).

(** [l[i]] with Python's negative indices; [None] stands for IndexError. *)
Definition index {A} (l : list A) (i : Z) : option A :=
  let n := Z.of_nat (List.length l) in
  if (0 <=? i)%Z then nth_error l (Z.to_nat i)
  else if (- n <=? i)%Z then nth_error l (Z.to_nat (n + i))
  else None.

(** [l[:n]] for a non-negative [n]. *)
Definition slice_to {A} (n : nat) (l : list A) : list A := firstn n l.

End Py.

(* ===================================================================== *)
(** ** Regular expressions: the part of Python's [re] the tool relies on *)
(* ===================================================================== *)

Module Re.

Inductive category : Type := Digit | NotDigit | Space | NotSpace.

Inductive citem : Type :=
| CChar (c : ascii)
| CRange (lo hi : ascii)
| CCat (k : category).

Inductive regex : Type :=
| Empty
| Lit (c : ascii)
| Dot
| In (negate : bool) (items : list citem)
| Cat (k : category)
| Bol                      (* ^  *)
| Eol                      (* $  *)
| StartString              (* \A *)
| EndString                (* \Z *)
| Seq (r1 r2 : regex)
| Alt (r1 r2 : regex)
| Group (idx : nat) (r : regex)
| Repeat (min : nat) (max : option nat) (greedy : bool) (r : regex).

(** Outcome of reading a pattern: a syntax tree, [re.error], or a
    construct outside the modelled part of the syntax. *)
Inductive parsed (A : Type) : Type :=
| Parsed (a : A)
| Rejected
| Unmodelled.
Arguments Rejected {A}.
Arguments Unmodelled {A}.

Definition pbind {A B} (p : parsed A) (f : A -> parsed B) : parsed B :=
  match p with
  | Parsed a => f a
  | Rejected => Rejected
  | Unmodelled => Unmodelled
  end.

Notation "'let*' x ':=' p 'in' q" := (pbind p (fun x => q))
  (at level 10, x pattern, p at level 100, q at level 200).

Fixpoint nullable (r : regex) : bool :=
  match r with
  | Empty | Bol | Eol | StartString | EndString => true
  | Lit _ | Dot | In _ _ | Cat _ => false
  | Seq a b => nullable a && nullable b
  | Alt a b => nullable a || nullable b
  | Group _ a => nullable a
  | Repeat mn _ _ a => (mn =? 0)%nat || nullable a
  end.

(** *** Reading a pattern *)

Record pstate : Type := { ngroups : nat; gnames : list (string * nat) }.

Definition is_alnum (c : ascii) : bool :=
  let n := Py.ord c in
  (((48 <=? n) && (n <=? 57)) || ((65 <=? n) && (n <=? 90))
   || ((97 <=? n) && (n <=? 122)))%N.

(** The character after a backslash, outside a set. *)
Definition escape_atom (e : ascii) : parsed regex :=
  if (e =? "d")%char then Parsed (Cat Digit)
  else if (e =? "D")%char then Parsed (Cat NotDigit)
  else if (e =? "s")%char then Parsed (Cat Space)
  else if (e =? "S")%char then Parsed (Cat NotSpace)
  else if (e =? "Z")%char then Parsed EndString
  else if (e =? "A")%char then Parsed StartString
  else if (e =? "n")%char then Parsed (Lit Py.LF)
  else if (e =? "t")%char then Parsed (Lit (ascii_of_N 9))
  else if (e =? "r")%char then Parsed (Lit (ascii_of_N 13))
  else if (e =? "f")%char then Parsed (Lit (ascii_of_N 12))
  else if (e =? "v")%char then Parsed (Lit (ascii_of_N 11))
  else if (e =? "a")%char then Parsed (Lit (ascii_of_N 7))
  else if is_alnum e then Unmodelled
  else Parsed (Lit e).

(** One member of a set [[...]], starting at character [c]. *)
Definition set_atom (c : ascii) (s : string) : parsed (citem * string) :=
  if (c =? "\")%char then
    match s with
    | EmptyString => Rejected
    | String e s' =>
        match escape_atom e with
        | Parsed (Cat k) => Parsed (CCat k, s')
        | Parsed (Lit l) => Parsed (CChar l, s')
        | Parsed _ => Unmodelled
        | Rejected => Rejected
        | Unmodelled => Unmodelled
        end
    end
  else Parsed (CChar c, s).

Fixpoint parse_set (fuel : nat) (first : bool) (acc : list citem)
         (s : string) : parsed (list citem * string) :=
  match fuel with
  | O => Unmodelled
  | S f =>
      match s with
      | EmptyString => Rejected
      | String c s1 =>
          if (c =? "]")%char && negb first then Parsed (rev acc, s1)
          else
            let* (lo, s2) := set_atom c s1 in
            match s2 with
            | String "-" EmptyString => Rejected
            | String "-" (String c2 s4) =>
                if (c2 =? "]")%char
                then Parsed (rev (CChar "-" :: lo :: acc), s4)
                else
                  let* (hi, s5) := set_atom c2 s4 in
                  match lo, hi with
                  | CChar a, CChar b =>
                      if (Py.ord b <? Py.ord a)%N then Rejected
                      else parse_set f false (CRange a b :: acc) s5
                  | _, _ => Rejected
                  end
            | _ => parse_set f false (lo :: acc) s2
            end
      end
  end.

(** The name of [(?P<name>...)], up to the closing [>]. *)
Fixpoint take_name (s : string) : option (string * string) :=
  match s with
  | EmptyString => None
  | String c s' =>
      if (c =? ">")%char then Some (EmptyString, s')
      else match take_name s' with
           | Some (n, r) => Some (String c n, r)
           | None => None
           end
  end.

Fixpoint name_chars (s : string) : bool :=
  match s with
  | EmptyString => true
  | String c s' => (is_alnum c || (c =? "_")%char) && name_chars s'
  end.

Definition valid_name (s : string) : bool :=
  match s with
  | EmptyString => false
  | String c _ => negb (Py.isdigit c) && name_chars s
  end.

Fixpoint lookup_name (n : string) (l : list (string * nat)) : option nat :=
  match l with
  | [] => None
  | (m, i) :: l' => if (m =? n)%string then Some i else lookup_name n l'
  end.

Definition seq (a b : regex) : regex :=
  match b with
  | Empty => a
  | _ => Seq a b
  end.

Definition bounds (q : ascii) : option (nat * option nat) :=
  if (q =? "*")%char then Some (0, None)
  else if (q =? "+")%char then Some (1, None)
  else if (q =? "?")%char then Some (0, Some 1)
  else None.

(** An optional quantifier after the item [a]. *)
Definition quantify (a : regex) (s : string) : parsed (regex * string) :=
  match s with
  | EmptyString => Parsed (a, s)
  | String q s1 =>
      match bounds q with
      | Some (mn, mx) =>
          match a with
          | Empty | Bol | Eol | StartString | EndString => Rejected
          | _ =>
              if nullable a then Unmodelled
              else
                match s1 with
                | String "?" s2 => Parsed (Repeat mn mx false a, s2)
                | String "+" _ => Unmodelled
                | _ => Parsed (Repeat mn mx true a, s1)
                end
          end
      | None => if (q =? "{")%char then Unmodelled else Parsed (a, s)
      end
  end.

Fixpoint parse_alt (fuel : nat) (ps : pstate) (s : string) {struct fuel}
  : parsed (regex * pstate * string) :=
  match fuel with
  | O => Unmodelled
  | S f =>
      let* (r1, ps1, s1) := parse_seq f ps s in
      match s1 with
      | String "|" s2 =>
          let* (r2, ps2, s3) := parse_alt f ps1 s2 in
          Parsed (Alt r1 r2, ps2, s3)
      | _ => Parsed (r1, ps1, s1)
      end
  end

with parse_seq (fuel : nat) (ps : pstate) (s : string) {struct fuel}
  : parsed (regex * pstate * string) :=
  match fuel with
  | O => Unmodelled
  | S f =>
      match s with
      | EmptyString => Parsed (Empty, ps, s)
      | String c s1 =>
          if (c =? "|")%char || (c =? ")")%char then Parsed (Empty, ps, s)
          else
            let* (a, ps1, s2) := parse_atom f ps c s1 in
            let* (item, s3) := quantify a s2 in
            let* (r, ps2, s4) := parse_seq f ps1 s3 in
            Parsed (seq item r, ps2, s4)
      end
  end

with parse_atom (fuel : nat) (ps : pstate) (c : ascii) (s : string)
     {struct fuel} : parsed (regex * pstate * string) :=
  match fuel with
  | O => Unmodelled
  | S f =>
      if (c =? ".")%char then Parsed (Dot, ps, s)
      else if (c =? "^")%char then Parsed (Bol, ps, s)
      else if (c =? "$")%char then Parsed (Eol, ps, s)
      else if (c =? "*")%char || (c =? "+")%char || (c =? "?")%char
      then Rejected
      else if (c =? "{")%char then Unmodelled
      else if (c =? "\")%char then
        match s with
        | EmptyString => Rejected
        | String e s1 => let* a := escape_atom e in Parsed (a, ps, s1)
        end
      else if (c =? "[")%char then
        let (neg, body) :=
          match s with
          | String "^" s1 => (true, s1)
          | _ => (false, s)
          end in
        let* (items, s2) := parse_set (S (String.length body)) true [] body in
        Parsed (In neg items, ps, s2)
      else if (c =? "(")%char then
        match s with
        | String "?" (String "P" (String "<" s1)) =>
            match take_name s1 with
            | None => Rejected
            | Some (name, s2) =>
                if negb (valid_name name) then Unmodelled
                else
                  match lookup_name name (gnames ps) with
                  | Some _ => Rejected
                  | None =>
                      let idx := S (ngroups ps) in
                      let ps0 := {| ngroups := idx;
                                    gnames := (name, idx) :: gnames ps |} in
                      let* (r, ps1, s3) := parse_alt f ps0 s2 in
                      match s3 with
                      | String ")" s4 => Parsed (Group idx r, ps1, s4)
                      | _ => Rejected
                      end
                  end
            end
        | String "?" _ => Unmodelled
        | _ =>
            let idx := S (ngroups ps) in
            let ps0 := {| ngroups := idx; gnames := gnames ps |} in
            let* (r, ps1, s3) := parse_alt f ps0 s in
            match s3 with
            | String ")" s4 => Parsed (Group idx r, ps1, s4)
            | _ => Rejected
            end
        end
      else Parsed (Lit c, ps, s)
  end.

Record pattern : Type :=
  { p_regex : regex; p_names : list (string * nat); p_groups : nat }.

(** [re.compile(p)] *)
Definition compile (p : string) : parsed pattern :=
  let* (r, ps, s) :=
    parse_alt (3 * String.length p + 3) {| ngroups := 0; gnames := [] |} p in
  match s with
  | EmptyString =>
      Parsed {| p_regex := r; p_names := gnames ps; p_groups := ngroups ps |}
  | _ => Rejected
  end.

(** *** Matching: a backtracking matcher with Python's priorities *)

Record flags : Type := { DOTALL : bool; MULTILINE : bool }.

Definition no_flags : flags := {| DOTALL := false; MULTILINE := false |}.

(** A position in the subject: its index, the character before it and
    the text from it on. *)
Record cursor : Type := { pos : nat; prev : option ascii; rest : string }.

Definition start (s : string) : cursor :=
  {| pos := 0; prev := None; rest := s |}.

Definition advance (cur : cursor) (c : ascii) (r : string) : cursor :=
  {| pos := S (pos cur); prev := Some c; rest := r |}.

(** Group spans [(start, end)], the most recent capture of a group
    first. *)
Definition captures : Type := list (nat * (nat * nat)).

Definition in_category (k : category) (c : ascii) : bool :=
  match k with
  | Digit => Py.isdigit c
  | NotDigit => negb (Py.isdigit c)
  | Space => Py.isspace c
  | NotSpace => negb (Py.isspace c)
  end.

Definition in_item (c : ascii) (i : citem) : bool :=
  match i with
  | CChar a => (a =? c)%char
  | CRange lo hi => ((Py.ord lo <=? Py.ord c) && (Py.ord c <=? Py.ord hi))%N
  | CCat k => in_category k c
  end.

Definition in_set (neg : bool) (items : list citem) (c : ascii) : bool :=
  xorb neg (existsb (in_item c) items).

(** [s[i:j]] for [0 <= i <= j] *)
Definition slice (s : string) (span : nat * nat) : string :=
  substring (fst span) (snd span - fst span) s.

Section Matching.

Variable fl : flags.

Definition outcome : Type := (cursor * captures)%type.
Definition cont : Type := cursor -> captures -> option outcome.

Definition eat (test : ascii -> bool) (cur : cursor) (caps : captures)
           (k : cont) : option outcome :=
  match rest cur with
  | EmptyString => None
  | String c r =>
      if test c then k (advance cur c r) caps else None
  end.

(** [.]: any character, the line feed only under DOTALL. *)
Definition dot (c : ascii) : bool := DOTALL fl || negb (Py.is_lf c).

(** [^]: the start of the subject, under MULTILINE also after a line
    feed. *)
Definition at_bol (cur : cursor) : bool :=
  match prev cur with
  | None => true
  | Some c => MULTILINE fl && Py.is_lf c
  end.

(** [$]: the end of the subject or just before its final line feed,
    under MULTILINE before any line feed. *)
Definition at_eol (cur : cursor) : bool :=
  match rest cur with
  | EmptyString => true
  | String c r =>
      Py.is_lf c && (MULTILINE fl || (r =? EmptyString)%string)
  end.

Definition at_start (cur : cursor) : bool :=
  match prev cur with
  | None => true
  | Some _ => false
  end.

Definition at_end (cur : cursor) : bool :=
  match rest cur with
  | EmptyString => true
  | String _ _ => false
  end.

Definition may_repeat (mx : option nat) (count : nat) : bool :=
  match mx with
  | None => true
  | Some m => (count <? m)%nat
  end.

(** The iterations of a repeat whose item runs as [body]: a greedy one
    tries another iteration first, a lazy one tries to go on first. *)
Fixpoint repeat_loop (body : cursor -> captures -> cont -> option outcome)
         (mn : nat) (mx : option nat) (greedy : bool) (k : cont)
         (fuel count : nat) (cur : cursor) (caps : captures)
         {struct fuel} : option outcome :=
  if greedy then
    match
      match fuel with
      | O => None
      | S f =>
          if may_repeat mx count
          then body cur caps (repeat_loop body mn mx greedy k f (S count))
          else None
      end
    with
    | Some o => Some o
    | None => if (mn <=? count)%nat then k cur caps else None
    end
  else
    match (if (mn <=? count)%nat then k cur caps else None) with
    | Some o => Some o
    | None =>
        match fuel with
        | O => None
        | S f =>
            if may_repeat mx count
            then body cur caps (repeat_loop body mn mx greedy k f (S count))
            else None
        end
    end.

Fixpoint exec (r : regex) (cur : cursor) (caps : captures) (k : cont)
         {struct r} : option outcome :=
  match r with
  | Empty => k cur caps
  | Lit c => eat (Ascii.eqb c) cur caps k
  | Dot => eat dot cur caps k
  | In neg items => eat (in_set neg items) cur caps k
  | Cat cat => eat (in_category cat) cur caps k
  | Bol => if at_bol cur then k cur caps else None
  | Eol => if at_eol cur then k cur caps else None
  | StartString => if at_start cur then k cur caps else None
  | EndString => if at_end cur then k cur caps else None
  | Seq a b => exec a cur caps (fun cur' caps' => exec b cur' caps' k)
  | Alt a b =>
      match exec a cur caps k with
      | Some o => Some o
      | None => exec b cur caps k
      end
  | Group i a =>
      exec a cur caps
           (fun cur' caps' =>
              k cur' ((i, (pos cur, pos cur')) :: caps'))
  | Repeat mn mx greedy a =>
      repeat_loop (exec a) mn mx greedy k
                  (S (String.length (rest cur))) 0 cur caps
  end.

End Matching.

(** A match object: the subject, the span of the whole match, the spans
    of the groups and the pattern. *)
Record Match : Type :=
  { m_string : string; m_span : nat * nat; m_caps : captures;
    m_pattern : pattern }.

Definition finish : cont := fun cur caps => Some (cur, caps).

Definition match_at (fl : flags) (p : pattern) (subject : string)
           (cur : cursor) : option Match :=
  match exec fl (p_regex p) cur [] finish with
  | Some (cur', caps) =>
      Some {| m_string := subject; m_span := (pos cur, pos cur');
              m_caps := caps; m_pattern := p |}
  | None => None
  end.

(** The first position, from index [i] on, at which the pattern matches. *)
Fixpoint scan (fl : flags) (p : pattern) (subject : string) (i : nat)
         (before : option ascii) (s : string) {struct s} : option Match :=
  match match_at fl p subject {| pos := i; prev := before; rest := s |} with
  | Some m => Some m
  | None =>
      match s with
      | EmptyString => None
      | String c s' => scan fl p subject (S i) (Some c) s'
      end
  end.

(** [re.match(pattern, string, flags)]; [None] inside is Python's None. *)
Definition re_match (pat s : string) (fl : flags) : parsed (option Match) :=
  let* p := compile pat in Parsed (match_at fl p s (start s)).

(** [re.search(pattern, string, flags)] *)
Definition re_search (pat s : string) (fl : flags) : parsed (option Match) :=
  let* p := compile pat in Parsed (scan fl p s 0 None s).

Fixpoint capture (i : nat) (caps : captures) : option (nat * nat) :=
  match caps with
  | [] => None
  | (j, sp) :: caps' => if (i =? j)%nat then Some sp else capture i caps'
  end.

(** [m.group(i)]: the outer [None] is IndexError (no such group), the
    inner one Python's None (the group took no part in the match). *)
Definition group (m : Match) (i : nat) : option (option string) :=
  match i with
  | O => Some (Some (slice (m_string m) (m_span m)))
  | _ => if (i <=? p_groups (m_pattern m))%nat
         then Some (option_map (slice (m_string m)) (capture i (m_caps m)))
         else None
  end.

(** [m.group(name)] *)
Definition group_named (m : Match) (name : string)
  : option (option string) :=
  match lookup_name name (p_names (m_pattern m)) with
  | Some i => group m i
  | None => None
  end.

End Re.

(* ===================================================================== *)
(** ** Errors, collaborators and the pipeline monad *)
(* ===================================================================== *)

(** The faults a step can end in.  [OutsideModel] marks an input the
    embedding does not cover (pattern syntax or text outside its range). *)
Inductive exn : Type :=
| IndexError
| AttributeError
| TypeError
| ReError
| UnicodeDecodeError
| Abort
| ClientError (what : string)
| OutsideModel.

Inductive result (A : Type) : Type :=
| Ok (a : A)
| Raise (e : exn).
Arguments Raise {A}.

(** A pull request as the source-hosting API returns it: [pull["title"]],
    [pull["number"]], [pull["head"]["ref"]], [pull["merge_commit_sha"]]. *)
Record PullRequest : Type :=
  { title : string; number : N; head_ref : string;
    merge_commit_sha : string }.

(** The created release: [release["html_url"]]. *)
Record Release : Type := { html_url : string }.

(** A CI build: [build["build_url"]], [build["build_num"]]. *)
Record Build : Type := { build_url : string; build_num : N }.

Module Client.

(** Modelled from the spec: the source-hosting client
  ([releasetool.github.GitHub], held in [ctx.github]), by the interface
  of section 6: each call answers or raises. *)
Record GitHub : Type :=
{ list_pull_requests : string -> string -> result (list PullRequest);
  get_contents : string -> string -> string -> result string;
  create_release :
    string -> option string -> string -> string -> option string ->
    result Release;
  create_pull_request_comment : string -> N -> string -> result unit }.

(** Modelled from the spec: the CI client ([releasetool.circleci.CircleCI]),
  by the interface of section 6; the status generator is a finite
  sequence of status strings. *)
Record CircleCI : Type :=
{ get_latest_build_by_tag : string -> result (option Build);
  get_build_status_generator : N -> list string }.

End Client.

(** [class Context]: the fields the class body declares, all [None] at
    first. *)
Record Context : Type :=
  { package_name : option string;
    release_pr : option PullRequest;
    release_tag : option string;
    release_version : option string;
    release_notes : option string;
    github_release : option Release }.

Definition Context_new : Context :=
  {| package_name := None; release_pr := None; release_tag := None;
     release_version := None; release_notes := None;
     github_release := None |}.

Definition set_package_name (v : option string) (c : Context) : Context :=
  {| package_name := v; release_pr := release_pr c;
     release_tag := release_tag c; release_version := release_version c;
     release_notes := release_notes c; github_release := github_release c |}.

Definition set_release_pr (v : option PullRequest) (c : Context) : Context :=
  {| package_name := package_name c; release_pr := v;
     release_tag := release_tag c; release_version := release_version c;
     release_notes := release_notes c; github_release := github_release c |}.

Definition set_release_tag (v : option string) (c : Context) : Context :=
  {| package_name := package_name c; release_pr := release_pr c;
     release_tag := v; release_version := release_version c;
     release_notes := release_notes c; github_release := github_release c |}.

Definition set_release_version (v : option string) (c : Context) : Context :=
  {| package_name := package_name c; release_pr := release_pr c;
     release_tag := release_tag c; release_version := v;
     release_notes := release_notes c; github_release := github_release c |}.

Definition set_release_notes (v : option string) (c : Context) : Context :=
  {| package_name := package_name c; release_pr := release_pr c;
     release_tag := release_tag c; release_version := release_version c;
     release_notes := v; github_release := github_release c |}.

Definition set_github_release (v : option Release) (c : Context) : Context :=
  {| package_name := package_name c; release_pr := release_pr c;
     release_tag := release_tag c; release_version := release_version c;
     release_notes := release_notes c; github_release := v |}.

(** What the run does to the outside, in order. *)
Inductive event : Type :=
| Secho (text : string) (fg : option string) (nl : bool)
| Print (text : string)
| Prompt (text : string)
| ListPullRequests (repo state : string)
| GetContents (repo path ref : string)
| CreateRelease (repository : string) (tag_name : option string)
                (target_committish name : string) (body : option string)
| CreatePullRequestComment (repo : string) (pr_number : N) (body : string)
| NewCircleCI (repository : string)
| GetLatestBuildByTag (tag_name : string)
| GetBuildStatusGenerator (build_number : N).

(** The mutable context, what is still to be typed at the terminal, and
    the events so far. *)
Record State : Type :=
  { ctx : Context; stdin : string; events : list event }.

Definition M (A : Type) : Type := State -> result A * State.

Definition ret {A} (a : A) : M A := fun st => (Ok a, st).

Definition raise {A} (e : exn) : M A := fun st => (Raise e, st).

Definition bind {A B} (m : M A) (f : A -> M B) : M B :=
  fun st =>
    match m st with
    | (Ok a, st') => f a st'
    | (Raise e, st') => (Raise e, st')
    end.

Declare Scope tool_scope.
Delimit Scope tool_scope with tool.
Notation "x <- m ;; k" := (bind m (fun x => k))
  (at level 61, m at next level, right associativity) : tool_scope.
Notation "m ;; k" := (bind m (fun _ => k))
  (at level 61, right associativity) : tool_scope.
Open Scope tool_scope.

Definition get_ctx : M Context := fun st => (Ok (ctx st), st).

Definition modify (f : Context -> Context) : M unit :=
  fun st =>
    (Ok tt, {| ctx := f (ctx st); stdin := stdin st; events := events st |}).

Definition emit (e : event) : M unit :=
  fun st =>
    (Ok tt,
     {| ctx := ctx st; stdin := stdin st; events := events st ++ [e] |}).

Definition lift {A} (r : result A) : M A := fun st => (r, st).

(** A value that must not be [None] where it is used. *)
Definition require {A} (o : option A) (e : exn) : M A :=
  match o with
  | Some a => ret a
  | None => raise e
  end.

(** The outcome of a call into [re]. *)
Definition of_parsed {A} (p : Re.parsed A) : M A :=
  match p with
  | Re.Parsed a => ret a
  | Re.Rejected => raise ReError
  | Re.Unmodelled => raise OutsideModel
  end.

(** [click.secho(text, fg=..., nl=...)] and [print(text)] *)
Definition secho (text : string) (fg : option string) (nl : bool) : M unit :=
  emit (Secho text fg nl).

Definition print (text : string) : M unit := emit (Print text).

Definition nl : string := String Py.LF EmptyString.
Definition tab : string := String (ascii_of_N 9) EmptyString.
Definition cr : string := String (ascii_of_N 13) EmptyString.

(** *** The terminal *)

(** The first line of [s] without its line feed, and what follows it. *)
Fixpoint read_line (s : string) : string * string :=
  match s with
  | EmptyString => (EmptyString, EmptyString)
  | String c s' =>
      if Py.is_lf c then (EmptyString, s')
      else let (l, r) := read_line s' in (String c l, r)
  end.

(** [input()]: one line of the terminal input; at its end click turns the
    EOFError into [Abort]. *)
Definition input : M string :=
  fun st =>
    match stdin st with
    | EmptyString => (Raise Abort, st)
    | s => let (l, r) := read_line s in
           (Ok l, {| ctx := ctx st; stdin := r; events := events st |})
    end.

Fixpoint int_digits (acc : N) (after_digit : bool) (s : string) : option N :=
  match s with
  | EmptyString => if after_digit then Some acc else None
  | String c s' =>
      if Py.isdigit c then int_digits (acc * 10 + (Py.ord c - 48)) true s'
      else if (c =? "_")%char && after_digit then
        match s' with
        | String d _ => if Py.isdigit d then int_digits acc false s' else None
        | EmptyString => None
        end
      else None
  end.

(** The white space [int] ignores around a number: the separators
    0x1c to 0x1f, which [str.strip] removes, are not part of it. *)
Definition int_space (c : ascii) : bool :=
  let n := Py.ord c in
  (((9 <=? n) && (n <=? 13)) || (n =? 32) || (n =? 133) || (n =? 160))%N.

Fixpoint int_lstrip (s : string) : string :=
  match s with
  | EmptyString => EmptyString
  | String c s' => if int_space c then int_lstrip s' else s
  end.

Fixpoint int_rstrip (s : string) : string :=
  match s with
  | EmptyString => EmptyString
  | String c s' =>
      match int_rstrip s' with
      | EmptyString => if int_space c then EmptyString else String c EmptyString
      | r => String c r
      end
  end.

(** [int(s)] of a string; [None] is ValueError. *)
Definition py_int (s : string) : option Z :=
  match int_rstrip (int_lstrip s) with
  | String "-" t => option_map (fun n => (- Z.of_N n)%Z) (int_digits 0 false t)
  | String "+" t => option_map Z.of_N (int_digits 0 false t)
  | t => option_map Z.of_N (int_digits 0 false t)
  end.

(** [click.prompt(text)]: asks until a non-empty line is typed. *)
Fixpoint prompt_loop (fuel : nat) (text : string) : M string :=
  match fuel with
  | O => raise Abort
  | S f =>
      emit (Prompt text) ;;
      line <- input ;;
      if (line =? EmptyString)%string then prompt_loop f text else ret line
  end.

Definition prompt (text : string) : M string :=
  fun st => prompt_loop (S (String.length (stdin st))) text st.

(** [click.prompt(text, type=int)]: asks until the line typed converts. *)
Fixpoint prompt_int_loop (fuel : nat) (text : string) : M Z :=
  match fuel with
  | O => raise Abort
  | S f =>
      emit (Prompt text) ;;
      line <- input ;;
      match py_int line with
      | Some z => ret z
      | None => prompt_int_loop f text
      end
  end.

Definition prompt_int (text : string) : M Z :=
  fun st => prompt_int_loop (S (String.length (stdin st))) text st.

(** [bytes.decode("utf-8")] for text within the range of the strings
    here.  [Ok] and [UnicodeDecodeError] are Python's answers; a lead byte
    above 0xC3 starts a code point above U+00FF, which no character here
    stands for: [OutsideModel], whether the bytes are UTF-8 or not. *)
Fixpoint decode_utf8 (bytes : string) : result string :=
  match bytes with
  | EmptyString => Ok EmptyString
  | String b bs =>
      let n := Py.ord b in
      if (n <? 128)%N then
        match decode_utf8 bs with
        | Ok t => Ok (String b t)
        | Raise e => Raise e
        end
      else if (n <? 194)%N then Raise UnicodeDecodeError
      else if (n <=? 195)%N then
        match bs with
        | EmptyString => Raise UnicodeDecodeError
        | String b2 bs' =>
            let m := Py.ord b2 in
            if ((128 <=? m) && (m <=? 191))%N then
              match decode_utf8 bs' with
              | Ok t => Ok (String (ascii_of_N ((n - 192) * 64 + (m - 128))) t)
              | Raise e => Raise e
              end
            else Raise UnicodeDecodeError
        end
      else Raise OutsideModel
  end.

(* ===================================================================== *)
(** ** The steps of [releasetool/commands/tag/ruby.py] *)
(* ===================================================================== *)

Module Ruby.

Definition cyan : option string := Some "cyan".
Definition red : option string := Some "red".
Definition magenta : option string := Some "magenta".

Definition title_mentions_release (pull : PullRequest) : bool :=
  Py.contains "release" (Py.lower (title pull)).

(** [[pull for pull in pulls if "release" in pull["title"].lower()][:30]] *)
Definition release_candidates (pulls : list PullRequest)
  : list PullRequest :=
  Py.slice_to 30 (filter title_mentions_release pulls).

(** [f"{package_name}/v{release_version}"] *)
Definition tag_of (package version : option string) : string :=
  Py.fmt package ++ "/v" ++ Py.fmt version.

Definition head_ref_pattern : string := "^release-([a-z-]+)-v(\d\.\d.\d)$".

Definition release_tag_pattern : string := "^([a-z-]+)\/v(\d.\d.\d)$".

(** The pattern of [get_release_notes], the version interpolated as it
    is. *)
Definition release_notes_pattern (version : option string) : string :=
  "^### " ++ Py.fmt version
    ++ " \/ \d\d\d\d-\d\d-\d\d\n(?P<notes>.+?)(\n###\s|\Z)".

Definition DOTALL_MULTILINE : Re.flags :=
  {| Re.DOTALL := true; Re.MULTILINE := true |}.

(** [m.group(i)] where the group exists. *)
Definition group (m : Re.Match) (i : nat) : M (option string) :=
  require (Re.group m i) IndexError.

Section Tool.

(** [ctx.github] and [ctx.upstream_repo], as [setup_github_context]
    leaves them; the CI client's constructor; [getpass.getuser()]. *)
Variable github : Client.GitHub.
Variable upstream_repo : string.
Variable new_CircleCI : string -> Client.CircleCI.
Variable getuser : string.
Variable setup_github_context : M unit.

Fixpoint print_menu (n : N) (pulls : list PullRequest) : M unit :=
  match pulls with
  | [] => ret tt
  | pull :: pulls' =>
      print (tab ++ Py.str_of_N n ++ ": " ++ title pull ++ " ("
                 ++ Py.str_of_N (number pull) ++ ")") ;;
      print_menu (n + 1) pulls'
  end.

Definition determine_release_pr : M unit :=
  secho "> Let's figure out which pull request corresponds to your release."
        cyan true ;;
  emit (ListPullRequests upstream_repo "closed") ;;
  pulls <- lift (Client.list_pull_requests github upstream_repo "closed") ;;
  let pulls := release_candidates pulls in
  secho ("> Please pick one of the following PRs:" ++ nl) None true ;;
  print_menu 1 pulls ;;
  pull_idx <- prompt_int (nl ++ "Which one do you want to tag and release?") ;;
  pull <- require (Py.index pulls (pull_idx - 1)) IndexError ;;
  modify (set_release_pr (Some pull)).

Definition determine_package_name_and_version : M unit :=
  secho "> Determining the package name and version from your release tag."
        cyan true ;;
  c <- get_ctx ;;
  tag <- require (release_tag c) TypeError ;;
  m <- of_parsed (Re.re_match release_tag_pattern tag Re.no_flags) ;;
  m <- require m AttributeError ;;
  g1 <- group m 1 ;;
  modify (set_package_name g1) ;;
  g2 <- group m 2 ;;
  modify (set_release_version g2).

Definition determine_release_tag : M unit :=
  secho "> Determining the release tag." cyan true ;;
  c <- get_ctx ;;
  pull <- require (release_pr c) TypeError ;;
  let head_ref := head_ref pull in
  secho ("PR head ref is " ++ head_ref) None true ;;
  m <- of_parsed (Re.re_match head_ref_pattern head_ref Re.no_flags) ;;
  match m with
  | Some m =>
      g1 <- group m 1 ;;
      modify (set_package_name g1) ;;
      g2 <- group m 2 ;;
      modify (set_release_version g2) ;;
      c <- get_ctx ;;
      modify (set_release_tag
                (Some (tag_of (package_name c) (release_version c))))
  | None =>
      secho ("I couldn't determine what the release tag should be from the PR's"
               ++ "head ref " ++ head_ref ++ ".") red true ;;
      t <- prompt
             "What should the release tag be (for example, google-cloud-storage/v1.2.3)?" ;;
      modify (set_release_tag (Some t)) ;;
      determine_package_name_and_version
  end ;;
  c <- get_ctx ;;
  secho ("Package name is " ++ Py.fmt (package_name c)) None true ;;
  secho ("Package version is " ++ Py.fmt (release_version c)) None true ;;
  secho ("Release tag is " ++ Py.fmt (release_tag c)) None true.

(** Lines 99-107: the notes of [version] in the decoded changelog. *)
Definition find_release_notes (version : option string)
           (changelog : string) : M string :=
  m <- of_parsed (Re.re_search (release_notes_pattern version) changelog
                               DOTALL_MULTILINE) ;;
  match m with
  | Some m =>
      g <- require (Re.group_named m "notes") IndexError ;;
      notes <- require g AttributeError ;;
      ret (Py.strip notes)
  | None => ret EmptyString
  end.

Definition get_release_notes : M unit :=
  secho "> Grabbing the release notes." cyan true ;;
  c <- get_ctx ;;
  pull <- require (release_pr c) TypeError ;;
  let path := Py.fmt (package_name c) ++ "/CHANGELOG.md" in
  emit (GetContents upstream_repo path (merge_commit_sha pull)) ;;
  raw <- lift (Client.get_contents github upstream_repo path
                            (merge_commit_sha pull)) ;;
  changelog <- lift (decode_utf8 raw) ;;
  notes <- find_release_notes (release_version c) changelog ;;
  modify (set_release_notes (Some notes)) ;;
  c <- get_ctx ;;
  secho ("Here's the release notes:" ++ nl ++ nl
           ++ Py.fmt (release_notes c) ++ nl) None true.

Definition create_release : M unit :=
  secho "> Creating the release." None true ;;
  c <- get_ctx ;;
  pull <- require (release_pr c) TypeError ;;
  let name := "Release " ++ Py.fmt (package_name c) ++ " "
                         ++ Py.fmt (release_version c) in
  emit (CreateRelease upstream_repo (release_version c)
                      (merge_commit_sha pull) name (release_notes c)) ;;
  rel <- lift (Client.create_release github upstream_repo (release_version c)
                              (merge_commit_sha pull) name
                              (release_notes c)) ;;
  modify (set_github_release (Some rel)) ;;
  let release_location_string := "Release is at " ++ html_url rel in
  secho release_location_string None true ;;
  secho "CI will handle publishing the package to Rubygems." None true ;;
  c <- get_ctx ;;
  pull <- require (release_pr c) TypeError ;;
  emit (CreatePullRequestComment upstream_repo (number pull)
                                 release_location_string) ;;
  lift (Client.create_pull_request_comment github upstream_repo (number pull)
                                    release_location_string).

Fixpoint show_states (states : list string) : M unit :=
  match states with
  | [] => ret tt
  | state :: states' =>
      secho ("CircleCI Build State: " ++ state ++ cr) None false ;;
      show_states states'
  end.

Definition wait_on_circle : M unit :=
  emit (NewCircleCI upstream_repo) ;;
  let circle := new_CircleCI upstream_repo in
  secho "> Waiting for CircleCI to queue a release build" None true ;;
  c <- get_ctx ;;
  let tag_name := tag_of (package_name c) (release_version c) in
  emit (GetLatestBuildByTag tag_name) ;;
  fresh_build <- lift (Client.get_latest_build_by_tag circle tag_name) ;;
  match fresh_build with
  | Some fresh_build =>
      secho ("CircleCI Build: " ++ build_url fresh_build) None true ;;
      secho "> Monitoring CircleCI for completion of release" None true ;;
      secho "" None true ;;
      emit (GetBuildStatusGenerator (build_num fresh_build)) ;;
      show_states (Client.get_build_status_generator circle
                                              (build_num fresh_build))
  | None =>
      secho ("CircleCI Build not found for tag " ++ tag_name ++ "...")
            None true
  end.

Definition tag : M unit :=
  modify (fun _ => Context_new) ;;
  secho ("o/ Hey, " ++ getuser ++ ", let's tag a Ruby release!")
        magenta true ;;
  setup_github_context ;;
  determine_release_pr ;;
  determine_release_tag ;;
  get_release_notes ;;
  create_release ;;
  wait_on_circle ;;
  secho "\o/ All done!" magenta true.

End Tool.

(** The three patterns as [re.compile] reads them. *)
Definition no_pattern : Re.pattern :=
  {| Re.p_regex := Re.Empty; Re.p_names := []; Re.p_groups := 0 |}.

Definition compiled (pat : string) : Re.pattern :=
  match Re.compile pat with
  | Re.Parsed p => p
  | _ => no_pattern
  end.

Definition head_ref_compiled : Re.pattern :=
  Eval vm_compute in compiled head_ref_pattern.

Definition release_tag_compiled : Re.pattern :=
  Eval vm_compute in compiled release_tag_pattern.

Definition release_notes_compiled_1_2_3 : Re.pattern :=
  Eval vm_compute in compiled (release_notes_pattern (Some "1.2.3")).

End Ruby.

(* ===================================================================== *)
(** ** What the statements below speak of *)
(* ===================================================================== *)

Module Spec.

(** The lowercased title contains the substring "release". *)
Definition mentions_release (pull : PullRequest) : Prop :=
  exists before after : string,
    Py.lower (title pull) = before ++ "release" ++ after.

(** [picks pulls chosen]: [chosen] holds exactly the pull requests of
    [pulls] that mention a release, in the order of [pulls]. *)
Inductive picks : list PullRequest -> list PullRequest -> Prop :=
| picks_nil : picks [] []
| picks_keep pull pulls chosen :
    mentions_release pull -> picks pulls chosen ->
    picks (pull :: pulls) (pull :: chosen)
| picks_skip pull pulls chosen :
    ~ mentions_release pull -> picks pulls chosen ->
    picks (pull :: pulls) chosen.

Definition lower_or_hyphen (c : ascii) : bool :=
  ((97 <=? Py.ord c) && (Py.ord c <=? 122))%N || (c =? "-")%char.

Fixpoint all_chars (p : ascii -> bool) (s : string) : bool :=
  match s with
  | EmptyString => true
  | String c s' => p c && all_chars p s'
  end.

(** A string the pattern [[a-z-]+] matches from end to end. *)
Definition is_package_name (s : string) : bool :=
  negb (s =? EmptyString)%string && all_chars lower_or_hyphen s.

Definition not_lf (c : ascii) : bool := negb (Py.is_lf c).

(** A string the pattern [\d.\d.\d] matches from end to end: three
    digits, any character but the line feed between them. *)
Definition is_version (s : string) : bool :=
  match s with
  | String d1 (String c1 (String d2 (String c2 (String d3 EmptyString)))) =>
      Py.isdigit d1 && not_lf c1 && Py.isdigit d2 && not_lf c2
      && Py.isdigit d3
  | _ => false
  end.

(** A version as the specification writes it, [<major>.<minor>.<patch>]:
    three digits separated by dots. *)
Definition is_dotted_version (s : string) : bool :=
  match s with
  | String d1 (String c1 (String d2 (String c2 (String d3 EmptyString)))) =>
      Py.isdigit d1 && (c1 =? ".")%char && Py.isdigit d2
      && (c2 =? ".")%char && Py.isdigit d3
  | _ => false
  end.

(** A position at the start of a line. *)
Definition line_start (before : option ascii) : bool :=
  match before with
  | None => true
  | Some c => Py.is_lf c
  end.

(** No line of [text] starts with "###"; [before] is the character that
    precedes [text]. *)
Fixpoint no_section (before : option ascii) (text : string) : bool :=
  match text with
  | EmptyString => true
  | String c text' =>
      negb (line_start before && prefix "###" text)
      && no_section (Some c) text'
  end.

(** The steps of [tag] that come before the wait for the CI build. *)
Definition before_wait (github : Client.GitHub) (upstream_repo getuser : string)
           (setup_github_context : M unit) : M unit :=
  modify (fun _ => Context_new) ;;
  secho ("o/ Hey, " ++ getuser ++ ", let's tag a Ruby release!")
        Ruby.magenta true ;;
  setup_github_context ;;
  Ruby.determine_release_pr github upstream_repo ;;
  Ruby.determine_release_tag ;;
  Ruby.get_release_notes github upstream_repo ;;
  Ruby.create_release github upstream_repo.

(** *** What a pattern matches, without the matcher's search order *)

Section Declarative.

Variable fl : Re.flags.

(** A relation from the position and groups before to those after. *)
Definition step : Type :=
  Re.cursor -> Re.captures -> Re.cursor -> Re.captures -> Prop.

Inductive iter (R : step) : nat -> step :=
| iter_O cur caps : iter R 0 cur caps cur caps
| iter_S n cur caps cur1 caps1 cur2 caps2 :
    R cur caps cur1 caps1 -> iter R n cur1 caps1 cur2 caps2 ->
    iter R (S n) cur caps cur2 caps2.

Definition eats (test : ascii -> bool) : step :=
  fun cur caps cur' caps' =>
    exists c r,
      Re.rest cur = String c r /\ test c = true
      /\ cur' = Re.advance cur c r /\ caps' = caps.

Definition holds (test : Re.cursor -> bool) : step :=
  fun cur caps cur' caps' => test cur = true /\ cur' = cur /\ caps' = caps.

Definition within (mx : option nat) (n : nat) : Prop :=
  match mx with
  | Some m => n <= m
  | None => True
  end.

Fixpoint matches (r : Re.regex) : step :=
  match r with
  | Re.Empty => holds (fun _ => true)
  | Re.Lit c => eats (Ascii.eqb c)
  | Re.Dot => eats (Re.dot fl)
  | Re.In neg items => eats (Re.in_set neg items)
  | Re.Cat k => eats (Re.in_category k)
  | Re.Bol => holds (Re.at_bol fl)
  | Re.Eol => holds (Re.at_eol fl)
  | Re.StartString => holds Re.at_start
  | Re.EndString => holds Re.at_end
  | Re.Seq a b =>
      fun cur caps cur' caps' =>
        exists cur1 caps1,
          matches a cur caps cur1 caps1 /\ matches b cur1 caps1 cur' caps'
  | Re.Alt a b =>
      fun cur caps cur' caps' =>
        matches a cur caps cur' caps' \/ matches b cur caps cur' caps'
  | Re.Group i a =>
      fun cur caps cur' caps' =>
        exists caps1,
          matches a cur caps cur' caps1
          /\ caps' = (i, (Re.pos cur, Re.pos cur')) :: caps1
  | Re.Repeat mn mx _ a =>
      fun cur caps cur' caps' =>
        exists n,
          iter (matches a) n cur caps cur' caps' /\ mn <= n /\ within mx n
  end.

(** [body] runs an item soundly for [R]: when it returns, the
    continuation was entered where [R] leads. *)
Definition sound_body
           (body : Re.cursor -> Re.captures -> Re.cont -> option Re.outcome)
           (R : step) : Prop :=
  forall cur caps k o,
    body cur caps k = Some o ->
    exists cur' caps', R cur caps cur' caps' /\ k cur' caps' = Some o.

(** An upper bound on the iterations still allowed after [count]. *)
Definition room (mx : option nat) (count n : nat) : Prop :=
  match mx with
  | Some m => n = 0 \/ count + n <= m
  | None => True
  end.

(** The character before the position reached by reading [run]. *)
Fixpoint last_char (before : option ascii) (run : string) : option ascii :=
  match run with
  | EmptyString => before
  | String c run' => last_char (Some c) run'
  end.

(** A run ends at [tail]: the text is over or goes on with a character
    the test refuses. *)
Definition ends_run (test : ascii -> bool) (tail : string) : Prop :=
  match tail with
  | EmptyString => True
  | String c _ => test c = false
  end.

End Declarative.

(** The pattern [pat] matches the string [s] from end to end. *)
Definition matches_fully (pat s : string) : Prop :=
  exists p cur caps,
    Re.compile pat = Re.Parsed p
    /\ matches Re.no_flags (Re.p_regex p) (Re.start s) [] cur caps
    /\ Re.rest cur = "".

(** *** The menu of the selection step *)

(** The line shown for the candidate listed under the number [n]. *)
Definition menu_line (n : N) (pull : PullRequest) : string :=
  tab ++ Py.str_of_N n ++ ": " ++ title pull ++ " ("
      ++ Py.str_of_N (number pull) ++ ")".

(** The lines of the menu, the first candidate listed under [n]. *)
Fixpoint menu (n : N) (pulls : list PullRequest) : list event :=
  match pulls with
  | [] => []
  | pull :: pulls' => Print (menu_line n pull) :: menu (n + 1) pulls'
  end.

(** What the selection step says before it reads the answer. *)
Definition selection_dialogue (upstream_repo : string)
           (candidates : list PullRequest) : list event :=
  [Secho "> Let's figure out which pull request corresponds to your release."
         Ruby.cyan true;
   ListPullRequests upstream_repo "closed";
   Secho ("> Please pick one of the following PRs:" ++ nl) None true]
    ++ menu 1 candidates
    ++ [Prompt (nl ++ "Which one do you want to tag and release?")].

(** *** The texts the two tag patterns take *)

(** A string the pattern [\d\.\d.\d] matches from end to end: as
    [is_version], the first separator a dot. *)
Definition is_head_version (s : string) : bool :=
  match s with
  | String d1 (String c1 (String d2 (String c2 (String d3 EmptyString)))) =>
      Py.isdigit d1 && (c1 =? ".")%char && Py.isdigit d2 && not_lf c2
      && Py.isdigit d3
  | _ => false
  end.

(** What may follow a match that ends in [$]: nothing, or the final line
    feed of the text. *)
Definition line_end (tail : string) : Prop := tail = "" \/ tail = nl.

(** release-<package>-v<version>, as the first pattern reads it. *)
Definition head_ref_shape (head : string) : Prop :=
  exists pkg ver tail,
    head = "release-" ++ pkg ++ "-v" ++ ver ++ tail
    /\ is_package_name pkg = true /\ is_head_version ver = true
    /\ line_end tail.

(** <package>/v<version>, as the second pattern reads it. *)
Definition tag_shape (tag : string) : Prop :=
  exists pkg ver tail,
    tag = pkg ++ "/v" ++ ver ++ tail
    /\ is_package_name pkg = true /\ is_version ver = true
    /\ line_end tail.

Definition tag_question : string :=
  "What should the release tag be (for example, google-cloud-storage/v1.2.3)?".

(** What the derivation step says about a head branch name. *)
Definition head_ref_report (head : string) : list event :=
  [Secho "> Determining the release tag." Ruby.cyan true;
   Secho ("PR head ref is " ++ head) None true].

(** The opening line of [determine_package_name_and_version]. *)
Definition name_and_version_echo : event :=
  Secho "> Determining the package name and version from your release tag."
        Ruby.cyan true.

(** What it says when the first pattern does not take the name: the
    complaint, the question for the tag, and the opening line of the second
    derivation. *)
Definition tag_request (head : string) : list event :=
  head_ref_report head
    ++ [Secho ("I couldn't determine what the release tag should be from the PR's"
                 ++ "head ref " ++ head ++ ".") Ruby.red true;
        Prompt tag_question;
        name_and_version_echo].

(** *** The sections of a changelog *)

(** <major>.<minor>.<patch> of one digit each. *)
Definition dotted (d1 d2 d3 : ascii) : string :=
  String d1 (String "." (String d2 (String "." (String d3 "")))).

(** A date as the search pattern reads it: [\d\d\d\d-\d\d-\d\d]. *)
Definition is_date (s : string) : bool :=
  match s with
  | String y1 (String y2 (String y3 (String y4 (String h1
      (String m1 (String m2 (String h2 (String e1 (String e2 EmptyString)))))))))
    => Py.isdigit y1 && Py.isdigit y2 && Py.isdigit y3 && Py.isdigit y4
       && ("-" =? h1)%char && Py.isdigit m1 && Py.isdigit m2
       && ("-" =? h2)%char && Py.isdigit e1 && Py.isdigit e2
  | _ => false
  end.

(** The header line of a section: [version] is the text at the place of
    the version. *)
Definition section_header (version date : string) : string :=
  "### " ++ version ++ " / " ++ date ++ nl.

(** The text goes on with a line feed, "###" and a white-space
    character: the start of the next header. *)
Definition next_header (s : string) : bool :=
  match s with
  | String c0 (String c1 (String c2 (String c3 (String c4 _)))) =>
      Py.is_lf c0 && ("#" =? c1)%char && ("#" =? c2)%char
      && ("#" =? c3)%char && Py.isspace c4
  | _ => false
  end.

(** The text up to the start of the next header, or all of it. *)
Fixpoint until_header (t : string) : string :=
  match t with
  | EmptyString => EmptyString
  | String c t' =>
      if next_header t then EmptyString else String c (until_header t')
  end.

(** What ends the notes: [(\n###\s|\Z)], the second group. *)
Definition notes_end : Re.regex :=
  Re.Group 2
    (Re.Alt
       (Re.Seq (Re.Lit Py.LF)
          (Re.Seq (Re.Lit "#") (Re.Seq (Re.Lit "#") (Re.Seq (Re.Lit "#")
             (Re.Cat Re.Space)))))
       Re.EndString).

(** The search pattern behind its [^###], for the version
    [dotted d1 d2 d3]. *)
Definition notes_regex_tail (d1 d2 d3 : ascii) : Re.regex :=
  Re.Seq (Re.Lit " ")
    (Re.Seq (Re.Lit d1) (Re.Seq Re.Dot (Re.Seq (Re.Lit d2) (Re.Seq Re.Dot
    (Re.Seq (Re.Lit d3)
    (Re.Seq (Re.Lit " ") (Re.Seq (Re.Lit "/") (Re.Seq (Re.Lit " ")
    (Re.Seq (Re.Cat Re.Digit) (Re.Seq (Re.Cat Re.Digit)
    (Re.Seq (Re.Cat Re.Digit) (Re.Seq (Re.Cat Re.Digit)
    (Re.Seq (Re.Lit "-")
    (Re.Seq (Re.Cat Re.Digit) (Re.Seq (Re.Cat Re.Digit)
    (Re.Seq (Re.Lit "-")
    (Re.Seq (Re.Cat Re.Digit) (Re.Seq (Re.Cat Re.Digit)
    (Re.Seq (Re.Lit Py.LF)
    (Re.Seq (Re.Group 1 (Re.Repeat 1 None false Re.Dot))
            notes_end)))))))))))))))))))).

(** The search pattern of [get_release_notes] for that version, as
    [re.compile] reads it. *)
Definition notes_pattern (d1 d2 d3 : ascii) : Re.pattern :=
  {| Re.p_regex :=
       Re.Seq Re.Bol
         (Re.Seq (Re.Lit "#") (Re.Seq (Re.Lit "#") (Re.Seq (Re.Lit "#")
            (notes_regex_tail d1 d2 d3))));
     Re.p_names := [("notes", 1)]; Re.p_groups := 2 |}.

(** The three closing lines of the derivation step. *)
Definition tag_summary (pkg ver tag : string) : list event :=
  [Secho ("Package name is " ++ pkg) None true;
   Secho ("Package version is " ++ ver) None true;
   Secho ("Release tag is " ++ tag) None true].

(** *** The wait for the CI build *)

(** One line per state of the build, each ending in a carriage return
    and no line feed. *)
Definition state_lines (states : list string) : list event :=
  map (fun state => Secho ("CircleCI Build State: " ++ state ++ cr) None false)
      states.

(** What the wait step does when a build is found. *)
Definition build_report (upstream_repo tag_name : string) (build : Build)
           (states : list string) : list event :=
  [NewCircleCI upstream_repo;
   Secho "> Waiting for CircleCI to queue a release build" None true;
   GetLatestBuildByTag tag_name;
   Secho ("CircleCI Build: " ++ build_url build) None true;
   Secho "> Monitoring CircleCI for completion of release" None true;
   Secho "" None true;
   GetBuildStatusGenerator (build_num build)]
    ++ state_lines states.

(** *** The calls of a run to its collaborators *)

Inductive call : Type :=
| ListPulls | Contents | NewRelease | Comment | NewCI | LatestBuild
| BuildStatus.

Definition call_of (e : event) : option call :=
  match e with
  | ListPullRequests _ _ => Some ListPulls
  | GetContents _ _ _ => Some Contents
  | CreateRelease _ _ _ _ _ => Some NewRelease
  | CreatePullRequestComment _ _ _ => Some Comment
  | NewCircleCI _ => Some NewCI
  | GetLatestBuildByTag _ => Some LatestBuild
  | GetBuildStatusGenerator _ => Some BuildStatus
  | Secho _ _ _ | Print _ | Prompt _ => None
  end.

(** The calls among the events, in their order. *)
Fixpoint calls (es : list event) : list call :=
  match es with
  | [] => []
  | e :: es' =>
      match call_of e with
      | Some c => c :: calls es'
      | None => calls es'
      end
  end.


(** [m] makes the calls [full], in this order, when it ends normally, and
    the first few of them when it fails. *)
Definition traces {A : Type} (m : M A) (full : list call) : Prop :=
  forall st,
  exists cs,
    calls (events (snd (m st))) = (calls (events st) ++ cs)%list
    /\ match fst (m st) with
       | Ok _ => cs = full
       | Raise _ => exists rest, full = (cs ++ rest)%list
       end.



End Spec.

(* ===================================================================== *)
(** ** Sample runs *)
(* ===================================================================== *)

Module Sample.

Definition release_pull : PullRequest :=
  {| title := "Release google-cloud-storage 1.2.3"; number := 41;
     head_ref := "release-google-cloud-storage-v1.2.3";
     merge_commit_sha := "4f2a9c1" |}.

Definition chore_pull : PullRequest :=
  {| title := "chore: update dependencies"; number := 42;
     head_ref := "update-deps"; merge_commit_sha := "77b0e2d" |}.

(** A release whose branch name the first pattern does not match. *)
Definition manual_pull : PullRequest :=
  {| title := "RELEASE foo-bar"; number := 43;
     head_ref := "foo-bar-next"; merge_commit_sha := "c0ffee1" |}.

(** A branch name with a letter where the second dot of the version
    would be. *)
Definition odd_pull : PullRequest :=
  {| title := "Release foo"; number := 44;
     head_ref := "release-foo-v1.2x3"; merge_commit_sha := "d00d1e5" |}.

Definition pulls : list PullRequest := [release_pull; chore_pull; manual_pull].

(** The changelog of the specification's example. *)
Definition changelog_head : string :=
  "### 1.2.3 / 2020-01-01" ++ nl ++ "Fixed a bug." ++ nl
    ++ "### 1.2.2 / 2019-12-01" ++ nl.

Definition changelog_title : string := "# Release History" ++ nl ++ nl.

Definition changelog : string :=
  changelog_title ++ changelog_head ++ "Older notes." ++ nl.

(** A changelog with no section for 1.2.3; its one header differs from
    that version where the version has its dots. *)
Definition other_changelog : string :=
  "### 1a2b3 / 2020-01-01" ++ nl ++ "Notes of another entry." ++ nl.

(** Another changelog with no section for 1.2.3. *)
Definition unrelated_changelog : string :=
  "# Release History" ++ nl ++ nl
    ++ "### 1x2y3 / 2021-06-30" ++ nl ++ "Unrelated notes." ++ nl.

Definition release : Release :=
  {| html_url := "https://github.com/example/repo/releases/1" |}.

Definition github (listed : list PullRequest) (contents : string)
  : Client.GitHub :=
  {| Client.list_pull_requests := fun _ _ => Ok listed;
     Client.get_contents := fun _ _ _ => Ok contents;
     Client.create_release := fun _ _ _ _ _ => Ok release;
     Client.create_pull_request_comment := fun _ _ _ => Ok tt |}.

Definition no_build (repository : string) : Client.CircleCI :=
  {| Client.get_latest_build_by_tag := fun _ => Ok None;
     Client.get_build_status_generator :=
       fun _ => ["queued"; "running"; "success"] |}.

Definition build : Build :=
  {| build_url := "https://circleci.com/gh/example/repo/7"; build_num := 7 |}.

(** A CI client that has a build for every tag. *)
Definition with_build (repository : string) : Client.CircleCI :=
  {| Client.get_latest_build_by_tag := fun _ => Ok (Some build);
     Client.get_build_status_generator :=
       fun _ => ["queued"; "running"; "success"] |}.

(** A changelog without any section. *)
Definition plain_changelog : string :=
  "# Release History" ++ nl ++ nl ++ "Nothing released yet." ++ nl.

(** Thirty pull requests that mention a release. *)
Definition thirty_pulls : list PullRequest := repeat release_pull 30.

Definition repo : string := "example/repo".

(** The state at the start of a run, with [typed] still to be typed. *)
Definition initial (typed : string) : State :=
  {| ctx := Context_new; stdin := typed; events := [] |}.

(** The state after [pull] was selected. *)
Definition selected (pull : PullRequest) (typed : string) : State :=
  {| ctx := set_release_pr (Some pull) Context_new; stdin := typed;
     events := [] |}.

(** The state after the tag of [pull] was derived as [pkg]/v[ver]. *)
Definition derived (pull : PullRequest) (pkg ver : string) : State :=
  {| ctx := set_release_tag (Some (Ruby.tag_of (Some pkg) (Some ver)))
              (set_release_version (Some ver)
                 (set_package_name (Some pkg)
                    (set_release_pr (Some pull) Context_new)));
     stdin := EmptyString; events := [] |}.

(** The state after the notes of that release were found. *)
Definition noted (pull : PullRequest) (pkg ver notes : string) : State :=
  {| ctx := set_release_notes (Some notes) (ctx (derived pull pkg ver));
     stdin := EmptyString; events := [] |}.

Definition prompts (es : list event) : list event :=
  filter (fun e => match e with Prompt _ => true | _ => false end) es.

End Sample.

(* ===================================================================== *)
(** ** Strings *)
(* ===================================================================== *)

Section StringFacts.

Lemma append_nil_r (s : string) : s ++ "" = s.
Proof. induction s as [|c s IH]; simpl; [reflexivity | now rewrite IH]. Qed.

Lemma append_assoc (a b c : string) : (a ++ b) ++ c = a ++ (b ++ c).
Proof. induction a as [|x a IH]; simpl; [reflexivity | now rewrite IH]. Qed.

Lemma length_append (a b : string) :
  String.length (a ++ b) = String.length a + String.length b.
Proof. induction a as [|x a IH]; simpl; [reflexivity | now rewrite IH]. Qed.

Lemma prefix_app (a s : string) :
  prefix a s = true <-> exists t, s = a ++ t.
Proof.
  revert s; induction a as [|x a IH]; intros s; simpl.
  - split; [intros _; now exists s | intros _; now destruct s].
  - destruct s as [|y s]; simpl.
    + split; [discriminate | intros [t Ht]; discriminate].
    + destruct (ascii_dec x y) as [->|Hxy].
      * rewrite IH. split; intros [t Ht]; exists t.
        -- now rewrite Ht.
        -- now inversion Ht.
      * split; [discriminate | intros [t Ht]; congruence].
Qed.

Lemma contains_spec (sub s : string) :
  Py.contains sub s = true <-> exists a b, s = a ++ sub ++ b.
Proof.
  induction s as [|c s IH]; cbn [Py.contains].
  - rewrite orb_false_r. rewrite prefix_app. split.
    + intros [t Ht]. exists "", t. exact Ht.
    + intros (a & b & H). destruct a as [|x a]; [|discriminate].
      now exists b.
  - rewrite orb_true_iff. rewrite prefix_app, IH. split.
    + intros [[t Ht] | (a & b & H)].
      * exists "", t. exact Ht.
      * exists (String c a), b. simpl. now rewrite H.
    + intros (a & b & H). destruct a as [|x a].
      * left. now exists b.
      * right. exists a, b. simpl in H. now inversion H.
Qed.

Lemma substring_all (a b : string) :
  substring 0 (String.length a) (a ++ b) = a.
Proof.
  induction a as [|x a IH]; simpl.
  - now destruct b.
  - now rewrite IH.
Qed.

Lemma substring_skip (a b : string) (n m : nat) :
  substring (String.length a + n) m (a ++ b) = substring n m b.
Proof. induction a as [|x a IH]; simpl; [reflexivity | exact IH]. Qed.

Lemma all_chars_ext (p q : ascii -> bool) (s : string) :
  (forall c, p c = q c) -> Spec.all_chars p s = Spec.all_chars q s.
Proof.
  intros H. induction s as [|c s IH]; simpl; [reflexivity|].
  now rewrite H, IH.
Qed.

Lemma all_chars_app (p : ascii -> bool) (a b : string) :
  Spec.all_chars p (a ++ b) = Spec.all_chars p a && Spec.all_chars p b.
Proof.
  induction a as [|c a IH]; simpl; [reflexivity|].
  now rewrite IH, andb_assoc.
Qed.

Lemma slice_run (run tail : string) :
  Re.slice (run ++ tail) (0, String.length run) = run.
Proof.
  unfold Re.slice. simpl. rewrite Nat.sub_0_r. apply substring_all.
Qed.

Lemma slice_after (run tail : string) (i n : nat) :
  Re.slice (run ++ tail) (String.length run + i, String.length run + i + n)
  = substring i n tail.
Proof.
  unfold Re.slice. simpl.
  replace (String.length run + i + n - (String.length run + i)) with n by lia.
  apply substring_skip.
Qed.

Lemma slice_at (run tail : string) (i n a b : nat) :
  a = String.length run + i -> b = a + n ->
  Re.slice (run ++ tail) (a, b) = substring i n tail.
Proof. intros -> ->. apply slice_after. Qed.

Lemma slice_at2 (a run tail : string) (i n x y : nat) :
  x = String.length a + String.length run + i -> y = x + n ->
  Re.slice (a ++ run ++ tail) (x, y) = substring i n tail.
Proof.
  intros -> ->. rewrite <- append_assoc, <- length_append. apply slice_after.
Qed.

Lemma slice_mid (a run tail : string) (x y : nat) :
  x = String.length a -> y = x + String.length run ->
  Re.slice (a ++ run ++ tail) (x, y) = run.
Proof.
  intros -> ->. unfold Re.slice. cbn [fst snd].
  replace (String.length a + String.length run - String.length a)
    with (String.length run) by lia.
  rewrite <- (Nat.add_0_r (String.length a)) at 1.
  rewrite substring_skip. apply substring_all.
Qed.

End StringFacts.

(* ===================================================================== *)
(** ** The pipeline monad *)
(* ===================================================================== *)

Section MonadFacts.

Lemma bind_Ok {A B : Type} (m : M A) (f : A -> M B) (st st' : State) (b : B) :
  bind m f st = (Ok b, st') ->
  exists a st1, m st = (Ok a, st1) /\ f a st1 = (Ok b, st').
Proof.
  unfold bind. destruct (m st) as [[a|e] st1]; [|discriminate].
  intros H. exists a, st1. auto.
Qed.

Lemma require_Ok {A : Type} (o : option A) (e : exn) (st st' : State) (a : A) :
  require o e st = (Ok a, st') -> o = Some a /\ st' = st.
Proof.
  destruct o as [x|]; unfold require, ret, raise; intros H; inversion H; auto.
Qed.

Lemma of_parsed_Ok {A : Type} (p : Re.parsed A) (st st' : State) (a : A) :
  of_parsed p st = (Ok a, st') -> p = Re.Parsed a /\ st' = st.
Proof.
  destruct p as [x| |]; unfold of_parsed, ret, raise; intros H; inversion H; auto.
Qed.

Lemma lift_Ok {A : Type} (r : result A) (st st' : State) (a : A) :
  lift r st = (Ok a, st') -> r = Ok a /\ st' = st.
Proof. unfold lift. intros H. inversion H. auto. Qed.

Lemma bind_run {A B : Type} (m : M A) (f : A -> M B) (st st1 : State) (a : A) :
  m st = (Ok a, st1) -> bind m f st = f a st1.
Proof. intros H. unfold bind. now rewrite H. Qed.

Lemma bind_raise {A B : Type} (m : M A) (f : A -> M B) (st st1 : State)
      (e : exn) :
  m st = (Raise e, st1) -> bind m f st = (Raise e, st1).
Proof. intros H. unfold bind. now rewrite H. Qed.

Lemma bind_assoc {A B C : Type} (m : M A) (f : A -> M B) (g : B -> M C)
      (st : State) :
  bind (bind m f) g st = bind m (fun a => bind (f a) g) st.
Proof. unfold bind. destruct (m st) as [[a|e] st1]; reflexivity. Qed.

Lemma bind_ext {A B : Type} (m : M A) (f g : A -> M B) (st : State) :
  (forall a st1, f a st1 = g a st1) -> bind m f st = bind m g st.
Proof.
  intros H. unfold bind. destruct (m st) as [[a|e] st1]; [apply H | reflexivity].
Qed.

End MonadFacts.

(** Reads a normal end of a step back through its binds. *)
Ltac run_back :=
  repeat match goal with
         | H : bind _ _ _ = (Ok _, _) |- _ =>
             apply bind_Ok in H; destruct H as (? & ? & ? & H)
         | H : require _ _ _ = (Ok _, _) |- _ =>
             apply require_Ok in H; destruct H as [? ?]; subst
         | H : Ruby.group _ _ _ = (Ok _, _) |- _ =>
             apply require_Ok in H; destruct H as [? ?]; subst
         | H : of_parsed _ _ = (Ok _, _) |- _ =>
             apply of_parsed_Ok in H; destruct H as [? ?]; subst
         | H : lift _ _ = (Ok _, _) |- _ =>
             apply lift_Ok in H; destruct H as [? ?]; subst
         | H : secho _ _ _ _ = (Ok _, _) |- _ =>
             unfold secho, emit in H; inversion H; subst; clear H
         | H : print _ _ = (Ok _, _) |- _ =>
             unfold print, emit in H; inversion H; subst; clear H
         | H : emit _ _ = (Ok _, _) |- _ =>
             unfold emit in H; inversion H; subst; clear H
         | H : get_ctx _ = (Ok _, _) |- _ =>
             unfold get_ctx in H; inversion H; subst; clear H
         | H : modify _ _ = (Ok _, _) |- _ =>
             unfold modify in H; inversion H; subst; clear H
         | H : ret _ _ = (Ok _, _) |- _ =>
             unfold ret in H; inversion H; subst; clear H
         end.

(* ===================================================================== *)
(** ** The terminal *)
(* ===================================================================== *)

Section Terminal.

Lemma read_line_single (s l r : string) :
  read_line s = (l, r) -> Spec.all_chars Spec.not_lf l = true.
Proof.
  revert l r. induction s as [|c s IH]; intros l r H; simpl in H.
  - inversion H. reflexivity.
  - destruct (Py.is_lf c) eqn:E.
    + inversion H. reflexivity.
    + destruct (read_line s) as [l0 r0]. specialize (IH l0 r0 eq_refl).
      inversion H; subst. simpl.
      unfold Spec.not_lf at 1. rewrite E. exact IH.
Qed.

Lemma input_single (st st' : State) (l : string) :
  input st = (Ok l, st') ->
  Spec.all_chars Spec.not_lf l = true /\ ctx st' = ctx st
  /\ events st' = events st.
Proof.
  unfold input. destruct (stdin st) as [|c s] eqn:E; [discriminate|].
  destruct (read_line (String c s)) as [l0 r0] eqn:R. intros H.
  inversion H; subst. simpl. split; [|auto]. eapply read_line_single; eauto.
Qed.

(** What [click.prompt] hands back is one non-empty line of the terminal
    input, without a line feed; the context is untouched. *)
Lemma prompt_loop_line (text : string) (fuel : nat) :
  forall st st' t,
    prompt_loop fuel text st = (Ok t, st') ->
    Spec.all_chars Spec.not_lf t = true /\ t <> "" /\ ctx st' = ctx st.
Proof.
  induction fuel as [|f IH]; intros st st' t H; simpl in H.
  - discriminate.
  - unfold bind, emit in H. cbn [fst snd] in H.
    match type of H with
    | match input ?s with _ => _ end = _ => destruct (input s) as [[l|e] st1] eqn:E
    end; [|discriminate].
    apply input_single in E. cbn [ctx events] in E.
    destruct E as (Hl & Hc & He).
    destruct (String.eqb_spec l "") as [->|Hne].
    + apply IH in H. destruct H as (H1 & H2 & H3). repeat split; auto. congruence.
    + unfold ret in H. inversion H; subst. repeat split; auto.
Qed.

Lemma prompt_line (text : string) (st st' : State) (t : string) :
  prompt text st = (Ok t, st') ->
  Spec.all_chars Spec.not_lf t = true /\ t <> "" /\ ctx st' = ctx st.
Proof. unfold prompt. apply prompt_loop_line. Qed.

Lemma read_line_first (line more : string) :
  Spec.all_chars Spec.not_lf line = true ->
  read_line (line ++ String Py.LF more) = (line, more).
Proof.
  induction line as [|c line IH]; intros H.
  - reflexivity.
  - cbn [Spec.all_chars] in H. apply andb_true_iff in H. destruct H as [Hc H].
    unfold Spec.not_lf in Hc. apply negb_true_iff in Hc.
    cbn [String.append read_line]. rewrite Hc. now rewrite (IH H).
Qed.

(** The integer prompt hands back the number on the first line typed. *)
Lemma prompt_int_first (text line more : string) (z : Z) (st : State) :
  stdin st = line ++ nl ++ more ->
  Spec.all_chars Spec.not_lf line = true ->
  py_int line = Some z ->
  prompt_int text st
  = (Ok z, {| ctx := ctx st; stdin := more;
              events := events st ++ [Prompt text] |}).
Proof.
  intros Hin Hline Hz. unfold prompt_int. cbn [prompt_int_loop].
  unfold bind, emit, input. cbn [ctx stdin events]. rewrite Hin.
  destruct (line ++ nl ++ more) as [|c s] eqn:E.
  - destruct line; discriminate.
  - rewrite <- E. change (line ++ nl ++ more) with (line ++ String Py.LF more).
    rewrite (@read_line_first line more Hline). cbn [ctx stdin events].
    rewrite Hz. reflexivity.
Qed.

End Terminal.

(* ===================================================================== *)
(** ** The matcher finds only what the pattern matches *)
(* ===================================================================== *)

Section MatcherFacts.

Variable fl : Re.flags.

Lemma eat_sound (test : ascii -> bool) cur caps (k : Re.cont) o :
  Re.eat test cur caps k = Some o ->
  exists cur' caps', Spec.eats test cur caps cur' caps' /\ k cur' caps' = Some o.
Proof.
  unfold Re.eat, Spec.eats. destruct (Re.rest cur) as [|c r]; [discriminate|].
  destruct (test c) eqn:E; [|discriminate]. intros H.
  exists (Re.advance cur c r), caps. split; [|exact H].
  exists c, r. auto.
Qed.

Lemma check_sound (test : Re.cursor -> bool) cur caps (k : Re.cont) o :
  (if test cur then k cur caps else None) = Some o ->
  exists cur' caps', Spec.holds test cur caps cur' caps' /\ k cur' caps' = Some o.
Proof.
  destruct (test cur) eqn:E; [|discriminate]. intros H.
  exists cur, caps. unfold Spec.holds. auto.
Qed.

Lemma repeat_loop_sound body R mn mx greedy (k : Re.cont) :
  Spec.sound_body body R ->
  forall fuel count cur caps o,
    Re.repeat_loop body mn mx greedy k fuel count cur caps = Some o ->
    exists n cur' caps',
      Spec.iter R n cur caps cur' caps' /\ mn <= count + n
      /\ Spec.room mx count n /\ k cur' caps' = Some o.
Proof.
  intros Hbody.
  assert (Hstop : forall count cur caps o,
             (if (mn <=? count)%nat then k cur caps else None) = Some o ->
             exists n cur' caps',
               Spec.iter R n cur caps cur' caps' /\ mn <= count + n
               /\ Spec.room mx count n /\ k cur' caps' = Some o).
  { intros count cur caps o H.
    destruct (Nat.leb_spec mn count) as [Hle|]; [|discriminate].
    exists 0, cur, caps. repeat split; try (constructor; fail); try lia; auto.
    unfold Spec.room. destruct mx; auto. }
  induction fuel as [|f IH]; intros count cur caps o H.
  - simpl in H. destruct greedy; apply Hstop.
    + exact H.
    + destruct (if (mn <=? count)%nat then k cur caps else None);
        [exact H | discriminate].
  - assert (Hmore : (if Re.may_repeat mx count
                     then body cur caps
                            (Re.repeat_loop body mn mx greedy k f (S count))
                     else None) = Some o ->
                    exists n cur' caps',
                      Spec.iter R n cur caps cur' caps' /\ mn <= count + n
                      /\ Spec.room mx count n /\ k cur' caps' = Some o).
    { destruct (Re.may_repeat mx count) eqn:Hmay; [|discriminate].
      intros Hb. apply Hbody in Hb. destruct Hb as (cur1 & caps1 & HR & Hl).
      apply IH in Hl. destruct Hl as (n & cur' & caps' & Hit & Hmn & Hroom & Hk).
      exists (S n), cur', caps'. repeat split; auto.
      - econstructor; eauto.
      - lia.
      - unfold Spec.room, Re.may_repeat in *. destruct mx as [m|]; auto.
        apply Nat.ltb_lt in Hmay. right. destruct Hroom; lia. }
    simpl in H. destruct greedy.
    + match type of H with
      | match ?e with _ => _ end = _ => destruct e eqn:E
      end.
      * inversion H; subst. apply Hmore. reflexivity.
      * apply Hstop. exact H.
    + match type of H with
      | match ?e with _ => _ end = _ => destruct e eqn:E
      end.
      * inversion H; subst. apply Hstop. exact E.
      * apply Hmore. exact H.
Qed.

(** Whatever the matcher returns, the pattern matches: the continuation
    was entered at a position and with groups the pattern relates to the
    starting ones. *)
Lemma exec_sound (r : Re.regex) :
  Spec.sound_body (Re.exec fl r) (Spec.matches fl r).
Proof.
  unfold Spec.sound_body.
  induction r as [| c | | neg items | cat | | | | | a IHa b IHb
                 | a IHa b IHb | i a IHa | mn mx greedy a IHa];
    intros cur caps k o H; cbn [Re.exec Spec.matches] in H |- *;
    try (apply eat_sound; exact H);
    try (apply check_sound; exact H).
  - apply IHa in H. destruct H as (cur1 & caps1 & Ha & H).
    apply IHb in H. destruct H as (cur2 & caps2 & Hb & H).
    exists cur2, caps2. split; [|exact H]. exists cur1, caps1. auto.
  - destruct (Re.exec fl a cur caps k) eqn:E.
    + inversion H; subst. apply IHa in E.
      destruct E as (cur' & caps' & Ha & Hk). exists cur', caps'. auto.
    + apply IHb in H. destruct H as (cur' & caps' & Hb & Hk).
      exists cur', caps'. auto.
  - apply IHa in H. destruct H as (cur' & caps1 & Ha & Hk).
    exists cur', ((i, (Re.pos cur, Re.pos cur')) :: caps1).
    split; [|exact Hk]. exists caps1. auto.
  - apply (repeat_loop_sound (R := Spec.matches fl a)) in H; [|exact IHa].
    destruct H as (n & cur' & caps' & Hit & Hmn & Hroom & Hk).
    exists cur', caps'. split; [|exact Hk]. exists n.
    repeat split; auto; try lia.
    unfold Spec.room, Spec.within in *. destruct mx; auto. destruct Hroom; lia.
Qed.

(** A run of single characters: the text consumed and where it ends. *)
Lemma iter_eats (test : ascii -> bool) n cur caps cur' caps' :
  Spec.iter (Spec.eats test) n cur caps cur' caps' ->
  exists run,
    Re.rest cur = run ++ Re.rest cur' /\ String.length run = n
    /\ Re.pos cur' = Re.pos cur + n /\ Spec.all_chars test run = true
    /\ caps' = caps.
Proof.
  induction 1 as [cur caps | n cur caps cur1 caps1 cur2 caps2 HR Hit IH].
  - exists "". repeat split; auto.
  - destruct HR as (c & r & Hrest & Htest & -> & ->).
    destruct IH as (run & Hrun & Hlen & Hpos & Hall & ->).
    exists (String c run). simpl in *. rewrite Hrest, Hrun, Hlen, Hpos, Htest, Hall.
    repeat split; auto.
Qed.

End MatcherFacts.

Section GreedyRun.

Variable test : ascii -> bool.
Variable mn : nat.
Variable k : Re.cont.

(** A greedy, unbounded repeat of a one-character item reads the whole
    run first; when the continuation accepts there, that is the answer. *)
Lemma repeat_greedy_run (run tail : string) :
  Spec.all_chars test run = true ->
  Spec.ends_run test tail ->
  forall fuel count p before caps o,
    String.length run <= fuel ->
    mn <= count + String.length run ->
    k {| Re.pos := p + String.length run;
         Re.prev := Spec.last_char before run; Re.rest := tail |} caps
    = Some o ->
    Re.repeat_loop (Re.eat test) mn None true k fuel count
                   {| Re.pos := p; Re.prev := before; Re.rest := run ++ tail |}
                   caps = Some o.
Proof.
  intros Hall Hend. induction run as [|c run IH];
    intros fuel count p before caps o Hfuel Hmn Hk.
  - simpl in *. rewrite Nat.add_0_r in *.
    assert (Hmore : match fuel with
                    | O => None
                    | S f => Re.eat test {| Re.pos := p; Re.prev := before;
                                            Re.rest := tail |} caps
                                    (Re.repeat_loop (Re.eat test) mn None true
                                                    k f (S count))
                    end = None).
    { destruct fuel; [reflexivity|]. unfold Re.eat; simpl.
      destruct tail as [|c t]; [reflexivity|]. simpl in Hend.
      now rewrite Hend. }
    destruct fuel; simpl in *.
    + destruct (Nat.leb_spec mn count); [exact Hk | lia].
    + rewrite Hmore. destruct (Nat.leb_spec mn count); [exact Hk | lia].
  - simpl in Hall. apply andb_true_iff in Hall. destruct Hall as [Hc Hall].
    destruct fuel as [|f]; [simpl in Hfuel; lia|].
    simpl. unfold Re.eat at 1. simpl. rewrite Hc.
    unfold Re.advance; simpl.
    rewrite (IH Hall f (S count) (S p) (Some c) caps o); auto.
    + simpl in Hfuel. lia.
    + simpl in Hmn. lia.
    + simpl in Hk. rewrite Nat.add_succ_r in Hk. exact Hk.
Qed.

End GreedyRun.

Section Fuel.

Variable test : ascii -> bool.
Variables (mn : nat) (mx : option nat) (greedy : bool) (k : Re.cont).

Lemma eat_nil (p : nat) (before : option ascii) (caps : Re.captures)
      (k0 : Re.cont) :
  Re.eat test {| Re.pos := p; Re.prev := before; Re.rest := "" |} caps k0 = None.
Proof. reflexivity. Qed.

Lemma eat_cons (p : nat) (before : option ascii) (c : ascii) (s : string)
      (caps : Re.captures) (k0 : Re.cont) :
  Re.eat test {| Re.pos := p; Re.prev := before; Re.rest := String c s |} caps k0
  = if test c
    then k0 {| Re.pos := S p; Re.prev := Some c; Re.rest := s |} caps
    else None.
Proof. reflexivity. Qed.

(** The fuel of a repeat over a one-character item is never used up: any
    amount above the length of the text left gives the same answer. *)
Lemma repeat_loop_fuel (s : string) :
  forall (fuel fuel' count p : nat) (before : option ascii) (caps : Re.captures),
    String.length s < fuel -> String.length s < fuel' ->
    Re.repeat_loop (Re.eat test) mn mx greedy k fuel count
                   {| Re.pos := p; Re.prev := before; Re.rest := s |} caps
    = Re.repeat_loop (Re.eat test) mn mx greedy k fuel' count
                     {| Re.pos := p; Re.prev := before; Re.rest := s |} caps.
Proof.
  induction s as [|c s IH]; intros fuel fuel' count p before caps Hf Hf';
    destruct fuel as [|f]; try (simpl in Hf; lia);
    destruct fuel' as [|f']; try (simpl in Hf'; lia);
    cbn [Re.repeat_loop].
  - now rewrite !eat_nil.
  - rewrite !eat_cons.
    rewrite (IH f f' (S count) (S p) (Some c) caps); [reflexivity | |];
      simpl in *; lia.
Qed.

End Fuel.

Section MatchObjects.

Lemma match_at_sound fl p subject cur m :
  Re.match_at fl p subject cur = Some m ->
  exists cur' caps,
    Spec.matches fl (Re.p_regex p) cur [] cur' caps
    /\ m = {| Re.m_string := subject; Re.m_span := (Re.pos cur, Re.pos cur');
              Re.m_caps := caps; Re.m_pattern := p |}.
Proof.
  unfold Re.match_at. intros H.
  destruct (Re.exec fl (Re.p_regex p) cur [] Re.finish) as [[cur' caps]|] eqn:E;
    [|discriminate].
  apply exec_sound in E. destruct E as (cur1 & caps1 & Hm & Hk).
  unfold Re.finish in Hk. inversion Hk; subst. inversion H; subst.
  exists cur', caps. auto.
Qed.

Lemma is_lf_eq (c : ascii) : Py.is_lf c = true -> c = Py.LF.
Proof.
  unfold Py.is_lf, Py.ord, Py.LF. intros H. apply N.eqb_eq in H.
  rewrite <- H. symmetry. apply ascii_N_embedding.
Qed.

Lemma at_eol_plain (cur : Re.cursor) :
  Re.at_eol Re.no_flags cur = true -> Re.rest cur = "" \/ Re.rest cur = nl.
Proof.
  unfold Re.at_eol. destruct (Re.rest cur) as [|c r]; [now left|].
  cbn [Re.MULTILINE Re.no_flags orb]. intros H.
  apply andb_true_iff in H. destruct H as [Hc Hr].
  apply is_lf_eq in Hc. apply String.eqb_eq in Hr. subst. now right.
Qed.

End MatchObjects.

(* ===================================================================== *)
(** ** Step 1: selecting the release pull request *)
(* ===================================================================== *)

Section Candidates.

Lemma title_mentions_release_spec (pull : PullRequest) :
  Ruby.title_mentions_release pull = true <-> Spec.mentions_release pull.
Proof. unfold Ruby.title_mentions_release. apply contains_spec. Qed.


Lemma picks_unique (pulls a b : list PullRequest) :
  Spec.picks pulls a -> Spec.picks pulls b -> a = b.
Proof.
  intros Ha; revert b; induction Ha; intros b' Hb; inversion Hb; subst;
    try reflexivity; try contradiction.
  - f_equal. now apply IHHa.
  - now apply IHHa.
Qed.


End Candidates.

Section Selection.

(** Python's index: at or past the length, and below minus the length,
    there is no element. *)
Lemma index_out_of_range {A : Type} (l : list A) (i : Z) :
  (i < - Z.of_nat (List.length l) \/ Z.of_nat (List.length l) <= i)%Z ->
  Py.index l i = None.
Proof.
  intros H. unfold Py.index.
  destruct (Z.leb_spec 0 i) as [Hi|Hi].
  - apply nth_error_None. lia.
  - destruct (Z.leb_spec (- Z.of_nat (List.length l)) i); [lia | reflexivity].
Qed.

(** A negative index counts from the end. *)
Lemma index_from_end {A : Type} (l : list A) (i : Z) :
  (- Z.of_nat (List.length l) <= i < 0)%Z ->
  Py.index l i = nth_error l (Z.to_nat (Z.of_nat (List.length l) + i)).
Proof.
  intros H. unfold Py.index.
  destruct (Z.leb_spec 0 i); [lia|].
  destruct (Z.leb_spec (- Z.of_nat (List.length l)) i); [reflexivity | lia].
Qed.

(** The selection 0 is outside 1..n and yet stores a pull request: the
    index -1 is the last candidate. *)
Lemma selection_zero_is_last (pulls : list PullRequest) (last : PullRequest) :
  Py.index (pulls ++ [last]) (0 - 1) = Some last.
Proof.
  rewrite index_from_end; rewrite length_app; simpl; [|lia].
  replace (Z.to_nat (Z.of_nat (List.length pulls + 1) + -1))
    with (List.length pulls) by lia.
  rewrite nth_error_app2, Nat.sub_diag; [reflexivity | lia].
Qed.

(** C3. With two candidates listed as 1 and 2, typing 0 does not fail: the
    step ends normally, having stored the last candidate. *)
Theorem selection_zero_stores_last_candidate :
  Ruby.release_candidates Sample.pulls
  = [Sample.release_pull; Sample.manual_pull]
  /\ Ruby.determine_release_pr (Sample.github Sample.pulls "") Sample.repo
                               (Sample.initial ("0" ++ nl))
     = (Ok tt,
        {| ctx := set_release_pr (Some Sample.manual_pull) Context_new;
           stdin := "";
           events :=
             [Secho "> Let's figure out which pull request corresponds to your release."
                    Ruby.cyan true;
              ListPullRequests Sample.repo "closed";
              Secho ("> Please pick one of the following PRs:" ++ nl) None true;
              Print (tab ++ "1: Release google-cloud-storage 1.2.3 (41)");
              Print (tab ++ "2: RELEASE foo-bar (43)");
              Prompt (nl ++ "Which one do you want to tag and release?")] |}).
Proof. split; vm_compute; reflexivity. Qed.

(** A selection past the last candidate does fail. *)
Example selection_past_the_end_fails :
  fst (Ruby.determine_release_pr (Sample.github Sample.pulls "") Sample.repo
                                 (Sample.initial ("3" ++ nl)))
  = Raise IndexError.
Proof. vm_compute. reflexivity. Qed.

End Selection.

Section SelectionStep.

Variable github : Client.GitHub.
Variable upstream_repo : string.

Lemma print_menu_run (pulls : list PullRequest) :
  forall (n : N) (st : State),
  exists es,
    Ruby.print_menu n pulls st
    = (Ok tt, {| ctx := ctx st; stdin := stdin st;
                 events := events st ++ es |}).
Proof.
  induction pulls as [|pull pulls IH]; intros n st; simpl.
  - exists []. unfold ret. rewrite app_nil_r. now destruct st.
  - unfold bind, print, emit. cbn [ctx stdin events].
    match goal with
    | |- context [Ruby.print_menu ?m pulls ?s] =>
        destruct (IH m s) as [es Hes]; rewrite Hes
    end.
    cbn [ctx stdin events]. eexists. rewrite <- app_assoc. reflexivity.
Qed.

(** X2. A number typed that is above the number of candidates, or at
    most minus that number, ends the step in an IndexError; no pull request
    is stored.  (The numbers between, zero and the negative ones down to
    minus the number of candidates plus one, count from the end.) *)
Lemma selection_out_of_range_fails (st : State) (pulls : list PullRequest)
      (line more : string) (z : Z) :
  Client.list_pull_requests github upstream_repo "closed" = Ok pulls ->
  stdin st = line ++ nl ++ more ->
  Spec.all_chars Spec.not_lf line = true ->
  py_int line = Some z ->
  let n := Z.of_nat (List.length (Ruby.release_candidates pulls)) in
  (n < z \/ z <= - n)%Z ->
  let run := Ruby.determine_release_pr github upstream_repo st in
  fst run = Raise IndexError /\ ctx (snd run) = ctx st.
Proof.
  intros Hlist Hin Hline Hz n Hout run. subst run.
  unfold Ruby.determine_release_pr.
  erewrite bind_run; [|reflexivity].
  erewrite bind_run; [|reflexivity].
  erewrite bind_run; [|unfold lift; rewrite Hlist; reflexivity].
  cbv zeta.
  erewrite bind_run; [|reflexivity].
  match goal with
  | |- context [bind (Ruby.print_menu ?m ?l) _ ?s] =>
      destruct (print_menu_run l m s) as [es Hes]
  end.
  erewrite bind_run; [|exact Hes].
  erewrite bind_run; [|eapply prompt_int_first; eauto].
  erewrite bind_raise;
    [|unfold require; rewrite index_out_of_range; [reflexivity | subst n; lia]].
  split; reflexivity.
Qed.

(** What the step stores is one of the candidates. *)
Lemma determine_release_pr_stores_candidate (st st' : State) :
  Ruby.determine_release_pr github upstream_repo st = (Ok tt, st') ->
  exists pulls pull,
    Client.list_pull_requests github upstream_repo "closed" = Ok pulls
    /\ In pull (Ruby.release_candidates pulls)
    /\ release_pr (ctx st') = Some pull.
Proof.
  intros Hrun. unfold Ruby.determine_release_pr in Hrun. run_back.
  cbn [ctx stdin events] in *.
  match goal with
  | H : Py.index (Ruby.release_candidates ?l) _ = Some ?p |- _ =>
      exists l, p; rename H into Hidx
  end.
  split; [assumption|]. split; [|reflexivity].
  unfold Py.index in Hidx.
  repeat match type of Hidx with
         | (if ?b then _ else _) = _ => destruct b
         end; try discriminate; eapply nth_error_In; eauto.
Qed.

End SelectionStep.

Section SelectionDialogue.

Variable github : Client.GitHub.
Variable upstream_repo : string.

Lemma print_menu_events (pulls : list PullRequest) :
  forall (n : N) (st : State),
    Ruby.print_menu n pulls st
    = (Ok tt, {| ctx := ctx st; stdin := stdin st;
                 events := events st ++ Spec.menu n pulls |}).
Proof.
  induction pulls as [|pull pulls IH]; intros n st; simpl.
  - unfold ret. rewrite app_nil_r. now destruct st.
  - unfold bind, print, emit. cbn [ctx stdin events].
    rewrite IH. cbn [ctx stdin events]. rewrite <- app_assoc. reflexivity.
Qed.

(** The line at place [k] of the menu shows the number [n + k]. *)
Lemma menu_nth (pulls : list PullRequest) :
  forall (n : N) (k : nat) (pull : PullRequest),
    nth_error pulls k = Some pull ->
    nth_error (Spec.menu n pulls) k
    = Some (Print (Spec.menu_line (n + N.of_nat k) pull)).
Proof.
  induction pulls as [|p pulls IH]; intros n k pull H.
  - destruct k; discriminate.
  - destruct k as [|k]; simpl in H.
    + inversion H; subst. simpl. now rewrite N.add_0_r.
    + cbn [Spec.menu nth_error]. rewrite (@IH (n + 1)%N k pull H).
      replace (n + 1 + N.of_nat k)%N with (n + N.of_nat (S k))%N by lia.
      reflexivity.
Qed.

(** The step up to the answer: the dialogue, then the number typed. *)
Lemma determine_release_pr_selects (st : State) (pulls : list PullRequest)
      (line more : string) (z : Z) :
  Client.list_pull_requests github upstream_repo "closed" = Ok pulls ->
  stdin st = line ++ nl ++ more ->
  Spec.all_chars Spec.not_lf line = true ->
  py_int line = Some z ->
  Ruby.determine_release_pr github upstream_repo st
  = bind (require (Py.index (Ruby.release_candidates pulls) (z - 1)) IndexError)
         (fun pull => modify (set_release_pr (Some pull)))
         {| ctx := ctx st; stdin := more;
            events := events st
                        ++ Spec.selection_dialogue
                             upstream_repo (Ruby.release_candidates pulls) |}.
Proof.
  intros Hlist Hin Hline Hz.
  unfold Ruby.determine_release_pr.
  erewrite bind_run; [|reflexivity].
  erewrite bind_run; [|reflexivity].
  erewrite bind_run; [|unfold lift; rewrite Hlist; reflexivity].
  cbv zeta.
  erewrite bind_run; [|reflexivity].
  erewrite bind_run; [|apply print_menu_events].
  erewrite bind_run; [|eapply prompt_int_first; eauto].
  cbn [ctx stdin events]. unfold Spec.selection_dialogue.
  repeat rewrite <- app_assoc. reflexivity.
Qed.

(** X1. Typing the number shown beside a candidate selects that
    candidate: when the first line typed is the integer k + 1 and the
    candidate at place k of the list (counted from 0) is [pull], the step
    ends normally with [pull] stored as the release pull request, nothing
    else of the context changed, that one line read from the terminal, and
    the menu line at place k is the one of [pull] under the number k + 1. *)
Theorem selection_stores_listed_candidate (st : State)
        (pulls : list PullRequest) (line more : string) (k : nat)
        (pull : PullRequest) :
  Client.list_pull_requests github upstream_repo "closed" = Ok pulls ->
  stdin st = line ++ nl ++ more ->
  Spec.all_chars Spec.not_lf line = true ->
  py_int line = Some (Z.of_nat (S k)) ->
  nth_error (Ruby.release_candidates pulls) k = Some pull ->
  Ruby.determine_release_pr github upstream_repo st
  = (Ok tt,
     {| ctx := set_release_pr (Some pull) (ctx st); stdin := more;
        events := events st
                    ++ Spec.selection_dialogue
                         upstream_repo (Ruby.release_candidates pulls) |})
  /\ nth_error (Spec.menu 1 (Ruby.release_candidates pulls)) k
     = Some (Print (Spec.menu_line (N.of_nat (S k)) pull)).
Proof.
  intros Hlist Hin Hline Hz Hk. split.
  - rewrite (@determine_release_pr_selects st pulls line more _ Hlist Hin Hline Hz).
    unfold Py.index.
    destruct (Z.leb_spec 0 (Z.of_nat (S k) - 1)) as [_|Hneg]; [|lia].
    replace (Z.to_nat (Z.of_nat (S k) - 1)) with k by lia.
    unfold bind, require. rewrite Hk. reflexivity.
  - rewrite (@menu_nth _ 1%N k pull Hk).
    replace (1 + N.of_nat k)%N with (N.of_nat (S k)) by lia. reflexivity.
Qed.

Lemma input_ctx (st : State) :
  ctx (snd (input st)) = ctx st
  /\ (fst (input st) = Raise Abort \/ exists l, fst (input st) = Ok l).
Proof.
  unfold input. destruct (stdin st) as [|c s].
  - simpl. auto.
  - destruct (read_line (String c s)) as [l r]. simpl. eauto.
Qed.

(** The integer prompt ends with a number or, at the end of the terminal
    input, in [Abort]; the context is untouched. *)
Lemma prompt_int_loop_outcome (text : string) (fuel : nat) :
  forall st,
    ctx (snd (prompt_int_loop fuel text st)) = ctx st
    /\ (fst (prompt_int_loop fuel text st) = Raise Abort
        \/ exists z, fst (prompt_int_loop fuel text st) = Ok z).
Proof.
  induction fuel as [|f IH]; intros st; simpl.
  - auto.
  - unfold bind, emit. cbn [fst snd].
    match goal with
    | |- context [input ?s] =>
        destruct (input_ctx s) as [Hc Ho]; destruct (input s) as [[l|e] st1]
    end; cbn [fst snd ctx] in *.
    + destruct (py_int l) as [z|].
      * unfold ret. simpl. split; [exact Hc | eauto].
      * destruct (IH st1) as [Hc1 Ho1]. split; [congruence | exact Ho1].
    + split; [exact Hc|].
      destruct Ho as [Ho|[l Ho]]; [inversion Ho; now left | discriminate].
Qed.

Lemma prompt_int_outcome (text : string) (st : State) :
  ctx (snd (prompt_int text st)) = ctx st
  /\ (fst (prompt_int text st) = Raise Abort
      \/ exists z, fst (prompt_int text st) = Ok z).
Proof. unfold prompt_int. apply prompt_int_loop_outcome. Qed.

Lemma index_In {A : Type} (l : list A) (i : Z) (a : A) :
  Py.index l i = Some a -> In a l.
Proof.
  unfold Py.index. intros H.
  repeat match type of H with
         | (if ?b then _ else _) = _ => destruct b
         end; try discriminate; eapply nth_error_In; eauto.
Qed.

(** A candidate is one of the pull requests listed, and its title
    mentions a release. *)
Lemma candidate_mentions_release (pulls : list PullRequest) (pull : PullRequest) :
  In pull (Ruby.release_candidates pulls) ->
  In pull pulls /\ Spec.mentions_release pull.
Proof.
  unfold Ruby.release_candidates, Py.slice_to. intros H.
  assert (Hf : In pull (filter Ruby.title_mentions_release pulls)).
  { rewrite <- (firstn_skipn 30). apply in_or_app. now left. }
  apply filter_In in Hf. destruct Hf as [Hin Hm].
  split; [exact Hin | now apply title_mentions_release_spec].
Qed.

(** X3. The ways the selection step can end, whatever is typed: normally,
    with one of the candidates stored (a pull request of the client's list
    whose title mentions a release) and nothing else of the context changed;
    or with the context untouched, in IndexError (a number that selects
    nothing), in Abort (the terminal input ended) or in the fault of the
    client's listing call. *)
Theorem determine_release_pr_outcome (st : State) :
  let run := Ruby.determine_release_pr github upstream_repo st in
  (fst run = Ok tt
   /\ exists pulls pull,
       Client.list_pull_requests github upstream_repo "closed" = Ok pulls
       /\ In pull (Ruby.release_candidates pulls)
       /\ In pull pulls /\ Spec.mentions_release pull
       /\ ctx (snd run) = set_release_pr (Some pull) (ctx st))
  \/ (ctx (snd run) = ctx st
      /\ (fst run = Raise IndexError \/ fst run = Raise Abort
          \/ exists e,
              Client.list_pull_requests github upstream_repo "closed" = Raise e
              /\ fst run = Raise e)).
Proof.
  cbv zeta. unfold Ruby.determine_release_pr.
  erewrite bind_run; [|reflexivity].
  erewrite bind_run; [|reflexivity].
  destruct (Client.list_pull_requests github upstream_repo "closed")
    as [pulls|e] eqn:Hlist.
  - erewrite bind_run; [|reflexivity].
    cbv zeta.
    erewrite bind_run; [|reflexivity].
    erewrite bind_run; [|apply print_menu_events].
    match goal with
    | |- context [bind (prompt_int ?t) _ ?s] =>
        destruct (prompt_int_outcome t s) as [Hc Ho];
        destruct (prompt_int t s) as [[z|e] st1] eqn:Hp
    end; cbn [fst snd ctx] in *.
    + erewrite bind_run; [|exact Hp].
      destruct (Py.index (Ruby.release_candidates pulls) (z - 1))
        as [pull|] eqn:Hidx.
      * left. erewrite bind_run; [|reflexivity].
        unfold modify. cbn [fst snd ctx]. split; [reflexivity|].
        exists pulls, pull. apply index_In in Hidx.
        destruct (candidate_mentions_release _ _ Hidx) as [Hin Hm].
        repeat split; auto. now rewrite Hc.
      * right. erewrite bind_raise; [|reflexivity].
        cbn [fst snd]. split; [exact Hc | auto].
    + right. erewrite bind_raise; [|exact Hp]. cbn [fst snd].
      split; [exact Hc|].
      destruct Ho as [Ho|[z Ho]]; [inversion Ho; auto | discriminate].
  - right. erewrite bind_raise; [|reflexivity].
    cbn [fst snd ctx]. split; [reflexivity|]. right. right. eauto.
Qed.

(** X4. When no closed pull request mentions a release, the menu is empty
    and no answer selects anything: whatever is typed, the step ends in
    IndexError, or in Abort when the terminal input ends first, and stores
    nothing. *)
Theorem no_candidate_no_selection (pulls : list PullRequest) (st : State) :
  Client.list_pull_requests github upstream_repo "closed" = Ok pulls ->
  Ruby.release_candidates pulls = [] ->
  let run := Ruby.determine_release_pr github upstream_repo st in
  (fst run = Raise IndexError \/ fst run = Raise Abort)
  /\ ctx (snd run) = ctx st.
Proof.
  intros Hlist Hnone. cbv zeta.
  unfold Ruby.determine_release_pr.
  erewrite bind_run; [|reflexivity].
  erewrite bind_run; [|reflexivity].
  erewrite bind_run; [|unfold lift; rewrite Hlist; reflexivity].
  cbv zeta.
  erewrite bind_run; [|reflexivity].
  erewrite bind_run; [|apply print_menu_events].
  match goal with
  | |- context [bind (prompt_int ?t) _ ?s] =>
      destruct (prompt_int_outcome t s) as [Hc Ho];
      destruct (prompt_int t s) as [[z|e] st1] eqn:Hp
  end; cbn [fst snd ctx] in *.
  - erewrite bind_run; [|exact Hp].
    rewrite Hnone.
    erewrite bind_raise;
      [|unfold require; rewrite index_out_of_range; [reflexivity | simpl; lia]].
    cbn [fst snd]. auto.
  - erewrite bind_raise; [|exact Hp]. cbn [fst snd]. split; [|exact Hc].
    destruct Ho as [Ho|[z Ho]]; [inversion Ho; auto | discriminate].
Qed.

End SelectionDialogue.

Lemma selection_stores_listed_candidate_witness :
  Ruby.determine_release_pr (Sample.github Sample.pulls "") Sample.repo
                            (Sample.initial ("2" ++ nl))
  = (Ok tt,
     {| ctx := set_release_pr (Some Sample.manual_pull) Context_new;
        stdin := "";
        events := Spec.selection_dialogue
                    Sample.repo (Ruby.release_candidates Sample.pulls) |})
  /\ nth_error (Spec.menu 1 (Ruby.release_candidates Sample.pulls)) 1
     = Some (Print (Spec.menu_line 2 Sample.manual_pull)).
Proof.
  apply (@selection_stores_listed_candidate
           (Sample.github Sample.pulls "") Sample.repo
           (Sample.initial ("2" ++ nl)) Sample.pulls "2" "" 1
           Sample.manual_pull); reflexivity.
Defined.

Lemma selection_out_of_range_fails_witness :
  let run := Ruby.determine_release_pr (Sample.github Sample.pulls "")
                                       Sample.repo
                                       (Sample.initial ("3" ++ nl)) in
  fst run = Raise IndexError /\ ctx (snd run) = Context_new.
Proof.
  apply (@selection_out_of_range_fails
           (Sample.github Sample.pulls "") Sample.repo
           (Sample.initial ("3" ++ nl)) Sample.pulls "3" "" 3%Z);
    try reflexivity.
  left. vm_compute. reflexivity.
Defined.

Lemma no_candidate_no_selection_witness :
  let run := Ruby.determine_release_pr (Sample.github [Sample.chore_pull] "")
                                       Sample.repo
                                       (Sample.initial ("1" ++ nl)) in
  (fst run = Raise IndexError \/ fst run = Raise Abort)
  /\ ctx (snd run) = Context_new.
Proof.
  apply (@no_candidate_no_selection
           (Sample.github [Sample.chore_pull] "") Sample.repo
           [Sample.chore_pull] (Sample.initial ("1" ++ nl)));
    reflexivity.
Defined.

Section Thirty.

(** X5. The candidates are cut after thirty: once thirty of the pull
    requests listed mention a release, the ones listed behind them are never
    offered, whatever their titles. *)
Theorem candidates_cut_after_thirty (listed more : list PullRequest) :
  30 <= List.length (filter Ruby.title_mentions_release listed) ->
  Ruby.release_candidates (listed ++ more) = Ruby.release_candidates listed.
Proof.
  intros H. unfold Ruby.release_candidates, Py.slice_to.
  rewrite filter_app, firstn_app.
  replace (30 - List.length (filter Ruby.title_mentions_release listed))
    with 0 by lia.
  cbn [firstn]. apply app_nil_r.
Qed.

End Thirty.

Lemma candidates_cut_after_thirty_witness :
  Ruby.release_candidates (Sample.thirty_pulls ++ [Sample.manual_pull])
  = Ruby.release_candidates Sample.thirty_pulls.
Proof.
  apply (@candidates_cut_after_thirty Sample.thirty_pulls [Sample.manual_pull]).
  apply Nat.leb_le. vm_compute. reflexivity.
Defined.

(* ===================================================================== *)
(** ** Step 2: deriving the release tag *)
(* ===================================================================== *)

Section PatternFacts.

Lemma compile_head_ref_pattern :
  Re.compile Ruby.head_ref_pattern = Re.Parsed Ruby.head_ref_compiled.
Proof. vm_compute. reflexivity. Qed.

Lemma compile_release_tag_pattern :
  Re.compile Ruby.release_tag_pattern = Re.Parsed Ruby.release_tag_compiled.
Proof. vm_compute. reflexivity. Qed.

Lemma in_set_lower_or_hyphen (c : ascii) :
  Re.in_set false [Re.CRange "a" "z"; Re.CChar "-"] c = Spec.lower_or_hyphen c.
Proof.
  unfold Re.in_set, Spec.lower_or_hyphen. simpl.
  now rewrite orb_false_r, Ascii.eqb_sym.
Qed.

Lemma release_tag_exec (pkg : string) (d1 c1 d2 c2 d3 : ascii) :
  Spec.is_package_name pkg = true ->
  Spec.is_version (String d1 (String c1 (String d2 (String c2 (String d3 "")))))
  = true ->
  Re.exec Re.no_flags (Re.p_regex Ruby.release_tag_compiled)
          (Re.start (pkg ++ "/v" ++ String d1 (String c1 (String d2
                              (String c2 (String d3 ""))))))
          [] Re.finish
  = Some ({| Re.pos := String.length pkg + 7; Re.prev := Some d3;
             Re.rest := "" |},
          [(2, (String.length pkg + 2, String.length pkg + 7));
           (1, (0, String.length pkg + 0))]).
Proof.
  intros Hpkg Hver.
  unfold Spec.is_package_name in Hpkg. apply andb_true_iff in Hpkg.
  destruct Hpkg as [Hne Hall].
  cbn [Spec.is_version] in Hver.
  apply andb_true_iff in Hver; destruct Hver as [Hver Hd3].
  apply andb_true_iff in Hver; destruct Hver as [Hver Hc2].
  apply andb_true_iff in Hver; destruct Hver as [Hver Hd2].
  apply andb_true_iff in Hver; destruct Hver as [Hd1 Hc1].
  unfold Ruby.release_tag_compiled.
  cbn [Re.p_regex Re.exec]. unfold Re.start. cbn [Re.at_bol Re.prev Re.rest Re.pos].
  apply repeat_greedy_run.
  - rewrite (all_chars_ext _ Spec.lower_or_hyphen);
      [exact Hall | apply in_set_lower_or_hyphen].
  - reflexivity.
  - rewrite length_append. lia.
  - destruct pkg; [discriminate | simpl; lia].
  - unfold Re.eat, Re.advance, Re.finish, Re.dot, Spec.not_lf in *.
    cbn -[Py.isdigit Py.is_lf Nat.add].
    rewrite Hd1, Hd2, Hd3, Hc1, Hc2. cbn -[Nat.add].
    rewrite ?Nat.add_0_l, ?Nat.add_succ_r, ?Nat.add_0_r. reflexivity.
Qed.

(** Matching the composed tag gives the two parts back. *)
Lemma release_tag_pattern_round_trip (pkg ver : string) :
  Spec.is_package_name pkg = true ->
  Spec.is_version ver = true ->
  exists m,
    Re.re_match Ruby.release_tag_pattern (pkg ++ "/v" ++ ver) Re.no_flags
    = Re.Parsed (Some m)
    /\ Re.group m 1 = Some (Some pkg) /\ Re.group m 2 = Some (Some ver).
Proof.
  intros Hpkg Hver.
  destruct ver as [|d1 [|c1 [|d2 [|c2 [|d3 [|x ver]]]]]]; try discriminate.
  unfold Re.re_match. rewrite compile_release_tag_pattern.
  cbn [Re.pbind]. unfold Re.match_at.
  rewrite (release_tag_exec _ _ _ _ _ _ Hpkg Hver).
  eexists. split; [reflexivity|].
  unfold Re.group. cbn -[Re.slice Nat.add String.append].
  split; repeat f_equal.
  - rewrite Nat.add_0_r. apply slice_run.
  - replace (String.length pkg + 7) with (String.length pkg + 2 + 5) by lia.
    rewrite (slice_after pkg _ 2 5). reflexivity.
Qed.

End PatternFacts.

Ltac break :=
  repeat match goal with
         | H : exists _, _ |- _ => destruct H
         | H : _ /\ _ |- _ => destruct H
         | H : Spec.holds _ _ _ _ _ |- _ => unfold Spec.holds in H
         | H : Spec.eats _ _ _ _ _ |- _ => unfold Spec.eats in H
         end.

Section Shapes.

Lemma package_name_run (run : string) :
  1 <= String.length run ->
  Spec.all_chars (Re.in_set false [Re.CRange "a" "z"; Re.CChar "-"]) run = true ->
  Spec.is_package_name run = true.
Proof.
  intros Hlen Hall. unfold Spec.is_package_name.
  rewrite (all_chars_ext _ _ _ in_set_lower_or_hyphen) in Hall. rewrite Hall.
  destruct run; [simpl in Hlen; lia | reflexivity].
Qed.

Lemma release_tag_match_shape (typed : string) (m : Re.Match) :
  Re.re_match Ruby.release_tag_pattern typed Re.no_flags = Re.Parsed (Some m) ->
  exists pkg ver tail,
    typed = pkg ++ "/v" ++ ver ++ tail
    /\ Spec.is_package_name pkg = true /\ Spec.is_version ver = true
    /\ (tail = "" \/ tail = nl)
    /\ Re.group m 1 = Some (Some pkg) /\ Re.group m 2 = Some (Some ver).
Proof.
  unfold Re.re_match. rewrite compile_release_tag_pattern. cbn [Re.pbind].
  intros H. inversion H as [Hm]; clear H.
  apply match_at_sound in Hm. destruct Hm as (cur' & caps & Hm & ->).
  unfold Ruby.release_tag_compiled in Hm. cbn [Re.p_regex Spec.matches] in Hm.
  break.
  match goal with H : Spec.iter _ _ _ _ _ _ |- _ => apply iter_eats in H end.
  break. subst. cbn [Re.rest Re.advance Re.pos Re.start] in *. subst.
  repeat match goal with
         | H : (_ =? _)%char = true |- _ => apply Ascii.eqb_eq in H
         end.
  subst.
  match goal with H : Re.at_eol _ _ = true |- _ => apply at_eol_plain in H;
                                                    cbn [Re.rest Re.advance] in H end.
  match goal with H : Re.pos _ = 0 + _ |- _ => rewrite H; cbn [Nat.add] end.
  match goal with
  | H : Re.rest _ = String _ (String _ (String ?d1 (String ?c1 (String ?d2
          (String ?c2 (String ?d3 ?tail)))))) |- exists _ _ _, ?run ++ _ = _ /\ _ =>
      exists run, (String d1 (String c1 (String d2 (String c2 (String d3 ""))))),
        tail; rewrite H
  end.
  split; [reflexivity|]. split; [now apply package_name_run|].
  split.
  { cbn [Spec.is_version]. unfold Re.dot, Spec.not_lf in *.
    cbn [Re.DOTALL Re.no_flags orb Re.in_category] in *.
    repeat match goal with
           | H : Py.isdigit _ = true |- _ => rewrite H; clear H
           | H : negb (Py.is_lf _) = true |- _ => rewrite H; clear H
           end.
    reflexivity. }
  split; [assumption|].
  unfold Re.group. cbn -[Re.slice Nat.add String.append].
  split; repeat f_equal.
  - apply slice_run.
  - rewrite (slice_at _ _ 2 5) by lia. cbn [substring].
    match goal with |- context [substring 0 0 ?t] => now destruct t end.
Qed.

End Shapes.

Section HeadRefShape.

Lemma head_ref_match_shape (head : string) (m : Re.Match) :
  Re.re_match Ruby.head_ref_pattern head Re.no_flags = Re.Parsed (Some m) ->
  exists pkg d1 d2 c2 d3 tail,
    let ver := String d1 (String "." (String d2 (String c2 (String d3 "")))) in
    head = "release-" ++ pkg ++ "-v" ++ ver ++ tail
    /\ Spec.is_package_name pkg = true /\ Spec.is_version ver = true
    /\ (tail = "" \/ tail = nl)
    /\ Re.group m 1 = Some (Some pkg) /\ Re.group m 2 = Some (Some ver).
Proof.
  unfold Re.re_match. rewrite compile_head_ref_pattern. cbn [Re.pbind].
  intros H. inversion H as [Hm]; clear H.
  apply match_at_sound in Hm. destruct Hm as (cur' & caps & Hm & ->).
  unfold Ruby.head_ref_compiled in Hm. cbn [Re.p_regex Spec.matches] in Hm.
  break.
  match goal with H : Spec.iter _ _ _ _ _ _ |- _ => apply iter_eats in H end.
  break. subst. cbn [Re.rest Re.advance Re.pos Re.start] in *. subst.
  repeat match goal with
         | H : (_ =? _)%char = true |- _ => apply Ascii.eqb_eq in H
         end.
  subst.
  match goal with H : Re.at_eol _ _ = true |- _ => apply at_eol_plain in H;
                                                    cbn [Re.rest Re.advance] in H end.
  match goal with H : Re.pos _ = _ + _ |- _ => rewrite H end.
  match goal with
  | H : Re.rest _ = String _ (String _ (String ?d1 (String _ (String ?d2
          (String ?c2 (String ?d3 ?tail)))))) |- context [?run ++ Re.rest _] =>
      exists run, d1, d2, c2, d3, tail; rewrite H
  end.
  cbv zeta. split; [reflexivity|]. split; [now apply package_name_run|].
  split.
  { cbn [Spec.is_version]. unfold Re.dot, Spec.not_lf in *.
    cbn [Re.DOTALL Re.no_flags orb Re.in_category] in *.
    repeat match goal with
           | H : Py.isdigit _ = true |- _ => rewrite H; clear H
           | H : negb (Py.is_lf _) = true |- _ => rewrite H; clear H
           end.
    reflexivity. }
  split; [assumption|].
  unfold Re.group. cbn -[Re.slice Nat.add String.append].
  split; repeat f_equal.
  - apply (slice_mid "release-"); reflexivity.
  - etransitivity;
      [eapply (slice_at2 "release-" _ _ 2 5); simpl; lia |].
    cbn [substring].
    match goal with |- context [substring 0 0 ?t] => now destruct t end.
Qed.

End HeadRefShape.

Section Languages.

Lemma iter_eats_run (test : ascii -> bool) (run tail : string) :
  Spec.all_chars test run = true ->
  forall (p : nat) (before : option ascii) (caps : Re.captures),
    Spec.iter (Spec.eats test) (String.length run)
              {| Re.pos := p; Re.prev := before; Re.rest := run ++ tail |} caps
              {| Re.pos := p + String.length run;
                 Re.prev := Spec.last_char before run; Re.rest := tail |} caps.
Proof.
  induction run as [|c run IH]; intros Hall p before caps.
  - simpl. rewrite Nat.add_0_r. constructor.
  - simpl in Hall. apply andb_true_iff in Hall. destruct Hall as [Hc Hall].
    cbn [String.length String.append Spec.last_char].
    econstructor.
    + exists c, (run ++ tail). repeat split; auto.
    + unfold Re.advance. cbn [Re.pos].
      replace (p + S (String.length run)) with (S p + String.length run) by lia.
      now apply IH.
Qed.

Lemma eats_step (test : ascii -> bool) (c : ascii) (r : string) (p : nat)
      (before : option ascii) (caps : Re.captures) :
  test c = true ->
  Spec.eats test {| Re.pos := p; Re.prev := before; Re.rest := String c r |} caps
            {| Re.pos := S p; Re.prev := Some c; Re.rest := r |} caps.
Proof. intros H. exists c, r. auto. Qed.

(** [Spec.is_package_name] is the language of [[a-z-]+]. *)
Lemma is_package_name_language (s : string) :
  Spec.is_package_name s = true <-> Spec.matches_fully "[a-z-]+" s.
Proof.
  assert (Hc : Re.compile "[a-z-]+"
               = Re.Parsed
                   {| Re.p_regex :=
                        Re.Repeat 1 None true
                                  (Re.In false [Re.CRange "a" "z"; Re.CChar "-"]);
                      Re.p_names := []; Re.p_groups := 0 |})
    by (vm_compute; reflexivity).
  split.
  - intros H. unfold Spec.is_package_name in H. apply andb_true_iff in H.
    destruct H as [Hne Hall].
    exists {| Re.p_regex :=
                Re.Repeat 1 None true
                          (Re.In false [Re.CRange "a" "z"; Re.CChar "-"]);
              Re.p_names := []; Re.p_groups := 0 |},
      {| Re.pos := 0 + String.length s; Re.prev := Spec.last_char None s;
         Re.rest := "" |}, [].
    split; [exact Hc|]. cbn [Re.p_regex Spec.matches].
    split; [|reflexivity].
    exists (String.length s). split; [|split; [|exact I]].
    + unfold Re.start. rewrite <- (append_nil_r s) at 2.
      apply iter_eats_run.
      rewrite (all_chars_ext _ _ _ in_set_lower_or_hyphen). exact Hall.
    + destruct s; [discriminate | simpl; lia].
  - intros (p & cur & caps & Hp & Hm & Hrest).
    rewrite Hc in Hp. inversion Hp; subst p; clear Hp.
    cbn [Re.p_regex Spec.matches] in Hm.
    destruct Hm as (n & Hit & Hn & _).
    apply iter_eats in Hit.
    destruct Hit as (run & Hrun & Hlen & _ & Hall & _).
    cbn [Re.rest Re.start] in Hrun. rewrite Hrest, append_nil_r in Hrun.
    subst s. apply package_name_run; [lia | exact Hall].
Qed.

(** [Spec.is_version] is the language of [\d.\d.\d]. *)
Lemma is_version_language (s : string) :
  Spec.is_version s = true <-> Spec.matches_fully "\d.\d.\d" s.
Proof.
  assert (Hc : Re.compile "\d.\d.\d"
               = Re.Parsed
                   {| Re.p_regex :=
                        Re.Seq (Re.Cat Re.Digit)
                          (Re.Seq Re.Dot
                             (Re.Seq (Re.Cat Re.Digit)
                                (Re.Seq Re.Dot (Re.Cat Re.Digit))));
                      Re.p_names := []; Re.p_groups := 0 |})
    by (vm_compute; reflexivity).
  split.
  - intros H.
    destruct s as [|d1 [|c1 [|d2 [|c2 [|d3 [|x s]]]]]]; try discriminate.
    cbn [Spec.is_version] in H.
    apply andb_true_iff in H; destruct H as [H Hd3].
    apply andb_true_iff in H; destruct H as [H Hc2].
    apply andb_true_iff in H; destruct H as [H Hd2].
    apply andb_true_iff in H; destruct H as [Hd1 Hc1].
    exists {| Re.p_regex :=
                Re.Seq (Re.Cat Re.Digit)
                  (Re.Seq Re.Dot
                     (Re.Seq (Re.Cat Re.Digit)
                        (Re.Seq Re.Dot (Re.Cat Re.Digit))));
              Re.p_names := []; Re.p_groups := 0 |},
      {| Re.pos := 5; Re.prev := Some d3; Re.rest := "" |}, [].
    split; [exact Hc|]. cbn [Re.p_regex Spec.matches].
    split; [|reflexivity].
    unfold Re.start.
    repeat (eexists; eexists; split; [apply eats_step; assumption|]).
    apply eats_step; assumption.
  - intros (p & cur & caps & Hp & Hm & Hrest).
    rewrite Hc in Hp. inversion Hp; subst p; clear Hp.
    cbn [Re.p_regex Spec.matches] in Hm. break. subst.
    cbn [Re.rest Re.advance Re.start] in *. subst.
    cbn [Spec.is_version]. unfold Re.dot, Spec.not_lf in *.
    cbn [Re.DOTALL Re.no_flags orb Re.in_category] in *.
    repeat match goal with
           | H : Py.isdigit _ = true |- _ => rewrite H; clear H
           | H : negb (Py.is_lf _) = true |- _ => rewrite H; clear H
           end.
    reflexivity.
Qed.

End Languages.

Section TagDerivation.

Lemma single_line_tail (typed pkg ver tail : string) :
  typed = pkg ++ "/v" ++ ver ++ tail ->
  Spec.all_chars Spec.not_lf typed = true ->
  tail = "" \/ tail = nl -> tail = "".
Proof.
  intros -> H [->| ->]; [reflexivity|].
  rewrite !all_chars_app in H.
  assert (Hnl : Spec.all_chars Spec.not_lf nl = false) by reflexivity.
  rewrite Hnl, !andb_false_r in H. discriminate.
Qed.

(** The second pattern applied to the context's tag: what the step stores. *)
Lemma determine_package_name_and_version_ok (st : State) (tag : string)
      (m : Re.Match) (g1 g2 : option string) :
  release_tag (ctx st) = Some tag ->
  Re.re_match Ruby.release_tag_pattern tag Re.no_flags = Re.Parsed (Some m) ->
  Re.group m 1 = Some g1 -> Re.group m 2 = Some g2 ->
  Ruby.determine_package_name_and_version st
  = (Ok tt,
     {| ctx := set_release_version g2 (set_package_name g1 (ctx st));
        stdin := stdin st;
        events := events st ++
          [Secho "> Determining the package name and version from your release tag."
                 Ruby.cyan true] |}).
Proof.
  intros Htag Hm H1 H2.
  unfold Ruby.determine_package_name_and_version, Ruby.group.
  unfold bind, secho, emit, get_ctx, require, of_parsed, modify, ret.
  cbn [ctx stdin events]. rewrite Htag, Hm, H1. cbn [ctx stdin events].
  rewrite H2. reflexivity.
Qed.

Lemma determine_package_name_and_version_inv (st st' : State) (u : unit) :
  Ruby.determine_package_name_and_version st = (Ok u, st') ->
  exists tag m g1 g2,
    release_tag (ctx st) = Some tag
    /\ Re.re_match Ruby.release_tag_pattern tag Re.no_flags = Re.Parsed (Some m)
    /\ Re.group m 1 = Some g1 /\ Re.group m 2 = Some g2
    /\ ctx st' = set_release_version g2 (set_package_name g1 (ctx st)).
Proof.
  unfold Ruby.determine_package_name_and_version, Ruby.group.
  unfold bind, secho, emit, get_ctx, require, of_parsed, modify, ret, raise.
  cbn [ctx stdin events].
  destruct (release_tag (ctx st)) as [tag|]; [|discriminate].
  destruct (Re.re_match Ruby.release_tag_pattern tag Re.no_flags)
    as [[m|]| |] eqn:Hm; try discriminate.
  destruct (Re.group m 1) as [g1|] eqn:H1; [|discriminate].
  cbn [ctx stdin events].
  destruct (Re.group m 2) as [g2|] eqn:H2; [|discriminate].
  intros H. inversion H; subst. exists tag, m, g1, g2. cbn [ctx]. auto.
Qed.

(** C2. Composing a tag from a package name matching [[a-z-]+] and a
    version matching [\d.\d.\d] and deriving name and version back from it
    by the second pattern gives the pair again; and whenever the derivation
    step ends normally, on either path, the stored tag is the stored name,
    "/v", and the stored version. *)
Theorem release_tag_round_trip :
  (forall (pkg ver : string) (st : State),
      Spec.is_package_name pkg = true ->
      Spec.is_version ver = true ->
      release_tag (ctx st) = Some (Ruby.tag_of (Some pkg) (Some ver)) ->
      exists st',
        Ruby.determine_package_name_and_version st = (Ok tt, st')
        /\ package_name (ctx st') = Some pkg
        /\ release_version (ctx st') = Some ver
        /\ release_tag (ctx st') = release_tag (ctx st))
  /\ (forall st st' : State,
         Ruby.determine_release_tag st = (Ok tt, st') ->
         exists pkg ver,
           package_name (ctx st') = Some pkg
           /\ release_version (ctx st') = Some ver
           /\ release_tag (ctx st') = Some (pkg ++ "/v" ++ ver)
           /\ Spec.is_package_name pkg = true
           /\ Spec.is_version ver = true).
Proof.
  split.
  - intros pkg ver st Hpkg Hver Htag.
    destruct (release_tag_pattern_round_trip pkg ver Hpkg Hver) as (m & Hm & H1 & H2).
    eexists. split.
    + eapply determine_package_name_and_version_ok; eauto.
    + cbn. auto.
  - intros st st' Hrun. unfold Ruby.determine_release_tag in Hrun. run_back.
    cbn [ctx stdin events] in *.
    match goal with
    | H : Re.re_match Ruby.head_ref_pattern _ _ = Re.Parsed ?x |- _ =>
        destruct x as [m|]; rename H into Hmatch
    end; run_back; cbn [ctx stdin events] in *.
    + apply head_ref_match_shape in Hmatch.
      destruct Hmatch as (pkg & d1 & d2 & c2 & d3 & tail & Hshape).
      cbv zeta in Hshape.
      destruct Hshape as (_ & Hpkg & Hver & _ & Hg1 & Hg2).
      repeat match goal with
             | H : Re.group _ _ = Some _ |- _ =>
                 first [rewrite Hg1 in H | rewrite Hg2 in H];
                 inversion H; subst; clear H
             end.
      cbn. eexists _, _. repeat split; eauto.
    + match goal with
      | H : prompt _ _ = (Ok _, _) |- _ =>
          apply prompt_line in H; destruct H as (Hline & _ & Hctx)
      end.
      match goal with
      | H : Ruby.determine_package_name_and_version _ = (Ok _, _) |- _ =>
          apply determine_package_name_and_version_inv in H;
          destruct H as (tag & m & g1 & g2 & Htag & Hmatch2 & Hg1 & Hg2 & Hctx2)
      end.
      cbn [ctx release_tag set_release_tag] in Htag. inversion Htag; subst tag.
      apply release_tag_match_shape in Hmatch2.
      destruct Hmatch2
        as (pkg & ver & tail & Htyped & Hpkg & Hver & Htail & G1 & G2).
      rewrite G1 in Hg1. rewrite G2 in Hg2.
      inversion Hg1; inversion Hg2; subst g1 g2.
      assert (tail = "") as ->.
      { eapply single_line_tail; eauto. }
      rewrite append_nil_r in Htyped.
      rewrite Hctx2. cbn. exists pkg, ver. rewrite Htyped. repeat split; auto.
Qed.

End TagDerivation.

Section TagDerivationExamples.

(** The specification's example of the first pattern. *)
Example determine_release_tag_example :
  let st' := snd (Ruby.determine_release_tag
                    (Sample.selected Sample.release_pull "")) in
  package_name (ctx st') = Some "google-cloud-storage"
  /\ release_version (ctx st') = Some "1.2.3"
  /\ release_tag (ctx st') = Some "google-cloud-storage/v1.2.3".
Proof. vm_compute. auto. Qed.

(** The specification's example of the typed tag. *)
Example determine_release_tag_typed_example :
  let st' := snd (Ruby.determine_release_tag
                    (Sample.selected Sample.manual_pull ("foo-bar/v2.0.1" ++ nl))) in
  package_name (ctx st') = Some "foo-bar"
  /\ release_version (ctx st') = Some "2.0.1"
  /\ release_tag (ctx st') = Some "foo-bar/v2.0.1".
Proof. vm_compute. auto. Qed.

Lemma release_tag_round_trip_witness :
  (exists st',
      Ruby.determine_package_name_and_version
        (Sample.derived Sample.manual_pull "foo-bar" "2.0.1") = (Ok tt, st')
      /\ package_name (ctx st') = Some "foo-bar"
      /\ release_version (ctx st') = Some "2.0.1"
      /\ release_tag (ctx st')
         = release_tag (ctx (Sample.derived Sample.manual_pull "foo-bar" "2.0.1")))
  /\ (exists pkg ver,
         let st' := snd (Ruby.determine_release_tag
                           (Sample.selected Sample.release_pull "")) in
         package_name (ctx st') = Some pkg
         /\ release_version (ctx st') = Some ver
         /\ release_tag (ctx st') = Some (pkg ++ "/v" ++ ver)
         /\ Spec.is_package_name pkg = true
         /\ Spec.is_version ver = true).
Proof.
  split.
  - apply (proj1 release_tag_round_trip "foo-bar" "2.0.1"); reflexivity.
  - apply (proj2 release_tag_round_trip
                 (Sample.selected Sample.release_pull "")).
    vm_compute. reflexivity.
Defined.

End TagDerivationExamples.

Section PatternSlips.

(** C4. The branch name release-foo-v1.2x3 takes the automatic path (no
    prompt), although its version is not three digits separated by dots:
    the pattern's second dot stands unescaped and matches any character. *)
Theorem head_ref_with_letter_accepted :
  let run := Ruby.determine_release_tag (Sample.selected Sample.odd_pull "") in
  fst run = Ok tt
  /\ Sample.prompts (events (snd run)) = []
  /\ package_name (ctx (snd run)) = Some "foo"
  /\ release_version (ctx (snd run)) = Some "1.2x3"
  /\ release_tag (ctx (snd run)) = Some "foo/v1.2x3"
  /\ Spec.is_dotted_version "1.2x3" = false.
Proof. vm_compute. repeat split; reflexivity. Qed.

(** C9. The typed tag foo/v1x2y3 is not of the form
    <package>/v<major>.<minor>.<patch>, and yet the step does not fail: the
    second pattern's dots are unescaped, so name and version are stored. *)
Theorem typed_tag_without_dots_accepted :
  let run := Ruby.determine_release_tag
               (Sample.selected Sample.manual_pull ("foo/v1x2y3" ++ nl)) in
  fst run = Ok tt
  /\ package_name (ctx (snd run)) = Some "foo"
  /\ release_version (ctx (snd run)) = Some "1x2y3"
  /\ release_tag (ctx (snd run)) = Some "foo/v1x2y3"
  /\ Spec.is_dotted_version "1x2y3" = false.
Proof. vm_compute. repeat split; reflexivity. Qed.

(** A tag the second pattern does not match ends the step in an
    AttributeError, name and version left as they were; nothing is asked
    again. *)
Lemma unmatched_tag_fails (st : State) (tag : string) :
  release_tag (ctx st) = Some tag ->
  Re.re_match Ruby.release_tag_pattern tag Re.no_flags = Re.Parsed None ->
  Ruby.determine_package_name_and_version st
  = (Raise AttributeError,
     {| ctx := ctx st; stdin := stdin st;
        events := events st ++
          [Secho "> Determining the package name and version from your release tag."
                 Ruby.cyan true] |}).
Proof.
  intros Htag Hm.
  unfold Ruby.determine_package_name_and_version.
  unfold bind, secho, emit, get_ctx, require, of_parsed, ret, raise.
  cbn [ctx stdin events]. rewrite Htag, Hm. reflexivity.
Qed.

(** A typed tag that lacks the v: the step fails after one prompt, the tag
    stored, name and version unset. *)
Example typed_tag_without_v_fails :
  let run := Ruby.determine_release_tag
               (Sample.selected Sample.manual_pull
                                ("foo-bar/2.0.1" ++ nl ++ "foo-bar/v2.0.1" ++ nl)) in
  fst run = Raise AttributeError
  /\ List.length (Sample.prompts (events (snd run))) = 1
  /\ stdin (snd run) = "foo-bar/v2.0.1" ++ nl
  /\ release_tag (ctx (snd run)) = Some "foo-bar/2.0.1"
  /\ package_name (ctx (snd run)) = None
  /\ release_version (ctx (snd run)) = None.
Proof. vm_compute. repeat split; reflexivity. Qed.

(** The end-of-line anchor also holds before a final line feed: for a tag
    that ends in one (no line read from the terminal does), the version
    stored lacks it. *)
Remark tag_with_final_line_feed :
  let st := {| ctx := set_release_tag (Some ("foo/v1.2.3" ++ nl)) Context_new;
               stdin := ""; events := [] |} in
  let st' := snd (Ruby.determine_package_name_and_version st) in
  package_name (ctx st') = Some "foo" /\ release_version (ctx st') = Some "1.2.3".
Proof. vm_compute. split; reflexivity. Qed.

End PatternSlips.

Section GreedyPrefix.

Variable test : ascii -> bool.
Variable mn : nat.
Variable k : Re.cont.

(** A greedy repeat reads on through a prefix the test accepts: what the
    loop finds behind the prefix is its answer. *)
Lemma repeat_greedy_prefix (a s : string) :
  Spec.all_chars test a = true ->
  forall fuel count p before caps o,
    Re.repeat_loop (Re.eat test) mn None true k fuel (count + String.length a)
                   {| Re.pos := p + String.length a;
                      Re.prev := Spec.last_char before a; Re.rest := s |} caps
    = Some o ->
    Re.repeat_loop (Re.eat test) mn None true k (String.length a + fuel) count
                   {| Re.pos := p; Re.prev := before; Re.rest := a ++ s |} caps
    = Some o.
Proof.
  induction a as [|c a IH]; intros Hall fuel count p before caps o H.
  - simpl in *. now rewrite !Nat.add_0_r in H.
  - simpl in Hall. apply andb_true_iff in Hall. destruct Hall as [Hc Hall].
    cbn [String.length String.append Nat.add Re.repeat_loop].
    rewrite eat_cons, Hc. cbn [Re.may_repeat].
    rewrite (IH Hall fuel (S count) (S p) (Some c) caps o); [reflexivity|].
    cbn [String.length Spec.last_char] in H.
    now rewrite !Nat.add_succ_r in H.
Qed.

End GreedyPrefix.

Lemma digit_not_name (d : ascii) :
  Py.isdigit d = true ->
  Re.in_set false [Re.CRange "a" "z"; Re.CChar "-"] d = false
  /\ ("-" =? d)%char = false /\ Py.is_lf d = false.
Proof.
  destruct d as [[] [] [] [] [] [] [] []]; vm_compute; intros H;
    try discriminate; auto.
Qed.

Lemma head_ref_exec (pkg : string) (d1 c1 d2 c2 d3 : ascii) (tail : string) :
  Spec.is_package_name pkg = true ->
  Spec.is_head_version
    (String d1 (String c1 (String d2 (String c2 (String d3 "")))))
  = true ->
  Spec.line_end tail ->
  Re.exec Re.no_flags (Re.p_regex Ruby.head_ref_compiled)
          (Re.start ("release-" ++ pkg ++ "-v"
                       ++ String d1 (String c1 (String d2
                            (String c2 (String d3 tail))))))
          [] Re.finish
  = Some ({| Re.pos := String.length pkg + 15; Re.prev := Some d3;
             Re.rest := tail |},
          [(2, (String.length pkg + 10, String.length pkg + 15));
           (1, (8, String.length pkg + 8))]).
Proof.
  intros Hpkg Hver Htail.
  unfold Spec.is_package_name in Hpkg. apply andb_true_iff in Hpkg.
  destruct Hpkg as [Hne Hall].
  cbn [Spec.is_head_version] in Hver.
  apply andb_true_iff in Hver; destruct Hver as [Hver Hd3].
  apply andb_true_iff in Hver; destruct Hver as [Hver Hc2].
  apply andb_true_iff in Hver; destruct Hver as [Hver Hd2].
  apply andb_true_iff in Hver; destruct Hver as [Hd1 Hc1].
  apply Ascii.eqb_eq in Hc1. subst c1.
  destruct (digit_not_name d1 Hd1) as (Hs1 & Hm1 & _).
  unfold Ruby.head_ref_compiled.
  cbn [Re.p_regex Re.exec]. unfold Re.start.
  cbn [Re.at_bol Re.prev Re.rest Re.pos String.append].
  rewrite !eat_cons. cbn [Ascii.eqb Bool.eqb].
  cbn [String.length].
  cbn [Re.rest Re.pos]. rewrite length_append, <- Nat.add_succ_r.
  destruct pkg as [|c0 pkg0]; [discriminate|].
  apply (@repeat_greedy_prefix _ 1 _ (String c0 pkg0) _
           ltac:(rewrite (all_chars_ext _ Spec.lower_or_hyphen);
                 [exact Hall | apply in_set_lower_or_hyphen])
           _ 0 8 (Some "-"%char)).
  assert (Hh : Re.in_set false [Re.CRange "a" "z"; Re.CChar "-"] "-" = true)
    by reflexivity.
  assert (Hv : Re.in_set false [Re.CRange "a" "z"; Re.CChar "-"] "v" = true)
    by reflexivity.
  unfold Spec.not_lf in Hc2.
  cbn [String.length Nat.add Re.repeat_loop Re.may_repeat].
  repeat first [ rewrite eat_cons | rewrite Hh | rewrite Hv | rewrite Hs1
               | rewrite Hm1 | rewrite Hd1 | rewrite Hd2 | rewrite Hd3
               | rewrite Hc2
               | progress cbn [Nat.leb Ascii.eqb Bool.eqb Re.in_category
                                Re.dot Re.DOTALL Re.no_flags orb] ].
  assert (Heol : forall p, Re.at_eol Re.no_flags
                             {| Re.pos := p; Re.prev := Some d3;
                                Re.rest := tail |} = true).
  { intros p. destruct Htail as [->| ->]; reflexivity. }
  rewrite Heol. unfold Re.finish. cbn [Re.pos].
  rewrite ?Nat.add_succ_r, ?Nat.add_0_r. reflexivity.
Qed.

Lemma version_chars (ver : string) :
  Spec.is_version ver = true ->
  exists d1 c1 d2 c2 d3,
    ver = String d1 (String c1 (String d2 (String c2 (String d3 "")))).
Proof.
  destruct ver as [|d1 [|c1 [|d2 [|c2 [|d3 [|x ver]]]]]]; try discriminate.
  intros _. now exists d1, c1, d2, c2, d3.
Qed.

Lemma head_version_is_version (ver : string) :
  Spec.is_head_version ver = true -> Spec.is_version ver = true.
Proof.
  destruct ver as [|d1 [|c1 [|d2 [|c2 [|d3 [|x ver]]]]]]; try discriminate.
  cbn [Spec.is_head_version Spec.is_version]. intros H.
  apply andb_true_iff in H; destruct H as [H Hd3].
  apply andb_true_iff in H; destruct H as [H Hc2].
  apply andb_true_iff in H; destruct H as [H Hd2].
  apply andb_true_iff in H; destruct H as [Hd1 Hc1].
  apply Ascii.eqb_eq in Hc1. subst c1. rewrite Hd1, Hd2, Hd3, Hc2. reflexivity.
Qed.

(** The first pattern takes a name of its shape and hands back the two
    parts. *)
Lemma head_ref_pattern_takes (pkg ver tail : string) :
  Spec.is_package_name pkg = true ->
  Spec.is_head_version ver = true ->
  Spec.line_end tail ->
  exists m,
    Re.re_match Ruby.head_ref_pattern
                ("release-" ++ pkg ++ "-v" ++ ver ++ tail) Re.no_flags
    = Re.Parsed (Some m)
    /\ Re.group m 1 = Some (Some pkg) /\ Re.group m 2 = Some (Some ver).
Proof.
  intros Hpkg Hver Htail.
  destruct (version_chars ver (head_version_is_version ver Hver))
    as (d1 & c1 & d2 & c2 & d3 & ->).
  change ("release-" ++ pkg ++ "-v"
             ++ String d1 (String c1 (String d2 (String c2 (String d3 "")))) ++ tail)
    with ("release-" ++ pkg ++ "-v"
             ++ String d1 (String c1 (String d2 (String c2 (String d3 tail))))).
  unfold Re.re_match. rewrite compile_head_ref_pattern.
  cbn [Re.pbind]. unfold Re.match_at.
  rewrite (@head_ref_exec pkg d1 c1 d2 c2 d3 tail Hpkg Hver Htail).
  eexists. split; [reflexivity|].
  unfold Re.group. cbn -[Re.slice Nat.add String.append].
  split; repeat f_equal.
  - apply (slice_mid "release-"); simpl; lia.
  - etransitivity;
      [eapply (@slice_at2 "release-" pkg _ 2 5); simpl; lia |].
    cbn [substring]. now destruct tail.
Qed.

Lemma head_ref_match_gives_shape (head : string) (m : Re.Match) :
  Re.re_match Ruby.head_ref_pattern head Re.no_flags = Re.Parsed (Some m) ->
  Spec.head_ref_shape head.
Proof.
  intros Hm. apply head_ref_match_shape in Hm.
  destruct Hm as (pkg & d1 & d2 & c2 & d3 & tail & Hshape).
  cbv zeta in Hshape. destruct Hshape as (Hhead & Hpkg & Hver & Htail & _).
  exists pkg, (String d1 (String "." (String d2 (String c2 (String d3 ""))))),
    tail.
  repeat split; auto.
Qed.

(** X6. The head branch names the first pattern takes are exactly those
    of the form release-<package>-v<version>, optionally followed by one
    final line feed: the package name one or more of a-z and the hyphen, the
    version a digit, a dot, a digit, any character but the line feed, and a
    digit. *)
Theorem head_ref_pattern_language (head : string) :
  (exists m, Re.re_match Ruby.head_ref_pattern head Re.no_flags
             = Re.Parsed (Some m))
  <-> Spec.head_ref_shape head.
Proof.
  split.
  - intros [m Hm]. exact (head_ref_match_gives_shape Hm).
  - intros (pkg & ver & tail & -> & Hpkg & Hver & Htail).
    destruct (@head_ref_pattern_takes pkg ver tail Hpkg Hver Htail)
      as (m & Hm & _).
    now exists m.
Qed.

Lemma release_tag_exec_tail (pkg : string) (d1 c1 d2 c2 d3 : ascii)
      (tail : string) :
  Spec.is_package_name pkg = true ->
  Spec.is_version (String d1 (String c1 (String d2 (String c2 (String d3 "")))))
  = true ->
  Spec.line_end tail ->
  Re.exec Re.no_flags (Re.p_regex Ruby.release_tag_compiled)
          (Re.start (pkg ++ "/v" ++ String d1 (String c1 (String d2
                              (String c2 (String d3 tail))))))
          [] Re.finish
  = Some ({| Re.pos := String.length pkg + 7; Re.prev := Some d3;
             Re.rest := tail |},
          [(2, (String.length pkg + 2, String.length pkg + 7));
           (1, (0, String.length pkg + 0))]).
Proof.
  intros Hpkg Hver Htail.
  unfold Spec.is_package_name in Hpkg. apply andb_true_iff in Hpkg.
  destruct Hpkg as [Hne Hall].
  cbn [Spec.is_version] in Hver.
  apply andb_true_iff in Hver; destruct Hver as [Hver Hd3].
  apply andb_true_iff in Hver; destruct Hver as [Hver Hc2].
  apply andb_true_iff in Hver; destruct Hver as [Hver Hd2].
  apply andb_true_iff in Hver; destruct Hver as [Hd1 Hc1].
  assert (Heol : forall p, Re.at_eol Re.no_flags
                             {| Re.pos := p; Re.prev := Some d3;
                                Re.rest := tail |} = true).
  { intros p. destruct Htail as [->| ->]; reflexivity. }
  unfold Ruby.release_tag_compiled.
  cbn [Re.p_regex Re.exec]. unfold Re.start. cbn [Re.at_bol Re.prev Re.rest Re.pos].
  apply repeat_greedy_run.
  - rewrite (all_chars_ext _ Spec.lower_or_hyphen);
      [exact Hall | apply in_set_lower_or_hyphen].
  - reflexivity.
  - rewrite length_append. lia.
  - destruct pkg; [discriminate | simpl; lia].
  - unfold Spec.not_lf in *. cbn [String.append].
    repeat first [ rewrite eat_cons | rewrite Hd1 | rewrite Hd2 | rewrite Hd3
                 | rewrite Hc1 | rewrite Hc2 | rewrite Heol
                 | progress cbn [Ascii.eqb Bool.eqb Re.in_category
                                  Re.dot Re.DOTALL Re.no_flags orb] ].
    unfold Re.finish. cbn [Re.pos].
    rewrite ?Nat.add_0_l, ?Nat.add_succ_r, ?Nat.add_0_r. reflexivity.
Qed.

(** The second pattern takes a tag of its shape and hands back the two
    parts. *)
Lemma release_tag_pattern_takes (pkg ver tail : string) :
  Spec.is_package_name pkg = true ->
  Spec.is_version ver = true ->
  Spec.line_end tail ->
  exists m,
    Re.re_match Ruby.release_tag_pattern (pkg ++ "/v" ++ ver ++ tail)
                Re.no_flags
    = Re.Parsed (Some m)
    /\ Re.group m 1 = Some (Some pkg) /\ Re.group m 2 = Some (Some ver).
Proof.
  intros Hpkg Hver Htail.
  destruct (version_chars ver Hver) as (d1 & c1 & d2 & c2 & d3 & ->).
  change (pkg ++ "/v"
             ++ String d1 (String c1 (String d2 (String c2 (String d3 "")))) ++ tail)
    with (pkg ++ "/v"
             ++ String d1 (String c1 (String d2 (String c2 (String d3 tail))))).
  unfold Re.re_match. rewrite compile_release_tag_pattern.
  cbn [Re.pbind]. unfold Re.match_at.
  rewrite (@release_tag_exec_tail pkg d1 c1 d2 c2 d3 tail Hpkg Hver Htail).
  eexists. split; [reflexivity|].
  unfold Re.group. cbn -[Re.slice Nat.add String.append].
  split; repeat f_equal.
  - rewrite Nat.add_0_r. apply slice_run.
  - rewrite (@slice_at pkg _ 2 5) by lia. cbn [substring]. now destruct tail.
Qed.

Lemma no_match_not_head_ref_shape (head : string) :
  Re.re_match Ruby.head_ref_pattern head Re.no_flags = Re.Parsed None ->
  ~ Spec.head_ref_shape head.
Proof.
  intros H (pkg & ver & tail & -> & Hpkg & Hver & Htail).
  destruct (@head_ref_pattern_takes pkg ver tail Hpkg Hver Htail) as (m & Hm & _).
  congruence.
Qed.

Lemma no_match_not_tag_shape (tag : string) :
  Re.re_match Ruby.release_tag_pattern tag Re.no_flags = Re.Parsed None ->
  ~ Spec.tag_shape tag.
Proof.
  intros H (pkg & ver & tail & -> & Hpkg & Hver & Htail).
  destruct (@release_tag_pattern_takes pkg ver tail Hpkg Hver Htail)
    as (m & Hm & _).
  congruence.
Qed.

Lemma not_tag_shape_no_match (tag : string) :
  ~ Spec.tag_shape tag ->
  Re.re_match Ruby.release_tag_pattern tag Re.no_flags = Re.Parsed None.
Proof.
  intros Hno.
  destruct (Re.re_match Ruby.release_tag_pattern tag Re.no_flags)
    as [[m|]| |] eqn:E.
  - exfalso. apply Hno. apply release_tag_match_shape in E.
    destruct E as (pkg & ver & tail & H1 & H2 & H3 & H4 & _).
    now exists pkg, ver, tail.
  - reflexivity.
  - unfold Re.re_match in E. rewrite compile_release_tag_pattern in E.
    discriminate.
  - unfold Re.re_match in E. rewrite compile_release_tag_pattern in E.
    discriminate.
Qed.

Lemma not_head_ref_shape_no_match (head : string) :
  ~ Spec.head_ref_shape head ->
  Re.re_match Ruby.head_ref_pattern head Re.no_flags = Re.Parsed None.
Proof.
  intros Hno.
  destruct (Re.re_match Ruby.head_ref_pattern head Re.no_flags)
    as [[m|]| |] eqn:E.
  - exfalso. apply Hno. exact (head_ref_match_gives_shape E).
  - reflexivity.
  - unfold Re.re_match in E. rewrite compile_head_ref_pattern in E.
    discriminate.
  - unfold Re.re_match in E. rewrite compile_head_ref_pattern in E.
    discriminate.
Qed.

(** X8. The second derivation, for a context that holds a tag, ends in one
    of two ways.  When the tag is <package>/v<version> (the package name one
    or more of a-z and the hyphen, the version three digits with any two
    characters but the line feed between them), optionally followed by a
    final line feed, name and version are stored as read from it.  In every
    other case the step ends in AttributeError and the context is as it
    was. *)
Theorem determine_package_name_and_version_outcome (st : State) (tag : string) :
  release_tag (ctx st) = Some tag ->
  let run := Ruby.determine_package_name_and_version st in
  let said := (events st ++ [Spec.name_and_version_echo])%list in
  (exists pkg ver tail,
      tag = pkg ++ "/v" ++ ver ++ tail
      /\ Spec.is_package_name pkg = true /\ Spec.is_version ver = true
      /\ Spec.line_end tail
      /\ run = (Ok tt,
                {| ctx := set_release_version (Some ver)
                            (set_package_name (Some pkg) (ctx st));
                   stdin := stdin st; events := said |}))
  \/ (~ Spec.tag_shape tag
      /\ run = (Raise AttributeError,
                {| ctx := ctx st; stdin := stdin st; events := said |})).
Proof.
  intros Htag run said. subst run said.
  destruct (Re.re_match Ruby.release_tag_pattern tag Re.no_flags)
    as [[m|]| |] eqn:E.
  - left. pose proof (release_tag_match_shape E) as Hs.
    destruct Hs as (pkg & ver & tail & H1 & H2 & H3 & H4 & G1 & G2).
    exists pkg, ver, tail. repeat split; auto.
    eapply determine_package_name_and_version_ok; eauto.
  - right. split.
    + intros (pkg & ver & tail & -> & Hpkg & Hver & Htail).
      destruct (release_tag_pattern_takes pkg ver Hpkg Hver Htail)
        as (m & Hm & _).
      congruence.
    + now apply (@unmatched_tag_fails st tag).
  - unfold Re.re_match in E. rewrite compile_release_tag_pattern in E.
    discriminate.
  - unfold Re.re_match in E. rewrite compile_release_tag_pattern in E.
    discriminate.
Qed.

(** The prompt hands back the first line typed when it is not empty. *)
Lemma prompt_first (text line more : string) (st : State) :
  stdin st = line ++ nl ++ more ->
  Spec.all_chars Spec.not_lf line = true ->
  line <> "" ->
  prompt text st
  = (Ok line, {| ctx := ctx st; stdin := more;
                 events := events st ++ [Prompt text] |}).
Proof.
  intros Hin Hline Hne. unfold prompt. cbn [prompt_loop].
  unfold bind, emit, input. cbn [ctx stdin events]. rewrite Hin.
  destruct (line ++ nl ++ more) as [|c s] eqn:E.
  - destruct line; discriminate.
  - rewrite <- E. change (line ++ nl ++ more) with (line ++ String Py.LF more).
    rewrite (@read_line_first line more Hline). cbn [ctx stdin events].
    destruct (String.eqb_spec line ""); [contradiction | reflexivity].
Qed.

Lemma lower_or_hyphen_not_lf (c : ascii) :
  Spec.lower_or_hyphen c = true -> Spec.not_lf c = true.
Proof.
  destruct c as [[] [] [] [] [] [] [] []]; vm_compute; intros H;
    try discriminate; auto.
Qed.

Lemma all_chars_impl (p q : ascii -> bool) (s : string) :
  (forall c, p c = true -> q c = true) ->
  Spec.all_chars p s = true -> Spec.all_chars q s = true.
Proof.
  intros Hpq. induction s as [|c s IH]; simpl; [reflexivity|].
  intros H. apply andb_true_iff in H. destruct H as [Hc Hs].
  now rewrite (Hpq c Hc), (IH Hs).
Qed.

(** A tag of the second pattern's shape is one non-empty line. *)
Lemma tag_single_line (pkg ver : string) :
  Spec.is_package_name pkg = true -> Spec.is_version ver = true ->
  Spec.all_chars Spec.not_lf (pkg ++ "/v" ++ ver) = true
  /\ pkg ++ "/v" ++ ver <> "".
Proof.
  intros Hpkg Hver. split.
  - unfold Spec.is_package_name in Hpkg. apply andb_true_iff in Hpkg.
    destruct Hpkg as [_ Hall].
    rewrite !all_chars_app.
    rewrite (@all_chars_impl _ _ pkg lower_or_hyphen_not_lf Hall).
    destruct (version_chars ver Hver) as (d1 & c1 & d2 & c2 & d3 & ->).
    cbn [Spec.is_version] in Hver.
    apply andb_true_iff in Hver; destruct Hver as [Hver Hd3].
    apply andb_true_iff in Hver; destruct Hver as [Hver Hc2].
    apply andb_true_iff in Hver; destruct Hver as [Hver Hd2].
    apply andb_true_iff in Hver; destruct Hver as [Hd1 Hc1].
    destruct (digit_not_name d1 Hd1) as (_ & _ & L1).
    destruct (digit_not_name d2 Hd2) as (_ & _ & L2).
    destruct (digit_not_name d3 Hd3) as (_ & _ & L3).
    cbn [Spec.all_chars]. unfold Spec.not_lf in *.
    rewrite L1, L2, L3, Hc1, Hc2. reflexivity.
  - destruct pkg; [discriminate | intros H; discriminate].
Qed.

Section TagDerivationRuns.

(** X7. The automatic path: for a head branch name
    release-<package>-v<version> of the first pattern's shape the step ends
    normally without asking anything; it stores the package name, the
    version and the tag <package>/v<version>, reads nothing from the
    terminal, and says the head branch name and the three results. *)
Theorem head_ref_tag_derived (st : State) (pull : PullRequest)
        (pkg ver tail : string) :
  release_pr (ctx st) = Some pull ->
  head_ref pull = "release-" ++ pkg ++ "-v" ++ ver ++ tail ->
  Spec.is_package_name pkg = true ->
  Spec.is_head_version ver = true ->
  Spec.line_end tail ->
  Ruby.determine_release_tag st
  = (Ok tt,
     {| ctx := set_release_tag (Some (pkg ++ "/v" ++ ver))
                 (set_release_version (Some ver)
                    (set_package_name (Some pkg) (ctx st)));
        stdin := stdin st;
        events := (events st ++ Spec.head_ref_report (head_ref pull)
                     ++ Spec.tag_summary pkg ver (pkg ++ "/v" ++ ver))%list |}).
Proof.
  intros Hpr Hhead Hpkg Hver Htail.
  destruct (head_ref_pattern_takes pkg ver Hpkg Hver Htail)
    as (m & Hm & G1 & G2).
  rewrite <- Hhead in Hm.
  unfold Ruby.determine_release_tag, Ruby.group.
  unfold bind, secho, emit, get_ctx, require, of_parsed, modify, ret.
  cbn [ctx stdin events]. rewrite Hpr. cbn [ctx stdin events].
  rewrite Hm. cbn [ctx stdin events]. rewrite G1. cbn [ctx stdin events].
  rewrite G2.
  cbn [ctx stdin events package_name release_version release_tag
       set_package_name set_release_version set_release_tag Ruby.tag_of Py.fmt].
  unfold Spec.head_ref_report, Spec.tag_summary.
  rewrite <- !app_assoc. reflexivity.
Qed.

(** The step up to the typed tag, when the first pattern does not take
    the head branch name. *)
Lemma determine_release_tag_asks (st : State) (pull : PullRequest)
      (line more : string) :
  release_pr (ctx st) = Some pull ->
  ~ Spec.head_ref_shape (head_ref pull) ->
  stdin st = line ++ nl ++ more ->
  Spec.all_chars Spec.not_lf line = true ->
  line <> "" ->
  Ruby.determine_release_tag st
  = bind Ruby.determine_package_name_and_version
         (fun _ =>
            c <- get_ctx ;;
            secho ("Package name is " ++ Py.fmt (package_name c)) None true ;;
            secho ("Package version is " ++ Py.fmt (release_version c))
                  None true ;;
            secho ("Release tag is " ++ Py.fmt (release_tag c)) None true)
         {| ctx := set_release_tag (Some line) (ctx st); stdin := more;
            events := events st ++
              Spec.head_ref_report (head_ref pull) ++
              [Secho ("I couldn't determine what the release tag should be from the PR's"
                        ++ "head ref " ++ head_ref pull ++ ".") Ruby.red true;
               Prompt Spec.tag_question] |}.
Proof.
  intros Hpr Hno Hin Hline Hne.
  unfold Ruby.determine_release_tag.
  erewrite bind_run; [|reflexivity].
  erewrite bind_run; [|reflexivity].
  erewrite bind_run; [|unfold require; cbn [ctx]; rewrite Hpr; reflexivity].
  cbv zeta.
  erewrite bind_run; [|reflexivity].
  erewrite bind_run;
    [|unfold of_parsed; rewrite (@not_head_ref_shape_no_match _ Hno); reflexivity].
  cbv beta iota.
  rewrite bind_assoc.
  erewrite bind_run; [|reflexivity].
  rewrite bind_assoc.
  erewrite bind_run; [|eapply prompt_first; eauto].
  rewrite bind_assoc.
  erewrite bind_run; [|reflexivity].
  cbn [ctx stdin events]. unfold Spec.head_ref_report.
  repeat rewrite <- app_assoc. reflexivity.
Qed.

(** X9. The typed path: when the first pattern does not take the head
    branch name and the line typed is <package>/v<version> of the second
    pattern's shape, the step ends normally after one question; the tag
    stored is the line typed, name and version are its two parts. *)
Theorem typed_tag_derived (st : State) (pull : PullRequest)
        (pkg ver more : string) :
  release_pr (ctx st) = Some pull ->
  ~ Spec.head_ref_shape (head_ref pull) ->
  Spec.is_package_name pkg = true ->
  Spec.is_version ver = true ->
  stdin st = (pkg ++ "/v" ++ ver) ++ nl ++ more ->
  Ruby.determine_release_tag st
  = (Ok tt,
     {| ctx := set_release_version (Some ver)
                 (set_package_name (Some pkg)
                    (set_release_tag (Some (pkg ++ "/v" ++ ver)) (ctx st)));
        stdin := more;
        events := (events st ++ Spec.tag_request (head_ref pull)
                     ++ Spec.tag_summary pkg ver (pkg ++ "/v" ++ ver))%list |}).
Proof.
  intros Hpr Hno Hpkg Hver Hin.
  destruct (@tag_single_line pkg ver Hpkg Hver) as [Hline Hne].
  rewrite (@determine_release_tag_asks st pull _ more Hpr Hno Hin Hline Hne).
  destruct (@release_tag_pattern_takes pkg ver "" Hpkg Hver (or_introl eq_refl))
    as (m & Hm & G1 & G2).
  rewrite append_nil_r in Hm.
  erewrite bind_run;
    [|eapply determine_package_name_and_version_ok; eauto; reflexivity].
  unfold bind, secho, emit, get_ctx.
  cbn [ctx stdin events package_name release_version release_tag
       set_package_name set_release_version set_release_tag Py.fmt].
  unfold Spec.tag_request, Spec.tag_summary.
  repeat rewrite <- app_assoc. reflexivity.
Qed.

(** X10. A typed tag that is not of the second pattern's shape is not
    asked for again: the step ends in AttributeError after the one question,
    the line typed stored as the tag, name and version as they were, and the
    lines typed after it still unread. *)
Theorem typed_tag_rejected (st : State) (pull : PullRequest)
        (line more : string) :
  release_pr (ctx st) = Some pull ->
  ~ Spec.head_ref_shape (head_ref pull) ->
  stdin st = line ++ nl ++ more ->
  Spec.all_chars Spec.not_lf line = true ->
  line <> "" ->
  ~ Spec.tag_shape line ->
  Ruby.determine_release_tag st
  = (Raise AttributeError,
     {| ctx := set_release_tag (Some line) (ctx st); stdin := more;
        events := events st ++ Spec.tag_request (head_ref pull) |}).
Proof.
  intros Hpr Hno Hin Hline Hne Hbad.
  rewrite (@determine_release_tag_asks st pull _ more Hpr Hno Hin Hline Hne).
  erewrite bind_raise;
    [|eapply unmatched_tag_fails;
      [reflexivity | apply (@not_tag_shape_no_match _ Hbad)]].
  cbn [ctx stdin events]. unfold Spec.tag_request.
  repeat rewrite <- app_assoc. reflexivity.
Qed.

End TagDerivationRuns.

Lemma head_ref_tag_derived_witness :
  Ruby.determine_release_tag (Sample.selected Sample.release_pull "")
  = (Ok tt,
     {| ctx := ctx (Sample.derived Sample.release_pull
                                   "google-cloud-storage" "1.2.3");
        stdin := "";
        events :=
          (Spec.head_ref_report "release-google-cloud-storage-v1.2.3"
             ++ Spec.tag_summary "google-cloud-storage" "1.2.3"
                                 "google-cloud-storage/v1.2.3")%list |}).
Proof.
  apply (@head_ref_tag_derived
           (Sample.selected Sample.release_pull "") Sample.release_pull
           "google-cloud-storage" "1.2.3" "");
    try reflexivity.
  left. reflexivity.
Defined.

Lemma determine_package_name_and_version_outcome_witness :
  let st := Sample.derived Sample.manual_pull "foo-bar" "2.0.1" in
  let run := Ruby.determine_package_name_and_version st in
  let said := (events st ++ [Spec.name_and_version_echo])%list in
  (exists pkg ver tail,
      "foo-bar/v2.0.1" = pkg ++ "/v" ++ ver ++ tail
      /\ Spec.is_package_name pkg = true /\ Spec.is_version ver = true
      /\ Spec.line_end tail
      /\ run = (Ok tt,
                {| ctx := set_release_version (Some ver)
                            (set_package_name (Some pkg) (ctx st));
                   stdin := stdin st; events := said |}))
  \/ (~ Spec.tag_shape "foo-bar/v2.0.1"
      /\ run = (Raise AttributeError,
                {| ctx := ctx st; stdin := stdin st; events := said |})).
Proof.
  apply (@determine_package_name_and_version_outcome
           (Sample.derived Sample.manual_pull "foo-bar" "2.0.1")
           "foo-bar/v2.0.1").
  reflexivity.
Defined.

Lemma typed_tag_derived_witness :
  Ruby.determine_release_tag
    (Sample.selected Sample.manual_pull ("foo-bar/v2.0.1" ++ nl))
  = (Ok tt,
     {| ctx := set_release_version (Some "2.0.1")
                 (set_package_name (Some "foo-bar")
                    (set_release_tag (Some "foo-bar/v2.0.1")
                       (ctx (Sample.selected Sample.manual_pull ""))));
        stdin := "";
        events := (Spec.tag_request "foo-bar-next"
                     ++ Spec.tag_summary "foo-bar" "2.0.1" "foo-bar/v2.0.1")%list |}).
Proof.
  apply (@typed_tag_derived
           (Sample.selected Sample.manual_pull ("foo-bar/v2.0.1" ++ nl))
           Sample.manual_pull "foo-bar" "2.0.1" "");
    try reflexivity.
  apply no_match_not_head_ref_shape. vm_compute. reflexivity.
Defined.

Lemma typed_tag_rejected_witness :
  Ruby.determine_release_tag
    (Sample.selected Sample.manual_pull
                     ("foo-bar/2.0.1" ++ nl ++ "foo-bar/v2.0.1" ++ nl))
  = (Raise AttributeError,
     {| ctx := set_release_tag (Some "foo-bar/2.0.1")
                 (ctx (Sample.selected Sample.manual_pull ""));
        stdin := "foo-bar/v2.0.1" ++ nl;
        events := Spec.tag_request "foo-bar-next" |}).
Proof.
  apply (@typed_tag_rejected
           (Sample.selected Sample.manual_pull
                            ("foo-bar/2.0.1" ++ nl ++ "foo-bar/v2.0.1" ++ nl))
           Sample.manual_pull "foo-bar/2.0.1" ("foo-bar/v2.0.1" ++ nl));
    try reflexivity.
  - apply no_match_not_head_ref_shape. vm_compute. reflexivity.
  - discriminate.
  - apply no_match_not_tag_shape. vm_compute. reflexivity.
Defined.

(* ===================================================================== *)
(** ** Step 3: the release notes *)
(* ===================================================================== *)

Section ReleaseNotes.

Lemma compile_release_notes_pattern_1_2_3 :
  Re.compile (Ruby.release_notes_pattern (Some "1.2.3"))
  = Re.Parsed Ruby.release_notes_compiled_1_2_3.
Proof. vm_compute. reflexivity. Qed.

(** The notes of 1.2.3 in a changelog that starts with the example's
    lines, whatever follows them. *)
Lemma find_release_notes_example (more : string) (st : State) :
  Ruby.find_release_notes (Some "1.2.3") (Sample.changelog_head ++ more) st
  = (Ok "Fixed a bug.", st).
Proof. vm_compute. reflexivity. Qed.

Lemma prefix_nil (s : string) : prefix "" s = true.
Proof. now destruct s. Qed.

Lemma prefix_hashes_app (before : option ascii) (t s : string) :
  t <> "" -> Spec.last_char before t = Some Py.LF ->
  prefix "###" (t ++ s) = prefix "###" t.
Proof.
  intros Hne Hlast.
  destruct t as [|c1 [|c2 [|c3 t]]]; [congruence| | |].
  - simpl in Hlast. inversion Hlast; subst. reflexivity.
  - simpl in Hlast. inversion Hlast; subst.
    cbn [String.append prefix]. destruct (ascii_dec "#" c1); reflexivity.
  - cbn [String.append prefix].
    destruct (ascii_dec "#" c1), (ascii_dec "#" c2), (ascii_dec "#" c3);
      rewrite ?prefix_nil; reflexivity.
Qed.

Lemma at_bol_line_start (cur : Re.cursor) :
  Re.at_bol Ruby.DOTALL_MULTILINE cur = Spec.line_start (Re.prev cur).
Proof. unfold Re.at_bol, Spec.line_start. now destruct (Re.prev cur). Qed.

Lemma no_match_without_hashes (r : Re.regex) (names : list (string * nat))
      (groups : nat) (subject : string) (cur : Re.cursor) :
  Spec.line_start (Re.prev cur) && prefix "###" (Re.rest cur) = false ->
  Re.match_at Ruby.DOTALL_MULTILINE
              {| Re.p_regex :=
                   Re.Seq Re.Bol
                     (Re.Seq (Re.Lit "#") (Re.Seq (Re.Lit "#")
                                                  (Re.Seq (Re.Lit "#") r)));
                 Re.p_names := names; Re.p_groups := groups |} subject cur
  = None.
Proof.
  intros H. unfold Re.match_at. cbn [Re.p_regex Re.exec].
  rewrite at_bol_line_start.
  destruct (Spec.line_start (Re.prev cur)); [|reflexivity].
  cbn [andb] in H. unfold Re.eat. cbn [Re.rest Re.advance].
  destruct (Re.rest cur) as [|c1 r1]; [reflexivity|].
  destruct (Ascii.eqb_spec "#" c1) as [<-|N1]; [|reflexivity].
  destruct r1 as [|c2 r2]; [reflexivity|].
  destruct (Ascii.eqb_spec "#" c2) as [<-|N2]; [|reflexivity].
  destruct r2 as [|c3 r3]; [reflexivity|].
  destruct (Ascii.eqb_spec "#" c3) as [<-|N3]; [|reflexivity].
  exfalso. simpl in H. rewrite prefix_nil in H. discriminate.
Qed.

(** Under MULTILINE a pattern that starts with [^###] matches nowhere in a
    preamble of whole lines none of which starts with "###": the search
    goes on behind it. *)
Lemma scan_skips_preamble (r : Re.regex) (names : list (string * nat))
      (groups : nat) (subject s : string) (pre : string) :
  forall (i : nat) (before : option ascii),
    Spec.no_section before pre = true ->
    Spec.line_start (Spec.last_char before pre) = true ->
    let p := {| Re.p_regex :=
                  Re.Seq Re.Bol
                    (Re.Seq (Re.Lit "#") (Re.Seq (Re.Lit "#")
                                                 (Re.Seq (Re.Lit "#") r)));
                Re.p_names := names; Re.p_groups := groups |} in
    Re.scan Ruby.DOTALL_MULTILINE p subject i before (pre ++ s)
    = Re.scan Ruby.DOTALL_MULTILINE p subject (i + String.length pre)
              (Spec.last_char before pre) s.
Proof.
  induction pre as [|c pre IH]; intros i before Hq Hend p; subst p.
  - simpl. now rewrite Nat.add_0_r.
  - cbn [Spec.no_section] in Hq. apply andb_true_iff in Hq.
    destruct Hq as [Hc Hq]. apply negb_true_iff in Hc.
    assert (Hlf : Spec.last_char before (String c pre) = Some Py.LF).
    { cbn [Spec.last_char] in *.
      destruct (Spec.last_char (Some c) pre) as [l|] eqn:E.
      - unfold Spec.line_start in Hend. apply is_lf_eq in Hend. now subst.
      - exfalso. clear - E. revert c E.
        induction pre as [|d pre IHp]; intros c E; simpl in E;
          [discriminate | eauto]. }
    cbn [String.append Re.scan].
    rewrite no_match_without_hashes.
    + cbn [String.length Spec.last_char].
      rewrite (IH (S i) (Some c) Hq Hend). now rewrite Nat.add_succ_r.
    + cbn [Re.prev Re.rest].
      change (String c (pre ++ s)) with (String c pre ++ s).
      rewrite (@prefix_hashes_app before (String c pre) s);
        [exact Hc | discriminate | exact Hlf].
Qed.

Lemma notes_found_at_header (subject more : string) (n : nat)
      (before : option ascii) :
  Spec.line_start before = true ->
  Re.scan Ruby.DOTALL_MULTILINE Ruby.release_notes_compiled_1_2_3 subject n
          before (Sample.changelog_head ++ more)
  = Some {| Re.m_string := subject; Re.m_span := (n, 40 + n);
            Re.m_caps := [(2, (35 + n, 40 + n)); (1, (23 + n, 35 + n))];
            Re.m_pattern := Ruby.release_notes_compiled_1_2_3 |}.
Proof.
  intros H. destruct before as [c|].
  - apply is_lf_eq in H. subst c. vm_compute. reflexivity.
  - vm_compute. reflexivity.
Qed.

(** The notes of 1.2.3 when the example's lines come after a preamble of
    whole lines none of which starts with "###", and before any further
    text. *)
Lemma find_release_notes_after_preamble (pre more : string) (st : State) :
  Spec.no_section None pre = true ->
  Spec.line_start (Spec.last_char None pre) = true ->
  Ruby.find_release_notes (Some "1.2.3") (pre ++ Sample.changelog_head ++ more) st
  = (Ok "Fixed a bug.", st).
Proof.
  intros Hq Hstart.
  unfold Ruby.find_release_notes, Re.re_search.
  rewrite compile_release_notes_pattern_1_2_3. cbn [Re.pbind].
  unfold Ruby.release_notes_compiled_1_2_3 at 1.
  rewrite (@scan_skips_preamble _ _ _ _ _ pre 0 None Hq Hstart).
  change {| Re.p_regex := _; Re.p_names := _; Re.p_groups := _ |}
    with Ruby.release_notes_compiled_1_2_3.
  rewrite (@notes_found_at_header _ more _ _ Hstart).
  unfold bind, of_parsed, ret, require, Re.group_named.
  cbn [Re.m_pattern Re.p_names Ruby.release_notes_compiled_1_2_3 Re.lookup_name
       String.eqb Ascii.eqb Bool.eqb].
  unfold Re.group.
  cbn [Re.m_pattern Re.p_groups Ruby.release_notes_compiled_1_2_3 Nat.leb
       Re.m_caps Re.capture Nat.eqb option_map Re.m_string].
  rewrite (@slice_at pre _ 23 12) by lia.
  unfold ret, raise. vm_compute. reflexivity.
Qed.

Variable github : Client.GitHub.
Variable upstream_repo : string.

(** The step around the search: the file asked for, decoded, searched. *)
Lemma get_release_notes_run (st : State) (pull : PullRequest)
      (raw changelog notes : string) :
  release_pr (ctx st) = Some pull ->
  Client.get_contents github upstream_repo
                      (Py.fmt (package_name (ctx st)) ++ "/CHANGELOG.md")
                      (merge_commit_sha pull) = Ok raw ->
  decode_utf8 raw = Ok changelog ->
  (forall s, Ruby.find_release_notes (release_version (ctx st)) changelog s
             = (Ok notes, s)) ->
  Ruby.get_release_notes github upstream_repo st
  = (Ok tt,
     {| ctx := set_release_notes (Some notes) (ctx st);
        stdin := stdin st;
        events :=
          events st ++
          [Secho "> Grabbing the release notes." Ruby.cyan true;
           GetContents upstream_repo
                       (Py.fmt (package_name (ctx st)) ++ "/CHANGELOG.md")
                       (merge_commit_sha pull);
           Secho ("Here's the release notes:" ++ nl ++ nl ++ notes ++ nl)
                 None true] |}).
Proof.
  intros Hpr Hraw Hdec Hfind.
  unfold Ruby.get_release_notes.
  unfold bind, secho, emit, get_ctx, require, lift, modify, ret.
  cbn [ctx stdin events]. rewrite Hpr. cbn [ctx stdin events].
  rewrite Hraw, Hdec. cbn [ctx stdin events]. rewrite Hfind.
  cbn [ctx stdin events release_notes set_release_notes Py.fmt].
  rewrite <- !app_assoc. reflexivity.
Qed.

(** C6. For a changelog that holds the lines "### 1.2.3 / 2020-01-01",
    "Fixed a bug.", "### 1.2.2 / 2019-12-01" and then any further text
    (after a preamble of whole lines, none a "###" header), the
    release-notes step for version 1.2.3 stores exactly "Fixed a bug.":
    trimmed, without the next header and what follows it. *)
Theorem release_notes_of_example (st : State) (pull : PullRequest)
        (raw pre more : string) :
  release_pr (ctx st) = Some pull ->
  release_version (ctx st) = Some "1.2.3" ->
  Client.get_contents github upstream_repo
                      (Py.fmt (package_name (ctx st)) ++ "/CHANGELOG.md")
                      (merge_commit_sha pull) = Ok raw ->
  decode_utf8 raw = Ok (pre ++ Sample.changelog_head ++ more) ->
  Spec.no_section None pre = true ->
  Spec.line_start (Spec.last_char None pre) = true ->
  exists st',
    Ruby.get_release_notes github upstream_repo st = (Ok tt, st')
    /\ release_notes (ctx st') = Some "Fixed a bug.".
Proof.
  intros Hpr Hver Hraw Hdec Hpre Hstart. eexists. split.
  - eapply get_release_notes_run; eauto.
    intros s. rewrite Hver. now apply find_release_notes_after_preamble.
  - reflexivity.
Qed.

End ReleaseNotes.

Lemma release_notes_of_example_witness :
  exists st',
    Ruby.get_release_notes
      (Sample.github [] Sample.changelog) Sample.repo
      (Sample.derived Sample.release_pull "google-cloud-storage" "1.2.3")
    = (Ok tt, st')
    /\ release_notes (ctx st') = Some "Fixed a bug.".
Proof.
  apply (@release_notes_of_example
           (Sample.github [] Sample.changelog) Sample.repo
           (Sample.derived Sample.release_pull "google-cloud-storage" "1.2.3")
           Sample.release_pull Sample.changelog Sample.changelog_title
           ("Older notes." ++ nl));
    reflexivity.
Defined.

Section ReleaseNotesAbsent.

(** No match of the pattern: the notes are the empty string, no fault. *)
Lemma find_release_notes_no_match (version : option string)
      (changelog : string) (st : State) :
  Re.re_search (Ruby.release_notes_pattern version) changelog
               Ruby.DOTALL_MULTILINE = Re.Parsed None ->
  Ruby.find_release_notes version changelog st = (Ok "", st).
Proof.
  intros H. unfold Ruby.find_release_notes, bind, of_parsed, ret.
  now rewrite H.
Qed.

(** The example changelog has no section for 1.2.4. *)
Example release_notes_absent_example :
  let st := Sample.derived Sample.release_pull "google-cloud-storage" "1.2.4" in
  let run := Ruby.get_release_notes (Sample.github [] Sample.changelog)
                                    Sample.repo st in
  fst run = Ok tt /\ release_notes (ctx (snd run)) = Some "".
Proof. vm_compute. split; reflexivity. Qed.

(** A version that is no pattern: the search itself fails. *)
Example release_notes_of_unbalanced_version :
  fst (Ruby.find_release_notes (Some "1.2(3") Sample.changelog
                               (Sample.initial ""))
  = Raise ReError.
Proof. vm_compute. reflexivity. Qed.

(** C7. The changelog below has no header for 1.2.3 (the text "### 1.2.3"
    occurs nowhere in it), and yet the notes stored for 1.2.3 are not
    empty: the version stands unescaped in the pattern, and its dots match
    the letters of the header "### 1x2y3 / 2021-06-30". *)
Theorem release_notes_taken_from_other_section :
  let st := Sample.derived Sample.release_pull "google-cloud-storage" "1.2.3" in
  let run := Ruby.get_release_notes
               (Sample.github [] Sample.unrelated_changelog) Sample.repo st in
  Py.contains "### 1.2.3" Sample.unrelated_changelog = false
  /\ fst run = Ok tt
  /\ release_notes (ctx (snd run)) = Some "Unrelated notes.".
Proof. vm_compute. repeat split; reflexivity. Qed.

End ReleaseNotesAbsent.

Lemma digit_cases (d : ascii) :
  Py.isdigit d = true ->
  d = "0"%char \/ d = "1"%char \/ d = "2"%char \/ d = "3"%char
  \/ d = "4"%char \/ d = "5"%char \/ d = "6"%char \/ d = "7"%char
  \/ d = "8"%char \/ d = "9"%char.
Proof.
  destruct d as [[] [] [] [] [] [] [] []]; vm_compute; intros H;
    try discriminate; tauto.
Qed.

Lemma compile_notes_pattern (d1 d2 d3 : ascii) :
  Py.isdigit d1 = true -> Py.isdigit d2 = true -> Py.isdigit d3 = true ->
  Re.compile (Ruby.release_notes_pattern (Some (Spec.dotted d1 d2 d3)))
  = Re.Parsed (Spec.notes_pattern d1 d2 d3).
Proof.
  intros H1 H2 H3.
  destruct (digit_cases d1 H1) as [->|[->|[->|[->|[->|[->|[->|[->|[->| ->]]]]]]]]];
  destruct (digit_cases d2 H2) as [->|[->|[->|[->|[->|[->|[->|[->|[->| ->]]]]]]]]];
  destruct (digit_cases d3 H3) as [->|[->|[->|[->|[->|[->|[->|[->|[->| ->]]]]]]]]];
  vm_compute; reflexivity.
Qed.

Section NotesEnd.

Lemma eqb_lf (c : ascii) : (Py.LF =? c)%char = Py.is_lf c.
Proof.
  destruct (Py.is_lf c) eqn:E.
  - apply is_lf_eq in E. subst. reflexivity.
  - destruct (Ascii.eqb_spec Py.LF c) as [<-|]; [discriminate | reflexivity].
Qed.

(** The notes may end before the start of the next header and at the end
    of the text: the second group closes there. *)
Lemma notes_end_found (p : nat) (before : option ascii) (t : string)
      (caps : Re.captures) :
  Spec.next_header t = true \/ t = "" ->
  exists cur' sp,
    Re.exec Ruby.DOTALL_MULTILINE Spec.notes_end
            {| Re.pos := p; Re.prev := before; Re.rest := t |} caps Re.finish
    = Some (cur', (2, sp) :: caps).
Proof.
  intros [H| ->].
  - destruct t as [|c0 [|c1 [|c2 [|c3 [|c4 t5]]]]]; try discriminate.
    cbn [Spec.next_header] in H.
    apply andb_true_iff in H; destruct H as [H H4].
    apply andb_true_iff in H; destruct H as [H H3].
    apply andb_true_iff in H; destruct H as [H H2].
    apply andb_true_iff in H; destruct H as [H0 H1].
    cbn [Spec.notes_end Re.exec]. unfold Re.eat.
    cbn [Re.rest Re.advance Re.pos Re.prev Re.in_category].
    rewrite eqb_lf, H0, H1, H2, H3, H4. unfold Re.finish. eauto.
  - cbn [Spec.notes_end Re.exec]. unfold Re.eat, Re.finish.
    cbn [Re.rest Re.at_end]. eauto.
Qed.

(** Anywhere else they do not end. *)
Lemma notes_end_not_found (p : nat) (before : option ascii) (t : string)
      (caps : Re.captures) :
  Spec.next_header t = false -> t <> "" ->
  Re.exec Ruby.DOTALL_MULTILINE Spec.notes_end
          {| Re.pos := p; Re.prev := before; Re.rest := t |} caps Re.finish
  = None.
Proof.
  intros H Hne.
  cbn [Spec.notes_end Re.exec]. unfold Re.eat.
  cbn [Re.rest Re.advance Re.pos Re.prev Re.in_category Re.at_end].
  destruct t as [|c0 t]; [congruence|].
  rewrite eqb_lf. destruct (Py.is_lf c0) eqn:E0; [|reflexivity].
  destruct t as [|c1 t]; [reflexivity|].
  destruct ("#" =? c1)%char eqn:E1; [|reflexivity].
  destruct t as [|c2 t]; [reflexivity|].
  destruct ("#" =? c2)%char eqn:E2; [|reflexivity].
  destruct t as [|c3 t]; [reflexivity|].
  destruct ("#" =? c3)%char eqn:E3; [|reflexivity].
  destruct t as [|c4 t]; [reflexivity|].
  destruct (Py.isspace c4) eqn:E4; [|reflexivity].
  cbn [Spec.next_header] in H. rewrite E0, E1, E2, E3, E4 in H. discriminate.
Qed.

(** The lazy repeat [.+?] in front of that end, one character already
    read: it stops at the first place where the notes may end. *)
Lemma lazy_until_header (p0 : nat) (text : string) :
  forall (fuel count p : nat) (before : option ascii) (caps : Re.captures),
    String.length text < fuel ->
    1 <= count ->
    exists cur' sp,
      Re.repeat_loop
        (Re.eat (Re.dot Ruby.DOTALL_MULTILINE)) 1 None false
        (fun cur' caps' =>
           Re.exec Ruby.DOTALL_MULTILINE Spec.notes_end cur'
                   ((1, (p0, Re.pos cur')) :: caps') Re.finish)
        fuel count {| Re.pos := p; Re.prev := before; Re.rest := text |} caps
      = Some (cur',
              (2, sp)
                :: (1, (p0, p + String.length (Spec.until_header text)))
                :: caps).
Proof.
  induction text as [|c text IH]; intros fuel count p before caps Hfuel Hcount;
    destruct count as [|count]; try lia;
    destruct fuel as [|fuel]; try (simpl in Hfuel; lia);
    cbn [Re.repeat_loop Nat.leb Re.pos].
  - destruct (@notes_end_found p before "" ((1, (p0, p)) :: caps) (or_intror eq_refl))
      as (cur' & sp & ->).
    exists cur', sp. cbn [Spec.until_header String.length].
    now rewrite Nat.add_0_r.
  - cbn [Spec.until_header].
    destruct (Spec.next_header (String c text)) eqn:E.
    + destruct (@notes_end_found p before (String c text) ((1, (p0, p)) :: caps)
                                 (or_introl E))
        as (cur' & sp & ->).
      exists cur', sp. cbn [String.length]. now rewrite Nat.add_0_r.
    + rewrite notes_end_not_found by (auto; discriminate).
      cbn [Re.may_repeat]. rewrite eat_cons.
      cbn [Re.dot Re.DOTALL Ruby.DOTALL_MULTILINE orb].
      destruct (IH fuel (S (S count)) (S p) (Some c) caps) as (cur' & sp & Hl).
      * simpl in Hfuel. lia.
      * lia.
      * exists cur', sp. rewrite Hl. cbn [String.length].
        now rewrite Nat.add_succ_r.
Qed.

(** The whole repeat: at least one character, then as few as the end
    allows. *)
Lemma lazy_section (p0 : nat) (c : ascii) (text : string) (fuel p : nat)
      (before : option ascii) (caps : Re.captures) :
  S (String.length text) < fuel ->
  exists cur' sp,
    Re.repeat_loop
      (Re.eat (Re.dot Ruby.DOTALL_MULTILINE)) 1 None false
      (fun cur' caps' =>
         Re.exec Ruby.DOTALL_MULTILINE Spec.notes_end cur'
                 ((1, (p0, Re.pos cur')) :: caps') Re.finish)
      fuel 0 {| Re.pos := p; Re.prev := before; Re.rest := String c text |} caps
    = Some (cur',
            (2, sp)
              :: (1, (p0, S p + String.length (Spec.until_header text)))
              :: caps).
Proof.
  intros Hfuel. destruct fuel as [|fuel]; [lia|].
  cbn [Re.repeat_loop Nat.leb Re.may_repeat]. rewrite eat_cons.
  cbn [Re.dot Re.DOTALL Ruby.DOTALL_MULTILINE orb].
  apply lazy_until_header; lia.
Qed.

End NotesEnd.

Section SectionNotes.

Lemma date_chars (date : string) :
  Spec.is_date date = true ->
  exists y1 y2 y3 y4 m1 m2 e1 e2,
    date = String y1 (String y2 (String y3 (String y4 (String "-"
             (String m1 (String m2 (String "-" (String e1 (String e2 ""))))))))) 
    /\ Py.isdigit y1 = true /\ Py.isdigit y2 = true /\ Py.isdigit y3 = true
    /\ Py.isdigit y4 = true /\ Py.isdigit m1 = true /\ Py.isdigit m2 = true
    /\ Py.isdigit e1 = true /\ Py.isdigit e2 = true.
Proof.
  destruct date as [|y1 [|y2 [|y3 [|y4 [|h1 [|m1 [|m2 [|h2 [|e1 [|e2 [|z t]]]]]]]]]]];
    try discriminate.
  cbn [Spec.is_date]. intros H.
  repeat match type of H with
         | _ && _ = true => apply andb_true_iff in H; destruct H as [H ?]
         end.
  repeat match goal with
         | E : (_ =? _)%char = true |- _ => apply Ascii.eqb_eq in E; subst
         end.
  exists y1, y2, y3, y4, m1, m2, e1, e2. repeat split; assumption.
Qed.

(** The pattern at the header of a section: the first group takes the
    first character of the text behind the header line and what follows
    it up to the start of the next header. *)
Lemma notes_pattern_at_header (d1 x d2 y d3 : ascii) (date : string)
      (c : ascii) (text : string) (n : nat) (before : option ascii) :
  Spec.is_date date = true ->
  Spec.line_start before = true ->
  exists cur' sp,
    Re.exec Ruby.DOTALL_MULTILINE (Re.p_regex (Spec.notes_pattern d1 d2 d3))
            {| Re.pos := n; Re.prev := before;
               Re.rest :=
                 Spec.section_header
                   (String d1 (String x (String d2 (String y (String d3 "")))))
                   date ++ String c text |} [] Re.finish
    = Some (cur',
            [(2, sp);
             (1, (23 + n,
                  S (23 + n) + String.length (Spec.until_header text)))]).
Proof.
  intros Hdate Hstart.
  destruct (date_chars date Hdate)
    as (y1 & y2 & y3 & y4 & m1 & m2 & e1 & e2 & -> & Hy1 & Hy2 & Hy3 & Hy4
        & Hm1 & Hm2 & He1 & He2).
  cbn [Spec.notes_pattern Re.p_regex Spec.notes_regex_tail Re.exec].
  rewrite at_bol_line_start. cbn [Re.prev]. rewrite Hstart.
  unfold Spec.section_header, nl. cbn [String.append].
  repeat first [ rewrite eat_cons | rewrite Ascii.eqb_refl
               | rewrite Hy1 | rewrite Hy2 | rewrite Hy3 | rewrite Hy4
               | rewrite Hm1 | rewrite Hm2 | rewrite He1 | rewrite He2
               | progress cbn [Ascii.eqb Bool.eqb Re.in_category Re.dot
                                Re.DOTALL Ruby.DOTALL_MULTILINE orb] ].
  cbn [Re.rest Re.pos String.length].
  match goal with
  | |- context [Re.repeat_loop _ _ _ _ _ ?fuel 0
                               {| Re.pos := ?p; Re.prev := ?b; Re.rest := _ |} ?caps] =>
      destruct (@lazy_section p c text fuel p b caps) as (cur' & sp & Hl); [lia|]
  end.
  exists cur', sp. cbn [Nat.add]. exact Hl.
Qed.

End SectionNotes.

Section SectionSearch.

Lemma until_header_prefix (t : string) :
  exists r, t = Spec.until_header t ++ r.
Proof.
  induction t as [|c t [r IH]].
  - now exists "".
  - cbn [Spec.until_header]. destruct (Spec.next_header (String c t)).
    + now exists (String c t).
    + exists r. cbn [String.append]. now rewrite <- IH.
Qed.

Lemma scan_here (fl : Re.flags) (p : Re.pattern) (subject : string) (i : nat)
      (before : option ascii) (s : string) (m : Re.Match) :
  Re.match_at fl p subject {| Re.pos := i; Re.prev := before; Re.rest := s |}
  = Some m ->
  Re.scan fl p subject i before s = Some m.
Proof. intros H. destruct s; cbn [Re.scan]; now rewrite H. Qed.

Lemma section_header_length (d1 x d2 y d3 : ascii) (date : string) :
  Spec.is_date date = true ->
  String.length
    (Spec.section_header
       (String d1 (String x (String d2 (String y (String d3 ""))))) date)
  = 23.
Proof.
  intros H. destruct (date_chars date H) as (? & ? & ? & ? & ? & ? & ? & ? & -> & _).
  reflexivity.
Qed.

(** The notes of a dotted version in a changelog that holds, behind a
    preamble of whole lines without a "###" header, a header line for that
    version and then some text. *)
Lemma find_release_notes_section (d1 x d2 y d3 : ascii) (date pre : string)
      (c : ascii) (text : string) (st : State) :
  Py.isdigit d1 = true -> Py.isdigit d2 = true -> Py.isdigit d3 = true ->
  Spec.is_date date = true ->
  Spec.no_section None pre = true ->
  Spec.line_start (Spec.last_char None pre) = true ->
  Ruby.find_release_notes
    (Some (Spec.dotted d1 d2 d3))
    (pre ++ Spec.section_header
              (String d1 (String x (String d2 (String y (String d3 ""))))) date
         ++ String c text) st
  = (Ok (Py.strip (String c (Spec.until_header text))), st).
Proof.
  intros H1 H2 H3 Hdate Hpre Hstart.
  unfold Ruby.find_release_notes, Re.re_search.
  rewrite (compile_notes_pattern d1 d2 d3 H1 H2 H3). cbn [Re.pbind].
  unfold Spec.notes_pattern at 1.
  rewrite (@scan_skips_preamble _ _ _ _ _ pre 0 None Hpre Hstart).
  change {| Re.p_regex := _; Re.p_names := _; Re.p_groups := _ |}
    with (Spec.notes_pattern d1 d2 d3).
  destruct (@notes_pattern_at_header d1 x d2 y d3 date c text
              (0 + String.length pre) (Spec.last_char None pre) Hdate Hstart)
    as (cur' & sp & Hexec).
  erewrite scan_here; [|unfold Re.match_at; rewrite Hexec; reflexivity].
  unfold bind, of_parsed, ret, require, Re.group_named.
  cbn [Re.m_pattern Re.p_names Spec.notes_pattern Re.lookup_name
       String.eqb Ascii.eqb Bool.eqb].
  unfold Re.group.
  cbn [Re.m_pattern Re.p_groups Spec.notes_pattern Nat.leb
       Re.m_caps Re.capture Nat.eqb option_map Re.m_string].
  destruct (until_header_prefix text) as [r Hr].
  remember (Spec.until_header text) as notes eqn:Hnotes.
  clear Hexec. rewrite Hr.
  replace (pre ++ Spec.section_header
                    (String d1 (String x (String d2 (String y (String d3 "")))))
                    date ++ String c (notes ++ r))
    with ((pre ++ Spec.section_header
                    (String d1 (String x (String d2 (String y (String d3 "")))))
                    date)
            ++ String c notes ++ r)
    by (rewrite append_assoc; reflexivity).
  rewrite slice_mid.
  - reflexivity.
  - rewrite length_append, section_header_length by assumption. lia.
  - cbn [String.length]. lia.
Qed.

Lemma no_section_no_match (r : Re.regex) (names : list (string * nat))
      (groups : nat) (subject text : string) :
  forall (i : nat) (before : option ascii),
    Spec.no_section before text = true ->
    Re.scan Ruby.DOTALL_MULTILINE
            {| Re.p_regex :=
                 Re.Seq Re.Bol
                   (Re.Seq (Re.Lit "#") (Re.Seq (Re.Lit "#")
                                                (Re.Seq (Re.Lit "#") r)));
               Re.p_names := names; Re.p_groups := groups |}
            subject i before text
    = None.
Proof.
  induction text as [|c text IH]; intros i before H; cbn [Re.scan].
  - rewrite no_match_without_hashes; [reflexivity|].
    cbn [Re.prev Re.rest]. apply andb_false_r.
  - cbn [Spec.no_section] in H. apply andb_true_iff in H. destruct H as [Hc H].
    apply negb_true_iff in Hc.
    rewrite no_match_without_hashes; [|exact Hc]. now apply IH.
Qed.

Variable github : Client.GitHub.
Variable upstream_repo : string.

(** X11. The notes of a section.  For a version <d>.<d>.<d> and a
    changelog that holds, behind whole lines none of which starts with
    "###", the header line "### <version> / <date>" (at the two dots of the
    version the header may have any characters) and then some text, the
    step ends normally and stores that text up to the first line feed that
    is followed by "###" and a white-space character, or all of it when
    there is none, with the white space at both ends removed.  The first
    character behind the header line is always part of the notes. *)
Theorem release_notes_of_section (st : State) (pull : PullRequest)
        (d1 x d2 y d3 : ascii) (date raw pre : string) (c : ascii)
        (text : string) :
  release_pr (ctx st) = Some pull ->
  release_version (ctx st) = Some (Spec.dotted d1 d2 d3) ->
  Py.isdigit d1 = true -> Py.isdigit d2 = true -> Py.isdigit d3 = true ->
  Client.get_contents github upstream_repo
                      (Py.fmt (package_name (ctx st)) ++ "/CHANGELOG.md")
                      (merge_commit_sha pull) = Ok raw ->
  decode_utf8 raw
  = Ok (pre ++ Spec.section_header
                 (String d1 (String x (String d2 (String y (String d3 "")))))
                 date
            ++ String c text) ->
  Spec.is_date date = true ->
  Spec.no_section None pre = true ->
  Spec.line_start (Spec.last_char None pre) = true ->
  exists st',
    Ruby.get_release_notes github upstream_repo st = (Ok tt, st')
    /\ release_notes (ctx st')
       = Some (Py.strip (String c (Spec.until_header text))).
Proof.
  intros Hpr Hver H1 H2 H3 Hraw Hdec Hdate Hpre Hstart. eexists. split.
  - eapply get_release_notes_run; eauto.
    intros s. rewrite Hver. now apply find_release_notes_section.
  - reflexivity.
Qed.

(** X12. For a version <d>.<d>.<d> and a changelog in which no line
    starts with "###", the step ends normally and stores the empty string
    as the notes. *)
Theorem release_notes_empty_without_sections (st : State) (pull : PullRequest)
        (d1 d2 d3 : ascii) (raw changelog : string) :
  release_pr (ctx st) = Some pull ->
  release_version (ctx st) = Some (Spec.dotted d1 d2 d3) ->
  Py.isdigit d1 = true -> Py.isdigit d2 = true -> Py.isdigit d3 = true ->
  Client.get_contents github upstream_repo
                      (Py.fmt (package_name (ctx st)) ++ "/CHANGELOG.md")
                      (merge_commit_sha pull) = Ok raw ->
  decode_utf8 raw = Ok changelog ->
  Spec.no_section None changelog = true ->
  exists st',
    Ruby.get_release_notes github upstream_repo st = (Ok tt, st')
    /\ release_notes (ctx st') = Some "".
Proof.
  intros Hpr Hver H1 H2 H3 Hraw Hdec Hnone. eexists. split.
  - eapply get_release_notes_run; eauto.
    intros s. rewrite Hver. apply find_release_notes_no_match.
    unfold Re.re_search. rewrite (compile_notes_pattern d1 d2 d3 H1 H2 H3).
    cbn [Re.pbind]. unfold Spec.notes_pattern.
    now rewrite no_section_no_match.
  - reflexivity.
Qed.

End SectionSearch.

Section Trimmed.

Lemma lstrip_head (s : string) :
  Py.lstrip s = ""
  \/ exists c t, Py.lstrip s = String c t /\ Py.isspace c = false.
Proof.
  induction s as [|c s IH]; simpl; [now left|].
  destruct (Py.isspace c) eqn:E; [exact IH | right; eauto].
Qed.

Lemma rstrip_head (c : ascii) (t : string) :
  Py.isspace c = false -> exists t', Py.rstrip (String c t) = String c t'.
Proof.
  intros H. cbn [Py.rstrip]. destruct (Py.rstrip t); rewrite ?H; eauto.
Qed.

Lemma rstrip_idempotent (s : string) : Py.rstrip (Py.rstrip s) = Py.rstrip s.
Proof.
  induction s as [|c s IH]; [reflexivity|].
  cbn [Py.rstrip]. destruct (Py.rstrip s) as [|d r] eqn:E.
  - destruct (Py.isspace c) eqn:Ec; [reflexivity|].
    cbn [Py.rstrip]. now rewrite Ec.
  - cbn [Py.rstrip] in *. rewrite IH. reflexivity.
Qed.

(** [s.strip()] is trimmed: stripping it again changes nothing. *)
Lemma strip_idempotent (s : string) : Py.strip (Py.strip s) = Py.strip s.
Proof.
  unfold Py.strip.
  destruct (lstrip_head s) as [E | (c & t & E & Hc)]; rewrite E.
  - reflexivity.
  - destruct (@rstrip_head c t Hc) as [t' E'].
    rewrite E'. cbn [Py.lstrip]. rewrite Hc. rewrite <- E'.
    apply rstrip_idempotent.
Qed.

Lemma find_release_notes_state (version : option string) (changelog : string)
      (st st' : State) (notes : string) :
  Ruby.find_release_notes version changelog st = (Ok notes, st') -> st' = st.
Proof.
  unfold Ruby.find_release_notes. intros H. run_back.
  match goal with
  | H : (match ?m with Some _ => _ | None => _ end) _ = _ |- _ =>
      destruct m
  end; run_back; reflexivity.
Qed.

Variable github : Client.GitHub.
Variable upstream_repo : string.

Lemma find_release_notes_trimmed (version : option string) (changelog : string)
      (st st' : State) (notes : string) :
  Ruby.find_release_notes version changelog st = (Ok notes, st') ->
  Py.strip notes = notes.
Proof.
  unfold Ruby.find_release_notes. intros H. run_back.
  match goal with
  | H : (match ?m with Some _ => _ | None => _ end) _ = _ |- _ =>
      destruct m
  end; run_back; [apply strip_idempotent | reflexivity].
Qed.

(** X13. Whenever the release-notes step ends normally, whatever the
    version and the changelog, the notes it stores are trimmed (stripping
    them again changes nothing); nothing else of the context is changed and
    nothing is read from the terminal. *)
Theorem release_notes_trimmed (st st' : State) :
  Ruby.get_release_notes github upstream_repo st = (Ok tt, st') ->
  exists notes,
    ctx st' = set_release_notes (Some notes) (ctx st)
    /\ Py.strip notes = notes
    /\ stdin st' = stdin st.
Proof.
  intros Hrun. unfold Ruby.get_release_notes in Hrun. run_back.
  cbn [ctx stdin events] in *.
  match goal with
  | H : Ruby.find_release_notes _ _ _ = (Ok ?n, _) |- _ =>
      pose proof (@find_release_notes_trimmed _ _ _ _ _ H) as Htrim;
      apply find_release_notes_state in H; subst; exists n
  end.
  repeat split; auto.
Qed.

End Trimmed.

Section UnescapedVersion.

Variable github : Client.GitHub.
Variable upstream_repo : string.

Lemma strip_keeps_text (c : ascii) (t : string) :
  Py.isspace c = false -> Py.strip (String c t) <> "".
Proof.
  intros H. unfold Py.strip. cbn [Py.lstrip]. rewrite H.
  destruct (@rstrip_head c t H) as [t' ->]. discriminate.
Qed.

(** C10. The version is put into the search pattern as it is, so its dots
    are the pattern's any-character sign (the first part below).  Hence for
    a version <d>.<d>.<d> and every changelog that starts with a header line
    "### <text> / <date>" whose five-character version text agrees with the
    version at the three digits, whatever stands at the places of the two
    dots, the search and the step give the body of that section: the text
    behind the header line up to the start of the next header, stripped;
    not the empty string, when that text starts with a character that is no
    white space.  The header's version text differs from the version as soon
    as one of the two characters is no dot. *)
Theorem version_dots_match_any_character (st : State) (pull : PullRequest)
        (d1 d2 d3 x y : ascii) (date raw : string) (c : ascii)
        (text : string) :
  release_pr (ctx st) = Some pull ->
  release_version (ctx st) = Some (Spec.dotted d1 d2 d3) ->
  Py.isdigit d1 = true -> Py.isdigit d2 = true -> Py.isdigit d3 = true ->
  Spec.is_date date = true ->
  Client.get_contents github upstream_repo
                      (Py.fmt (package_name (ctx st)) ++ "/CHANGELOG.md")
                      (merge_commit_sha pull) = Ok raw ->
  let header_version :=
    String d1 (String x (String d2 (String y (String d3 "")))) in
  let changelog := Spec.section_header header_version date ++ String c text in
  decode_utf8 raw = Ok changelog ->
  let body := Py.strip (String c (Spec.until_header text)) in
  Re.compile (Ruby.release_notes_pattern (release_version (ctx st)))
  = Re.Parsed (Spec.notes_pattern d1 d2 d3)
  /\ (forall s,
         Ruby.find_release_notes (release_version (ctx st)) changelog s
         = (Ok body, s))
  /\ (exists st',
         Ruby.get_release_notes github upstream_repo st = (Ok tt, st')
         /\ release_notes (ctx st') = Some body)
  /\ (Py.isspace c = false -> body <> "")
  /\ (x <> "."%char \/ y <> "."%char -> header_version <> Spec.dotted d1 d2 d3).
Proof.
  intros Hpr Hver H1 H2 H3 Hdate Hraw header_version changelog Hdec body.
  assert (Hfind : forall s,
             Ruby.find_release_notes (release_version (ctx st)) changelog s
             = (Ok body, s)).
  { intros s. rewrite Hver. subst changelog header_version body.
    apply (@find_release_notes_section d1 x d2 y d3 date "" c text s);
      auto. }
  split; [|split; [|split; [|split]]].
  - rewrite Hver. now apply compile_notes_pattern.
  - exact Hfind.
  - eexists. split.
    + eapply get_release_notes_run; eauto.
    + reflexivity.
  - apply strip_keeps_text.
  - subst header_version. unfold Spec.dotted.
    intros [Hx|Hy] E; inversion E; congruence.
Qed.

End UnescapedVersion.

Lemma version_dots_match_any_character_witness :
  exists st',
    Ruby.get_release_notes
      (Sample.github [] Sample.other_changelog) Sample.repo
      (Sample.derived Sample.release_pull "google-cloud-storage" "1.2.3")
    = (Ok tt, st')
    /\ release_notes (ctx st') = Some "Notes of another entry.".
Proof.
  destruct (@version_dots_match_any_character
              (Sample.github [] Sample.other_changelog) Sample.repo
              (Sample.derived Sample.release_pull "google-cloud-storage" "1.2.3")
              Sample.release_pull "1" "2" "3" "a" "b" "2020-01-01"
              Sample.other_changelog "N" ("otes of another entry." ++ nl)
              eq_refl eq_refl eq_refl eq_refl eq_refl eq_refl eq_refl eq_refl)
    as (_ & _ & (st' & Hrun & Hnotes) & _).
  exists st'. split; [exact Hrun | exact Hnotes].
Defined.

Section SearchTotal.




Variable github : Client.GitHub.
Variable upstream_repo : string.


End SearchTotal.

Lemma release_notes_of_section_witness :
  exists st',
    Ruby.get_release_notes
      (Sample.github [] Sample.changelog) Sample.repo
      (Sample.derived Sample.release_pull "google-cloud-storage" "1.2.3")
    = (Ok tt, st')
    /\ release_notes (ctx st') = Some "Fixed a bug.".
Proof.
  destruct (@release_notes_of_section
              (Sample.github [] Sample.changelog) Sample.repo
              (Sample.derived Sample.release_pull "google-cloud-storage" "1.2.3")
              Sample.release_pull "1" "." "2" "." "3" "2020-01-01"
              Sample.changelog Sample.changelog_title "F"
              ("ixed a bug." ++ nl ++ "### 1.2.2 / 2019-12-01" ++ nl
                 ++ "Older notes." ++ nl)
              eq_refl eq_refl eq_refl eq_refl eq_refl eq_refl eq_refl eq_refl
              eq_refl eq_refl)
    as (st' & Hrun & Hnotes).
  exists st'. split; [exact Hrun | exact Hnotes].
Defined.

Lemma release_notes_empty_without_sections_witness :
  exists st',
    Ruby.get_release_notes
      (Sample.github [] Sample.plain_changelog) Sample.repo
      (Sample.derived Sample.release_pull "google-cloud-storage" "1.2.3")
    = (Ok tt, st')
    /\ release_notes (ctx st') = Some "".
Proof.
  apply (@release_notes_empty_without_sections
           (Sample.github [] Sample.plain_changelog) Sample.repo
           (Sample.derived Sample.release_pull "google-cloud-storage" "1.2.3")
           Sample.release_pull "1" "2" "3"
           Sample.plain_changelog Sample.plain_changelog);
    reflexivity.
Defined.

Lemma release_notes_trimmed_witness :
  let st := Sample.derived Sample.release_pull "google-cloud-storage" "1.2.3" in
  let st' := snd (Ruby.get_release_notes (Sample.github [] Sample.changelog)
                                         Sample.repo st) in
  exists notes,
    ctx st' = set_release_notes (Some notes) (ctx st)
    /\ Py.strip notes = notes
    /\ stdin st' = stdin st.
Proof.
  apply (@release_notes_trimmed (Sample.github [] Sample.changelog) Sample.repo).
  vm_compute. reflexivity.
Defined.


(* ===================================================================== *)
(** ** Step 4: creating the release *)
(* ===================================================================== *)

Section ReleaseCreation.

Variable github : Client.GitHub.
Variable upstream_repo : string.

(** C5. The release is created with the bare version as its tag name (not
    the combined tag), at the merge commit, named "Release <package>
    <version>", with the release notes as body; then a comment with the
    release's URL is posted on the pull request, and the step ends as that
    call does. *)
Theorem create_release_calls (st : State) (pull : PullRequest)
        (pkg ver notes : string) (rel : Release) :
  release_pr (ctx st) = Some pull ->
  package_name (ctx st) = Some pkg ->
  release_version (ctx st) = Some ver ->
  release_notes (ctx st) = Some notes ->
  Client.create_release github upstream_repo (Some ver) (merge_commit_sha pull)
                        ("Release " ++ pkg ++ " " ++ ver) (Some notes) = Ok rel ->
  let comment := "Release is at " ++ html_url rel in
  exists st',
    Ruby.create_release github upstream_repo st
    = (Client.create_pull_request_comment github upstream_repo (number pull)
                                          comment, st')
    /\ github_release (ctx st') = Some rel
    /\ events st'
       = (events st ++
         [Secho "> Creating the release." None true;
          CreateRelease upstream_repo (Some ver) (merge_commit_sha pull)
                        ("Release " ++ pkg ++ " " ++ ver) (Some notes);
          Secho comment None true;
          Secho "CI will handle publishing the package to Rubygems." None true;
          CreatePullRequestComment upstream_repo (number pull) comment])%list
    /\ ver <> Ruby.tag_of (Some pkg) (Some ver)
    /\ Py.contains (html_url rel) comment = true.
Proof.
  intros Hpr Hpkg Hver Hnotes Hrel comment.
  eexists. split; [|split; [|split; [|split]]].
  - unfold Ruby.create_release.
    unfold bind, secho, emit, get_ctx, require, lift, modify, ret.
    cbn [ctx stdin events]. rewrite Hpr, Hpkg, Hver, Hnotes.
    cbn [ctx stdin events Py.fmt]. rewrite Hrel.
    cbn [ctx stdin events release_pr set_github_release]. rewrite Hpr.
    cbn [ctx stdin events]. reflexivity.
  - reflexivity.
  - cbn [events]. rewrite <- !app_assoc. reflexivity.
  - intros H. apply (f_equal String.length) in H.
    unfold Ruby.tag_of in H. cbn [Py.fmt] in H. rewrite !length_append in H.
    simpl in H. lia.
  - apply contains_spec. exists "Release is at ", "".
    subst comment. now rewrite append_nil_r.
Qed.

End ReleaseCreation.

Lemma create_release_calls_witness :
  exists st',
    Ruby.create_release
      (Sample.github [] "") Sample.repo
      (Sample.noted Sample.release_pull "google-cloud-storage" "1.2.3"
                    "Fixed a bug.")
    = (Ok tt, st')
    /\ github_release (ctx st') = Some Sample.release.
Proof.
  destruct (@create_release_calls
              (Sample.github [] "") Sample.repo
              (Sample.noted Sample.release_pull "google-cloud-storage" "1.2.3"
                            "Fixed a bug.")
              Sample.release_pull "google-cloud-storage" "1.2.3" "Fixed a bug."
              Sample.release eq_refl eq_refl eq_refl eq_refl eq_refl)
    as (st' & Hrun & Hrel & _).
  exists st'. split; assumption.
Defined.

Section ReleaseOutcome.

Variable github : Client.GitHub.
Variable upstream_repo : string.

(** X18. How the creation step ends, a pull request selected.  When the
    client refuses to create the release the step ends in that fault:
    nothing is stored and no comment is posted.  When the release is
    created it is stored, and the step ends as the call that posts the
    comment does; if that call fails the release is stored all the same. *)
Theorem create_release_outcome (st : State) (pull : PullRequest) :
  release_pr (ctx st) = Some pull ->
  let name := "Release " ++ Py.fmt (package_name (ctx st)) ++ " "
                         ++ Py.fmt (release_version (ctx st)) in
  let asked :=
    [Secho "> Creating the release." None true;
     CreateRelease upstream_repo (release_version (ctx st))
                   (merge_commit_sha pull) name (release_notes (ctx st))] in
  let run := Ruby.create_release github upstream_repo st in
  match Client.create_release github upstream_repo (release_version (ctx st))
                              (merge_commit_sha pull) name
                              (release_notes (ctx st)) with
  | Raise e =>
      run = (Raise e,
             {| ctx := ctx st; stdin := stdin st;
                events := events st ++ asked |})
  | Ok rel =>
      let comment := "Release is at " ++ html_url rel in
      run = (Client.create_pull_request_comment github upstream_repo
                                                (number pull) comment,
             {| ctx := set_github_release (Some rel) (ctx st);
                stdin := stdin st;
                events :=
                  (events st ++ asked ++
                   [Secho comment None true;
                    Secho "CI will handle publishing the package to Rubygems."
                          None true;
                    CreatePullRequestComment upstream_repo (number pull)
                                             comment])%list |})
  end.
Proof.
  intros Hpr. cbv zeta. unfold Ruby.create_release.
  unfold bind, secho, emit, get_ctx, require, lift, modify, ret.
  cbn [ctx stdin events]. rewrite Hpr. cbn [ctx stdin events].
  destruct (Client.create_release _ _ _ _ _ _) as [rel|e].
  - cbn [ctx stdin events release_pr set_github_release]. rewrite Hpr.
    cbn [ctx stdin events]. repeat rewrite <- app_assoc. reflexivity.
  - repeat rewrite <- app_assoc. reflexivity.
Qed.

(** X19. The steps need what the steps before them left.  Without a pull
    request in the context the derivation of the tag, the release-notes step
    and the creation step each end in TypeError, the context untouched, and
    the latter two before any call to the client; without a tag the second
    derivation ends in TypeError, the context untouched. *)
Theorem steps_need_their_inputs (st : State) :
  (release_pr (ctx st) = None ->
   fst (Ruby.determine_release_tag st) = Raise TypeError
   /\ ctx (snd (Ruby.determine_release_tag st)) = ctx st
   /\ fst (Ruby.get_release_notes github upstream_repo st) = Raise TypeError
   /\ ctx (snd (Ruby.get_release_notes github upstream_repo st)) = ctx st
   /\ Spec.calls (events (snd (Ruby.get_release_notes github upstream_repo st)))
      = Spec.calls (events st)
   /\ fst (Ruby.create_release github upstream_repo st) = Raise TypeError
   /\ ctx (snd (Ruby.create_release github upstream_repo st)) = ctx st
   /\ Spec.calls (events (snd (Ruby.create_release github upstream_repo st)))
      = Spec.calls (events st))
  /\ (release_tag (ctx st) = None ->
      fst (Ruby.determine_package_name_and_version st) = Raise TypeError
      /\ ctx (snd (Ruby.determine_package_name_and_version st)) = ctx st).
Proof.
  assert (Hq : forall text fg nl,
             Spec.calls (events st ++ [Secho text fg nl]) = Spec.calls (events st)).
  { intros. induction (events st) as [|e es IH]; [reflexivity|].
    simpl. destruct (Spec.call_of e); now rewrite IH. }
  split.
  - intros Hpr.
    unfold Ruby.determine_release_tag, Ruby.get_release_notes,
      Ruby.create_release.
    unfold bind, secho, emit, get_ctx, require, raise.
    cbn [ctx stdin events]. rewrite Hpr. cbn [fst snd ctx events].
    rewrite !Hq. repeat split; reflexivity.
  - intros Htag. unfold Ruby.determine_package_name_and_version.
    unfold bind, secho, emit, get_ctx, require, raise.
    cbn [ctx stdin events]. rewrite Htag. split; reflexivity.
Qed.

End ReleaseOutcome.

Lemma create_release_outcome_witness :
  let st := Sample.noted Sample.release_pull "google-cloud-storage" "1.2.3"
                         "Fixed a bug." in
  let comment := "Release is at " ++ html_url Sample.release in
  Ruby.create_release (Sample.github [] "") Sample.repo st
  = (Ok tt,
     {| ctx := set_github_release (Some Sample.release) (ctx st);
        stdin := "";
        events :=
          [Secho "> Creating the release." None true;
           CreateRelease Sample.repo (Some "1.2.3") "4f2a9c1"
                         "Release google-cloud-storage 1.2.3"
                         (Some "Fixed a bug.");
           Secho comment None true;
           Secho "CI will handle publishing the package to Rubygems." None true;
           CreatePullRequestComment Sample.repo 41 comment] |}).
Proof.
  exact (@create_release_outcome
           (Sample.github [] "") Sample.repo
           (Sample.noted Sample.release_pull "google-cloud-storage" "1.2.3"
                         "Fixed a bug.")
           Sample.release_pull eq_refl).
Defined.

Lemma steps_need_their_inputs_witness :
  fst (Ruby.determine_release_tag (Sample.initial "")) = Raise TypeError
  /\ fst (Ruby.determine_package_name_and_version (Sample.initial ""))
     = Raise TypeError.
Proof.
  destruct (@steps_need_their_inputs (Sample.github [] "") Sample.repo
                                     (Sample.initial "")) as [Hpr Htag].
  split; [apply (Hpr eq_refl) | apply (Htag eq_refl)].
Defined.

(* ===================================================================== *)
(** ** Step 5: waiting for the CI build *)
(* ===================================================================== *)

Section CircleWait.

Variable github : Client.GitHub.
Variable upstream_repo : string.
Variable new_CircleCI : string -> Client.CircleCI.
Variable getuser : string.
Variable setup_github_context : M unit.

Lemma tag_splits (st : State) :
  Ruby.tag github upstream_repo new_CircleCI getuser setup_github_context st
  = bind (Spec.before_wait github upstream_repo getuser setup_github_context)
         (fun _ => bind (Ruby.wait_on_circle upstream_repo new_CircleCI)
                        (fun _ => secho "\o/ All done!" Ruby.magenta true)) st.
Proof.
  unfold Ruby.tag, Spec.before_wait.
  repeat (rewrite bind_assoc; apply bind_ext; intros).
  reflexivity.
Qed.

(** C8. When the CI client has no build for the tag <package>/v<version>,
    the wait step says so and ends normally without asking for the status
    generator; and a run whose earlier steps went through ends normally,
    its last line the closing message. *)
Theorem wait_on_circle_without_build (st : State) :
  Client.get_latest_build_by_tag
    (new_CircleCI upstream_repo)
    (Ruby.tag_of (package_name (ctx st)) (release_version (ctx st))) = Ok None ->
  let tag_name := Ruby.tag_of (package_name (ctx st)) (release_version (ctx st)) in
  let said :=
    [NewCircleCI upstream_repo;
     Secho "> Waiting for CircleCI to queue a release build" None true;
     GetLatestBuildByTag tag_name;
     Secho ("CircleCI Build not found for tag " ++ tag_name ++ "...") None true] in
  Ruby.wait_on_circle upstream_repo new_CircleCI st
  = (Ok tt, {| ctx := ctx st; stdin := stdin st;
               events := events st ++ said |})
  /\ (forall n, ~ In (GetBuildStatusGenerator n) said)
  /\ (forall st0 : State,
         Spec.before_wait github upstream_repo getuser setup_github_context st0
         = (Ok tt, st) ->
         Ruby.tag github upstream_repo new_CircleCI getuser setup_github_context
                  st0
         = (Ok tt,
            {| ctx := ctx st; stdin := stdin st;
               events := (events st ++ said)
                           ++ [Secho "\o/ All done!" Ruby.magenta true] |})).
Proof.
  intros Hnone tag_name said.
  assert (Hwait : Ruby.wait_on_circle upstream_repo new_CircleCI st
                  = (Ok tt, {| ctx := ctx st; stdin := stdin st;
                               events := events st ++ said |})).
  { unfold Ruby.wait_on_circle.
    unfold bind, secho, emit, get_ctx, lift. cbn [ctx stdin events].
    rewrite Hnone. cbn [ctx stdin events]. subst said tag_name.
    rewrite <- !app_assoc. reflexivity. }
  split; [exact Hwait|]. split.
  - intros n Hin. subst said. simpl in Hin.
    repeat (destruct Hin as [Hin|Hin]; [discriminate|]). exact Hin.
  - intros st0 Hbefore. rewrite tag_splits.
    unfold bind at 1. rewrite Hbefore. unfold bind at 1. rewrite Hwait.
    reflexivity.
Qed.

End CircleWait.

Lemma wait_on_circle_without_build_witness :
  let github := Sample.github Sample.pulls Sample.changelog in
  let st0 := Sample.initial ("1" ++ nl) in
  fst (Ruby.tag github Sample.repo Sample.no_build "releaser" (ret tt) st0)
  = Ok tt.
Proof.
  cbv zeta.
  pose (st := snd (Spec.before_wait (Sample.github Sample.pulls Sample.changelog)
                                    Sample.repo "releaser" (ret tt)
                                    (Sample.initial ("1" ++ nl)))).
  destruct (@wait_on_circle_without_build
              (Sample.github Sample.pulls Sample.changelog) Sample.repo
              Sample.no_build "releaser" (ret tt) st eq_refl)
    as (_ & _ & Hrun).
  rewrite (Hrun (Sample.initial ("1" ++ nl))); [reflexivity|].
  vm_compute. reflexivity.
Defined.

(* ===================================================================== *)
(** ** Step 5, a build found *)
(* ===================================================================== *)

Section BuildFound.

Variable upstream_repo : string.
Variable new_CircleCI : string -> Client.CircleCI.

Lemma show_states_events (states : list string) :
  forall st,
    Ruby.show_states states st
    = (Ok tt, {| ctx := ctx st; stdin := stdin st;
                 events := events st ++ Spec.state_lines states |}).
Proof.
  induction states as [|state states IH]; intros st; simpl.
  - unfold ret. rewrite app_nil_r. now destruct st.
  - unfold bind, secho, emit. cbn [ctx stdin events].
    rewrite IH. cbn [ctx stdin events]. rewrite <- app_assoc. reflexivity.
Qed.

(** The wait step, by the answer of the CI client. *)
Lemma wait_on_circle_run (st : State) :
  let tag_name := Ruby.tag_of (package_name (ctx st)) (release_version (ctx st)) in
  let circle := new_CircleCI upstream_repo in
  let asked :=
    [NewCircleCI upstream_repo;
     Secho "> Waiting for CircleCI to queue a release build" None true;
     GetLatestBuildByTag tag_name] in
  Ruby.wait_on_circle upstream_repo new_CircleCI st
  = match Client.get_latest_build_by_tag circle tag_name with
    | Ok (Some build) =>
        (Ok tt,
         {| ctx := ctx st; stdin := stdin st;
            events :=
              events st
                ++ Spec.build_report
                     upstream_repo tag_name build
                     (Client.get_build_status_generator circle
                                                        (build_num build)) |})
    | Ok None =>
        (Ok tt,
         {| ctx := ctx st; stdin := stdin st;
            events :=
              events st ++ asked
                ++ [Secho ("CircleCI Build not found for tag " ++ tag_name
                             ++ "...") None true] |})
    | Raise e =>
        (Raise e,
         {| ctx := ctx st; stdin := stdin st; events := events st ++ asked |})
    end.
Proof.
  cbv zeta. unfold Ruby.wait_on_circle.
  unfold bind, secho, emit, get_ctx, lift. cbn [ctx stdin events].
  destruct (Client.get_latest_build_by_tag _ _) as [[build|]|e].
  - rewrite show_states_events. cbn [ctx stdin events].
    unfold Spec.build_report. repeat rewrite <- app_assoc. reflexivity.
  - cbn [ctx stdin events]. repeat rewrite <- app_assoc. reflexivity.
  - repeat rewrite <- app_assoc. reflexivity.
Qed.

(** X15. When the CI client has a build for the tag
    <package>/v<version>, the wait step says where the build is, asks once
    for the states of the build with that number, shows one line per state
    (each ending in a carriage return, without a line feed) and ends
    normally when the states end; the context is untouched and nothing is
    read from the terminal. *)
Theorem wait_on_circle_with_build (st : State) (build : Build) :
  let tag_name := Ruby.tag_of (package_name (ctx st)) (release_version (ctx st)) in
  let circle := new_CircleCI upstream_repo in
  Client.get_latest_build_by_tag circle tag_name = Ok (Some build) ->
  let states := Client.get_build_status_generator circle (build_num build) in
  Ruby.wait_on_circle upstream_repo new_CircleCI st
  = (Ok tt,
     {| ctx := ctx st; stdin := stdin st;
        events := events st
                    ++ Spec.build_report upstream_repo tag_name build states |})
  /\ List.length (Spec.state_lines states) = List.length states
  /\ (forall text fg nl,
         In (Secho text fg nl) (Spec.state_lines states) -> nl = false).
Proof.
  intros tag_name circle Hbuild states. split; [|split].
  - rewrite wait_on_circle_run. cbv zeta. fold tag_name circle.
    now rewrite Hbuild.
  - unfold Spec.state_lines. apply length_map.
  - intros text fg nl Hin. unfold Spec.state_lines in Hin.
    apply in_map_iff in Hin. destruct Hin as (s & Hs & _). now inversion Hs.
Qed.

End BuildFound.

Lemma wait_on_circle_with_build_witness :
  let st := Sample.noted Sample.release_pull "google-cloud-storage" "1.2.3"
                         "Fixed a bug." in
  Ruby.wait_on_circle Sample.repo Sample.with_build st
  = (Ok tt,
     {| ctx := ctx st; stdin := "";
        events := Spec.build_report Sample.repo "google-cloud-storage/v1.2.3"
                                    Sample.build
                                    ["queued"; "running"; "success"] |}).
Proof.
  cbv zeta.
  apply (proj1 (@wait_on_circle_with_build
                  Sample.repo Sample.with_build
                  (Sample.noted Sample.release_pull "google-cloud-storage"
                                "1.2.3" "Fixed a bug.")
                  Sample.build eq_refl)).
Defined.

(* ===================================================================== *)
(** ** The whole run *)
(* ===================================================================== *)

Section Traces.

Lemma calls_app (a b : list event) :
  Spec.calls (a ++ b) = (Spec.calls a ++ Spec.calls b)%list.
Proof.
  induction a as [|e a IH]; simpl; [reflexivity|].
  destruct (Spec.call_of e); simpl; now rewrite IH.
Qed.

Lemma traces_ret {A : Type} (a : A) : Spec.traces (ret a) [].
Proof. intros st. exists []. simpl. now rewrite app_nil_r. Qed.

Lemma traces_raise {A : Type} (e : exn) (full : list Spec.call) :
  Spec.traces (@raise A e) full.
Proof. intros st. exists []. simpl. rewrite app_nil_r. split; eauto. Qed.

Lemma traces_get_ctx : Spec.traces get_ctx [].
Proof. intros st. exists []. simpl. now rewrite app_nil_r. Qed.

Lemma traces_modify (f : Context -> Context) : Spec.traces (modify f) [].
Proof. intros st. exists []. simpl. now rewrite app_nil_r. Qed.

Lemma traces_emit (e : event) :
  Spec.traces (emit e)
              (match Spec.call_of e with Some c => [c] | None => [] end).
Proof.
  intros st. eexists. simpl. rewrite calls_app. split; [reflexivity|].
  simpl. now destruct (Spec.call_of e).
Qed.

Lemma traces_secho (text : string) (fg : option string) (nl : bool) :
  Spec.traces (secho text fg nl) [].
Proof. apply (traces_emit (Secho text fg nl)). Qed.

Lemma traces_print (text : string) : Spec.traces (print text) [].
Proof. apply (traces_emit (Print text)). Qed.

Lemma traces_require {A : Type} (o : option A) (e : exn) :
  Spec.traces (require o e) [].
Proof. destruct o; [apply traces_ret | apply traces_raise]. Qed.

Lemma traces_of_parsed {A : Type} (p : Re.parsed A) :
  Spec.traces (of_parsed p) [].
Proof. destruct p; [apply traces_ret | apply traces_raise ..]. Qed.

Lemma traces_bind {A B : Type} (m : M A) (k : A -> M B)
      (f1 f2 : list Spec.call) :
  Spec.traces m f1 -> (forall a, Spec.traces (k a) f2) ->
  Spec.traces (bind m k) (f1 ++ f2)%list.
Proof.
  intros Hm Hk st. unfold bind.
  destruct (Hm st) as (cs1 & E1 & O1).
  destruct (m st) as [[a|e] st1]; cbn [fst snd] in *.
  - destruct (Hk a st1) as (cs2 & E2 & O2).
    exists (cs1 ++ cs2)%list. rewrite E2, E1, app_assoc. split; [reflexivity|].
    subst cs1. destruct (fst (k a st1)).
    + now subst.
    + destruct O2 as [rest ->]. exists rest. now rewrite app_assoc.
  - exists cs1. split; [exact E1|]. destruct O1 as [rest ->].
    exists (rest ++ f2)%list. now rewrite app_assoc.
Qed.

Lemma traces_then {A B : Type} (m : M A) (k : A -> M B)
      (full : list Spec.call) :
  Spec.traces m [] -> (forall a, Spec.traces (k a) full) ->
  Spec.traces (bind m k) full.
Proof. intros Hm Hk. apply (@traces_bind _ _ m k _ _ Hm Hk). Qed.


Lemma traces_input : Spec.traces input [].
Proof.
  intros st. exists []. rewrite app_nil_r. unfold input.
  destruct (stdin st) as [|c s].
  - simpl. split; [reflexivity | now exists []].
  - destruct (read_line (String c s)). simpl. auto.
Qed.

End Traces.

Create HintDb traces.
#[export] Hint Resolve traces_ret traces_raise traces_get_ctx traces_modify
  traces_secho traces_print traces_require traces_of_parsed traces_input
  : traces.


Section StepTraces.

Variable github : Client.GitHub.
Variable upstream_repo : string.
Variable new_CircleCI : string -> Client.CircleCI.







Lemma traces_show_states (states : list string) :
  Spec.traces (Ruby.show_states states) [].
Proof.
  induction states as [|state states IH]; simpl; [auto with traces|].
  apply traces_then; [auto with traces | intros _]. apply IH.
Qed.








End StepTraces.

Section WholeRun.

Variable github : Client.GitHub.
Variable upstream_repo : string.
Variable new_CircleCI : string -> Client.CircleCI.
Variable getuser : string.
Variable setup_github_context : M unit.





End WholeRun.

Section NormalEnds.

Variable github : Client.GitHub.
Variable upstream_repo : string.
Variable new_CircleCI : string -> Client.CircleCI.
Variable getuser : string.
Variable setup_github_context : M unit.

(** A normal end of the derivation step: name, version and tag are set
    and fit together; the pull request is the one selected. *)
Lemma determine_release_tag_ends (st st' : State) (u : unit) :
  Ruby.determine_release_tag st = (Ok u, st') ->
  exists pkg ver,
    package_name (ctx st') = Some pkg
    /\ release_version (ctx st') = Some ver
    /\ release_tag (ctx st') = Some (pkg ++ "/v" ++ ver)
    /\ Spec.is_package_name pkg = true
    /\ Spec.is_version ver = true
    /\ release_pr (ctx st') = release_pr (ctx st).
Proof.
  intros Hrun. unfold Ruby.determine_release_tag in Hrun. run_back.
  cbn [ctx stdin events] in *.
  match goal with
  | H : Re.re_match Ruby.head_ref_pattern _ _ = Re.Parsed ?x |- _ =>
      destruct x as [m|]; rename H into Hmatch
  end; run_back; cbn [ctx stdin events] in *.
  - apply head_ref_match_shape in Hmatch.
    destruct Hmatch as (pkg & d1 & d2 & c2 & d3 & tail & Hshape).
    cbv zeta in Hshape.
    destruct Hshape as (_ & Hpkg & Hver & _ & Hg1 & Hg2).
    repeat match goal with
           | H : Re.group _ _ = Some _ |- _ =>
               first [rewrite Hg1 in H | rewrite Hg2 in H];
               inversion H; subst; clear H
           end.
    cbn. eexists _, _. repeat split; eauto.
  - match goal with
    | H : prompt _ _ = (Ok _, _) |- _ =>
        apply prompt_line in H; destruct H as (Hline & _ & Hctx)
    end.
    match goal with
    | H : Ruby.determine_package_name_and_version _ = (Ok _, _) |- _ =>
        apply determine_package_name_and_version_inv in H;
        destruct H as (tag & m & g1 & g2 & Htag & Hmatch2 & Hg1 & Hg2 & Hctx2)
    end.
    cbn [ctx release_tag set_release_tag] in Htag. inversion Htag; subst tag.
    apply release_tag_match_shape in Hmatch2.
    destruct Hmatch2
      as (pkg & ver & tail & Htyped & Hpkg & Hver & Htail & G1 & G2).
    rewrite G1 in Hg1. rewrite G2 in Hg2.
    inversion Hg1; inversion Hg2; subst g1 g2.
    assert (tail = "") as ->.
    { eapply single_line_tail; eauto. }
    rewrite append_nil_r in Htyped.
    rewrite Hctx2. cbn. exists pkg, ver. rewrite Htyped, Hctx.
    repeat split; auto.
Qed.

Lemma get_release_notes_ends (st st' : State) (u : unit) :
  Ruby.get_release_notes github upstream_repo st = (Ok u, st') ->
  exists pull notes,
    release_pr (ctx st) = Some pull
    /\ ctx st' = set_release_notes (Some notes) (ctx st)
    /\ events st'
       = (events st ++
         [Secho "> Grabbing the release notes." Ruby.cyan true;
          GetContents upstream_repo
                      (Py.fmt (package_name (ctx st)) ++ "/CHANGELOG.md")
                      (merge_commit_sha pull);
          Secho ("Here's the release notes:" ++ nl ++ nl ++ notes ++ nl)
                None true])%list.
Proof.
  intros Hrun. unfold Ruby.get_release_notes in Hrun. run_back.
  cbn [ctx stdin events] in *.
  match goal with
  | H : Ruby.find_release_notes _ _ _ = (Ok ?n, _) |- _ =>
      apply find_release_notes_state in H; subst; eexists _, n
  end.
  split; [eassumption|]. split; [reflexivity|].
  cbn [ctx events release_notes set_release_notes Py.fmt].
  repeat rewrite <- app_assoc. reflexivity.
Qed.

Lemma create_release_ends (st st' : State) (u : unit) :
  Ruby.create_release github upstream_repo st = (Ok u, st') ->
  exists pull rel,
    release_pr (ctx st) = Some pull
    /\ ctx st' = set_github_release (Some rel) (ctx st)
    /\ events st'
       = (events st ++
         [Secho "> Creating the release." None true;
          CreateRelease upstream_repo (release_version (ctx st))
                        (merge_commit_sha pull)
                        ("Release " ++ Py.fmt (package_name (ctx st)) ++ " "
                                    ++ Py.fmt (release_version (ctx st)))
                        (release_notes (ctx st));
          Secho ("Release is at " ++ html_url rel) None true;
          Secho "CI will handle publishing the package to Rubygems." None true;
          CreatePullRequestComment upstream_repo (number pull)
                                   ("Release is at " ++ html_url rel)])%list.
Proof.
  intros Hrun. unfold Ruby.create_release in Hrun. run_back.
  cbn [ctx stdin events release_pr set_github_release] in *.
  match goal with
  | H1 : release_pr (ctx st) = Some ?p, H2 : release_pr (ctx st) = Some ?q |- _ =>
      rewrite H1 in H2; inversion H2; subst
  end.
  eexists _, _. split; [eassumption|]. split; [reflexivity|].
  repeat rewrite <- app_assoc. reflexivity.
Qed.

Lemma wait_on_circle_ends (st st' : State) (u : unit) :
  Ruby.wait_on_circle upstream_repo new_CircleCI st = (Ok u, st') ->
  ctx st' = ctx st
  /\ exists es,
      events st' = (events st ++ es)%list
      /\ In (GetLatestBuildByTag
               (Ruby.tag_of (package_name (ctx st)) (release_version (ctx st))))
            es.
Proof.
  rewrite wait_on_circle_run. cbv zeta.
  destruct (Client.get_latest_build_by_tag _ _) as [[build|]|e]; intros H;
    inversion H; subst; cbn [ctx events]; (split; [reflexivity|]);
    eexists; (split; [reflexivity|]); simpl; auto.
Qed.

(** X16. Whenever a whole run ends normally, every field of the context
    is set: the pull request (its title mentions a release), the package
    name and the version (of the tag patterns' shapes), the tag
    <package>/v<version>, the notes and the release.  The release was created
    under the bare version for the merge commit of that pull request, named
    "Release <package> <version>", with the notes as body; the changelog was
    read from <package>/CHANGELOG.md at that merge commit; the comment with
    the release's URL went to that pull request; the CI build was looked up
    under the tag; and the last thing said is the closing message. *)
Theorem tag_normal_end (st0 st' : State) :
  Ruby.tag github upstream_repo new_CircleCI getuser setup_github_context st0
  = (Ok tt, st') ->
  exists pull pkg ver notes rel,
    ctx st'
    = {| package_name := Some pkg; release_pr := Some pull;
         release_tag := Some (pkg ++ "/v" ++ ver);
         release_version := Some ver; release_notes := Some notes;
         github_release := Some rel |}
    /\ Spec.mentions_release pull
    /\ Spec.is_package_name pkg = true /\ Spec.is_version ver = true
    /\ In (GetContents upstream_repo (pkg ++ "/CHANGELOG.md")
                       (merge_commit_sha pull))
          (events st')
    /\ In (CreateRelease upstream_repo (Some ver) (merge_commit_sha pull)
                         ("Release " ++ pkg ++ " " ++ ver) (Some notes))
          (events st')
    /\ In (CreatePullRequestComment upstream_repo (number pull)
                                    ("Release is at " ++ html_url rel))
          (events st')
    /\ In (GetLatestBuildByTag (pkg ++ "/v" ++ ver)) (events st')
    /\ exists es,
        events st' = (es ++ [Secho "\o/ All done!" Ruby.magenta true])%list.
Proof.
  intros Hrun. unfold Ruby.tag in Hrun.
  apply bind_Ok in Hrun. destruct Hrun as (u0 & s0 & _ & Hrun).
  apply bind_Ok in Hrun. destruct Hrun as (u1 & s1 & _ & Hrun).
  apply bind_Ok in Hrun. destruct Hrun as (u2 & s2 & _ & Hrun).
  apply bind_Ok in Hrun. destruct Hrun as ([] & s3 & Hpr & Hrun).
  apply bind_Ok in Hrun. destruct Hrun as (u4 & s4 & Htag & Hrun).
  apply bind_Ok in Hrun. destruct Hrun as (u5 & s5 & Hnotes & Hrun).
  apply bind_Ok in Hrun. destruct Hrun as (u6 & s6 & Hrel & Hrun).
  apply bind_Ok in Hrun. destruct Hrun as (u7 & s7 & Hwait & Hdone).
  apply determine_release_pr_stores_candidate in Hpr.
  destruct Hpr as (pulls & pull & _ & Hcand & Hpull).
  apply determine_release_tag_ends in Htag.
  destruct Htag as (pkg & ver & Hn & Hv & Ht & Hpkg & Hver & Hpr4).
  apply get_release_notes_ends in Hnotes.
  destruct Hnotes as (pull5 & notes & Hpr3 & Hc5 & He5).
  rewrite Hpr4, Hpull in Hpr3. inversion Hpr3; subst pull5.
  rewrite Hn in He5. cbn [Py.fmt] in He5.
  apply create_release_ends in Hrel.
  destruct Hrel as (pull' & rel & Hpr5 & Hc6 & He6).
  apply wait_on_circle_ends in Hwait. destruct Hwait as (Hc7 & es & He7 & Hin).
  unfold secho, emit in Hdone. inversion Hdone; subst st'; clear Hdone.
  cbn [ctx events].
  rewrite Hc5 in Hpr5, Hc6, He6.
  cbn [release_pr set_release_notes package_name release_version release_notes]
    in Hpr5, He6.
  rewrite Hpr4, Hpull in Hpr5. inversion Hpr5; subst pull'.
  rewrite Hn, Hv in He6. cbn [Py.fmt] in He6.
  rewrite Hc6 in Hin.
  cbn [set_release_notes set_github_release package_name release_version]
    in Hin.
  rewrite Hn, Hv in Hin. cbn [Ruby.tag_of Py.fmt] in Hin.
  exists pull, pkg, ver, notes, rel.
  split.
  { rewrite Hc7, Hc6. unfold set_github_release, set_release_notes.
    cbn [package_name release_pr release_tag release_version release_notes
         github_release].
    rewrite Hn, Hv, Ht, Hpr4, Hpull. reflexivity. }
  split.
  { apply candidate_mentions_release in Hcand. tauto. }
  split; [exact Hpkg|]. split; [exact Hver|].
  rewrite He7, He6, He5.
  split; [|split; [|split; [|split]]].
  - apply in_or_app. left. apply in_or_app. left. apply in_or_app. left.
    apply in_or_app. right. simpl. auto.
  - apply in_or_app. left. apply in_or_app. left. apply in_or_app. right.
    simpl. auto.
  - apply in_or_app. left. apply in_or_app. left. apply in_or_app. right.
    simpl. auto 10.
  - apply in_or_app. left. apply in_or_app. right. exact Hin.
  - eexists. reflexivity.
Qed.

End NormalEnds.

Lemma tag_normal_end_witness :
  let st' := snd (Ruby.tag (Sample.github Sample.pulls Sample.changelog)
                           Sample.repo Sample.with_build "releaser" (ret tt)
                           (Sample.initial ("1" ++ nl))) in
  exists pkg ver,
    release_tag (ctx st') = Some (pkg ++ "/v" ++ ver)
    /\ In (GetLatestBuildByTag (pkg ++ "/v" ++ ver)) (events st').
Proof.
  cbv zeta.
  destruct (@tag_normal_end
              (Sample.github Sample.pulls Sample.changelog) Sample.repo
              Sample.with_build "releaser" (ret tt)
              (Sample.initial ("1" ++ nl))
              (snd (Ruby.tag (Sample.github Sample.pulls Sample.changelog)
                             Sample.repo Sample.with_build "releaser" (ret tt)
                             (Sample.initial ("1" ++ nl)))))
    as (pull & pkg & ver & notes & rel & Hctx & _ & _ & _ & _ & _ & _ & Hin & _).
  - vm_compute. reflexivity.
  - exists pkg, ver. rewrite Hctx. split; [reflexivity | exact Hin].
Defined.
